(** * Entity selectors: parser and evaluator

    A shallow embedding of the [EntitySelector] class.  The repository holds
    two revisions of the class:

    - [src/EntitySelectorParser.ts], the one [RawMessageParser] imports,
      embedded in [Module Legacy];
    - [src/unnamed/part_000], which adds the rotation keys, a hand-written
      [hasitem] reader and a different evaluation order, embedded in
      [Module Revised].

    The argument tokenizer, the key/value split, the range grammar and the
    volume test have the same text in both files and are embedded once.

    Conventions of the embedding.
    - A JavaScript string is a [string]: a sequence of 8-bit code units
      (Latin-1).  The parser only inspects ASCII delimiters, digits and
      white space, of which Latin-1 has U+0009..U+000D, U+0020 and U+00A0.
    - A JavaScript number is a [number]: NaN, the two infinities, or an
      exact rational.  Rounding to the nearest double and overflow are not
      represented.
    - [JSON.parse], the printing of numbers, the host's entity query and the
      random source belong to the runtime; they are fields of the classes
      [Runtime] and [Host]. *)

From Stdlib Require Import ZArith QArith Qabs Qround Qcanon String Ascii Lia Lqa Bool.
From stdpp Require Import base option list gmap strings.

Set Warnings "-register-all".

Local Open Scope Z_scope.

(** ** JavaScript strings *)

Module JsString.

Definition chars (s : string) : list ascii := list_ascii_of_string s.
Definition ofChars (l : list ascii) : string := string_of_list_ascii l.

(** White space and line terminators, as [String.prototype.trim], [parseInt]
    and the regular-expression class [\s] see them. *)
Definition isWhiteSpace (c : ascii) : bool :=
  let n := nat_of_ascii c in
  ((9 <=? n) && (n <=? 13) || (n =? 32) || (n =? 160))%nat.

Definition isDigit (c : ascii) : bool :=
  let n := nat_of_ascii c in ((48 <=? n) && (n <=? 57))%nat.

Fixpoint trimStart (s : string) : string :=
  match s with
  | EmptyString => EmptyString
  | String c s' => if isWhiteSpace c then trimStart s' else s
  end.

Fixpoint trimEnd (s : string) : string :=
  match s with
  | EmptyString => EmptyString
  | String c s' =>
      match trimEnd s' with
      | EmptyString => if isWhiteSpace c then EmptyString else String c EmptyString
      | t => String c t
      end
  end.

Definition trim (s : string) : string := trimEnd (trimStart s).

Definition isEmpty (s : string) : bool :=
  match s with EmptyString => true | _ => false end.

Definition startsWith (p s : string) : bool := String.prefix p s.

Fixpoint endsWith (p s : string) : bool :=
  String.eqb p s ||
  match s with
  | EmptyString => false
  | String _ s' => endsWith p s'
  end.

Fixpoint includes (p s : string) : bool :=
  String.prefix p s ||
  match s with
  | EmptyString => false
  | String _ s' => includes p s'
  end.

(** [s.substring(a, b)] with both arguments given: each is clamped to
    [0 .. length], and they are swapped when [a > b]. *)
Definition substring (a b : Z) (s : string) : string :=
  let len := Z.of_nat (String.length s) in
  let a' := Z.max 0 (Z.min a len) in
  let b' := Z.max 0 (Z.min b len) in
  let lo := Z.min a' b' in
  let hi := Z.max a' b' in
  String.substring (Z.to_nat lo) (Z.to_nat (hi - lo)) s.

(** [s.substring(a)]. *)
Definition substringFrom (a : Z) (s : string) : string :=
  substring a (Z.of_nat (String.length s)) s.

(** [s.slice(0, -1)]. *)
Fixpoint sliceDropLast (s : string) : string :=
  match s with
  | EmptyString => EmptyString
  | String c EmptyString => EmptyString
  | String c s' => String c (sliceDropLast s')
  end.

(** [s.split(sep)] for a one-character separator. *)
Fixpoint split (sep : ascii) (s : string) : list string :=
  match s with
  | EmptyString => [EmptyString]
  | String c s' =>
      if Ascii.eqb c sep then EmptyString :: split sep s'
      else match split sep s' with
           | [] => [String c EmptyString]
           | p :: ps => String c p :: ps
           end
  end.

(** [parts.join(sep)]. *)
Fixpoint join (sep : string) (parts : list string) : string :=
  match parts with
  | [] => EmptyString
  | [p] => p
  | p :: ps => p +:+ sep +:+ join sep ps
  end.

Definition toLowerChar (c : ascii) : ascii :=
  let n := nat_of_ascii c in
  if ((65 <=? n) && (n <=? 90) ||
      (192 <=? n) && (n <=? 222) && negb (n =? 215))%nat
  then ascii_of_nat (n + 32) else c.

Fixpoint toLowerCase (s : string) : string :=
  match s with
  | EmptyString => EmptyString
  | String c s' => String (toLowerChar c) (toLowerCase s')
  end.

(** [value.replace(/^"|"$/g, "")]: one leading and one trailing double
    quote are removed, each when present. *)
Definition doubleQuote : ascii := "034".

Definition quoteMark : string := String doubleQuote EmptyString.

Definition stripQuotes (s : string) : string :=
  let s1 := match s with
            | String "034" s' => s'
            | _ => s
            end in
  if endsWith quoteMark s1 && negb (isEmpty s1) then sliceDropLast s1 else s1.

(** [value.replace(/"/g, '\\"')]. *)
Fixpoint escapeQuotes (s : string) : string :=
  match s with
  | EmptyString => EmptyString
  | String c s' =>
      if Ascii.eqb c doubleQuote then String "\" (String doubleQuote (escapeQuotes s'))
      else String c (escapeQuotes s')
  end.

End JsString.
Import JsString.

(** ** The argument tokenizer

    [_parseArguments], first loop (EntitySelectorParser.ts 100-118,
    part_000 73-90). *)

Record TokenizerState := {
  args : list string;
  currentArg : string;
  inBraces : Z;
  inSquareBrackets : Z;
}.

Definition tokenizerInit : TokenizerState :=
  {| args := []; currentArg := EmptyString; inBraces := 0; inSquareBrackets := 0 |}.

(** One iteration of the [for] loop on the character [char]. *)
Definition tokenizerStep (st : TokenizerState) (char : ascii) : TokenizerState :=
  let cur := currentArg st +:+ String char EmptyString in
  if Ascii.eqb char "{" then
    {| args := args st; currentArg := cur;
       inBraces := inBraces st + 1; inSquareBrackets := inSquareBrackets st |}
  else if Ascii.eqb char "}" then
    {| args := args st; currentArg := cur;
       inBraces := inBraces st - 1; inSquareBrackets := inSquareBrackets st |}
  else if Ascii.eqb char "[" then
    {| args := args st; currentArg := cur;
       inBraces := inBraces st; inSquareBrackets := inSquareBrackets st + 1 |}
  else if Ascii.eqb char "]" then
    {| args := args st; currentArg := cur;
       inBraces := inBraces st; inSquareBrackets := inSquareBrackets st - 1 |}
  else if Ascii.eqb char "," && (inBraces st =? 0) && (inSquareBrackets st =? 0) then
    {| args := args st ++ [trim (sliceDropLast cur)]; currentArg := EmptyString;
       inBraces := inBraces st; inSquareBrackets := inSquareBrackets st |}
  else
    {| args := args st; currentArg := cur;
       inBraces := inBraces st; inSquareBrackets := inSquareBrackets st |}.

(** The array [args] when the second loop starts. *)
Definition splitArguments (argsString : string) : list string :=
  let st := fold_left tokenizerStep (chars argsString) tokenizerInit in
  args st ++ [trim (currentArg st)].

(** The second loop starts with [if (!arg) continue]: the tokens it goes on
    to read are the non-empty ones. *)
Definition tokens (argsString : string) : list string :=
  List.filter (fun arg => negb (isEmpty arg)) (splitArguments argsString).

(** *** The tokenizer as the specification words it *)

Module TokenizerSpec.

Definition count (c : ascii) (l : list ascii) : Z :=
  Z.of_nat (List.length (filter (fun x => x = c) l)).

(** Running depth of the pair [o]/[c] in front of position [i]. *)
Definition depthAt (o c : ascii) (s : list ascii) (i : nat) : Z :=
  count o (take i s) - count c (take i s).

Definition topLevelComma (s : list ascii) (i : nat) : bool :=
  bool_decide (s !! i = Some ","%char)
  && (depthAt "{" "}" s i =? 0) && (depthAt "[" "]" s i =? 0).

Definition topLevelCommas (s : list ascii) : list nat :=
  filter (fun i => topLevelComma s i = true) (seq 0 (List.length s)).

(** The pieces of [s] between the positions [ps], from [start] on. *)
Fixpoint cutAt (start : nat) (ps : list nat) (s : list ascii) : list (list ascii) :=
  match ps with
  | [] => [drop start s]
  | p :: ps' => take (p - start) (drop start s) :: cutAt (S p) ps' s
  end.

Definition rawPieces (s : string) : list string :=
  map ofChars (cutAt 0 (topLevelCommas (chars s)) (chars s)).

Definition split (s : string) : list string := map trim (rawPieces s).

End TokenizerSpec.


(** ** JavaScript numbers *)

Inductive number :=
  | NaN
  | PosInf
  | NegInf
  | Fin (q : Q).

Module JsNumber.

Definition ofZ (z : Z) : number := Fin (inject_Z z).

Definition isNaN (n : number) : bool :=
  match n with NaN => true | _ => false end.

Definition isFinite (n : number) : bool :=
  match n with Fin _ => true | _ => false end.

(** [a < b]; every comparison with NaN is false. *)
Definition lt (a b : number) : bool :=
  match a, b with
  | NaN, _ | _, NaN => false
  | _, NegInf => false
  | NegInf, _ => true
  | PosInf, _ => false
  | _, PosInf => true
  | Fin x, Fin y => negb (Qle_bool y x)
  end.

(** [a <= b]. *)
Definition le (a b : number) : bool :=
  match a, b with
  | NaN, _ | _, NaN => false
  | NegInf, _ => true
  | _, PosInf => true
  | _, NegInf => false
  | PosInf, _ => false
  | Fin x, Fin y => Qle_bool x y
  end.

Definition gt (a b : number) : bool := lt b a.
Definition ge (a b : number) : bool := le b a.

(** [a === b] on numbers. *)
Definition strictEq (a b : number) : bool :=
  match a, b with
  | PosInf, PosInf | NegInf, NegInf => true
  | Fin x, Fin y => Qeq_bool x y
  | _, _ => false
  end.

Definition add (a b : number) : number :=
  match a, b with
  | NaN, _ | _, NaN => NaN
  | PosInf, NegInf | NegInf, PosInf => NaN
  | PosInf, _ | _, PosInf => PosInf
  | NegInf, _ | _, NegInf => NegInf
  | Fin x, Fin y => Fin (Qred (x + y))
  end.

Definition neg (a : number) : number :=
  match a with
  | NaN => NaN
  | PosInf => NegInf
  | NegInf => PosInf
  | Fin x => Fin (Qred (- x))
  end.

Definition sub (a b : number) : number := add a (neg b).

Definition isZero (a : number) : bool := strictEq a (Fin 0).

Definition mul (a b : number) : number :=
  match a, b with
  | NaN, _ | _, NaN => NaN
  | Fin x, Fin y => Fin (Qred (x * y))
  | _, _ =>
      if isZero a || isZero b then NaN
      else if Bool.eqb (lt a (Fin 0)) (lt b (Fin 0)) then PosInf else NegInf
  end.

(** [Math.min(a, b)] and [Math.max(a, b)]: NaN when either argument is. *)
Definition min (a b : number) : number :=
  match a, b with
  | NaN, _ | _, NaN => NaN
  | _, _ => if le a b then a else b
  end.

Definition max (a b : number) : number :=
  match a, b with
  | NaN, _ | _, NaN => NaN
  | _, _ => if le a b then b else a
  end.

Definition abs (a : number) : number :=
  match a with
  | NaN => NaN
  | PosInf | NegInf => PosInf
  | Fin x => Fin (Qred (Qabs x))
  end.

(** Truthiness of a number: every number but 0 and NaN. *)
Definition truthy (a : number) : bool :=
  match a with
  | NaN => false
  | Fin x => negb (Qeq_bool x 0)
  | _ => true
  end.

(** *** Reading numbers from strings *)

Definition digitValue (c : ascii) : Z := Z.of_nat (nat_of_ascii c) - 48.

Definition digitsValue (ds : list ascii) : Z :=
  fold_left (fun acc c => 10 * acc + digitValue c) ds 0.

Fixpoint spanDigits (s : string) : list ascii * string :=
  match s with
  | EmptyString => ([], EmptyString)
  | String c s' =>
      if isDigit c then let '(ds, r) := spanDigits s' in (c :: ds, r)
      else ([], s)
  end.

(** An optional sign: [true] for [-]. *)
Definition readSign (s : string) : bool * string :=
  match s with
  | String "-" r => (true, r)
  | String "+" r => (false, r)
  | _ => (false, s)
  end.

Definition signed (negative : bool) (z : Z) : Z := if negative then - z else z.

(** [parseInt(s, 10)]: leading white space, an optional sign, then the
    longest run of decimal digits; NaN when that run is empty. *)
Definition parseInt (s : string) : number :=
  let '(negative, s1) := readSign (trimStart s) in
  let '(ds, _) := spanDigits s1 in
  match ds with
  | [] => NaN
  | _ => ofZ (signed negative (digitsValue ds))
  end.

(** The exponent part [e], [e+], [e-] followed by digits, when present. *)
Definition readExponent (s : string) : Z * string :=
  match s with
  | String c r =>
      if Ascii.eqb c "e" || Ascii.eqb c "E" then
        let '(negative, r1) := readSign r in
        let '(ds, r2) := spanDigits r1 in
        match ds with
        | [] => (0, s)
        | _ => (signed negative (digitsValue ds), r2)
        end
      else (0, s)
  | EmptyString => (0, s)
  end.

(** The longest prefix of [s] that is a [StrDecimalLiteral], with its value
    and the rest of [s]. *)
Definition scanDecimal (s : string) : option (number * string) :=
  let '(negative, s1) := readSign s in
  if startsWith "Infinity" s1 then
    Some (if negative then NegInf else PosInf, substringFrom 8 s1)
  else
    let '(ip, r1) := spanDigits s1 in
    let '(fp, r2) :=
      match r1 with
      | String "." r =>
          let '(fp, r2) := spanDigits r in
          match ip, fp with
          | [], [] => ([], r1)
          | _, _ => (fp, r2)
          end
      | _ => ([], r1)
      end in
    match ip ++ fp with
    | [] => None
    | ds =>
        let '(e, r3) := readExponent r2 in
        let m := signed negative (digitsValue ds) in
        Some (Fin (Qred (inject_Z m * (10 ^ (e - Z.of_nat (List.length fp)))%Q)), r3)
    end.

(** [parseFloat(s)]. *)
Definition parseFloat (s : string) : number :=
  match scanDecimal (trimStart s) with
  | Some (n, _) => n
  | None => NaN
  end.

Definition isRadixDigit (radix : Z) (c : ascii) : option Z :=
  let n := Z.of_nat (nat_of_ascii c) in
  let v := if (48 <=? n) && (n <=? 57) then n - 48
           else if (97 <=? n) && (n <=? 122) then n - 87
           else if (65 <=? n) && (n <=? 90) then n - 55
           else 99 in
  if v <? radix then Some v else None.

Fixpoint radixValue (radix : Z) (acc : Z) (s : string) : option Z :=
  match s with
  | EmptyString => Some acc
  | String c s' =>
      match isRadixDigit radix c with
      | Some v => radixValue radix (radix * acc + v) s'
      | None => None
      end
  end.

(** [0x], [0o] and [0b] literals. *)
Definition nonDecimalLiteral (s : string) : option number :=
  match s with
  | String "0" (String p (String c r)) =>
      let radix := if Ascii.eqb p "x" || Ascii.eqb p "X" then 16
                   else if Ascii.eqb p "o" || Ascii.eqb p "O" then 8
                   else if Ascii.eqb p "b" || Ascii.eqb p "B" then 2
                   else 0 in
      if radix =? 0 then None
      else match radixValue radix 0 (String c r) with
           | Some v => Some (ofZ v)
           | None => Some NaN
           end
  | _ => None
  end.

(** [Number(s)] on a string. *)
Definition Number (s : string) : number :=
  let t := trim s in
  if isEmpty t then Fin 0
  else match nonDecimalLiteral t with
       | Some n => n
       | None =>
           match scanDecimal t with
           | Some (n, EmptyString) => n
           | _ => NaN
           end
       end.

End JsNumber.


(** ** Data model *)

Module Vector3.
Record t := { x : number; y : number; z : number }.
End Vector3.

(** [ScoreFilter] (EntitySelectorParser.ts 27-31), the API's
    [EntityQueryScoreOptions] in part_000. *)
Module ScoreFilter.
Record t := {
  objective : string;
  minScore : option number;
  maxScore : option number;
}.
End ScoreFilter.

Module Range.
Record t := { min : option number; max : option number }.
Definition empty : t := {| min := None; max := None |}.
Definition exact (n : number) : t := {| min := Some n; max := Some n |}.
End Range.

Module HasItemFilter.
Record t := {
  item : option string;
  quantity : option Range.t;
  data : option number;
  location : option string;
  slot : option Range.t;
}.
End HasItemFilter.

(** [EntityQueryOptions] (with [scoreOptions], which the legacy file adds as
    [EntityQueryOptionsEx]).  An absent property is [None].  The properties
    that hold an array or an object are typed by [arr] and [vec]: the value
    itself where the object is read, a reference where it lives in the
    store of [Module Store]. *)
Module Query.
Section Fields.
Context {arr : Type -> Type} {vec : Type}.

Record t := {
  type : option string;
  excludeTypes : option (arr string);
  name : option string;
  tags : option (arr string);
  excludeTags : option (arr string);
  families : option (arr string);
  excludeFamilies : option (arr string);
  gameMode : option string;
  maxLevel : option number;
  minLevel : option number;
  location : option vec;
  volume : option vec;
  maxDistance : option number;
  minDistance : option number;
  closest : option number;
  farthest : option number;
  maxVerticalRotation : option number;
  minVerticalRotation : option number;
  maxHorizontalRotation : option number;
  minHorizontalRotation : option number;
  scoreOptions : option (arr ScoreFilter.t);
}.

Definition empty : t :=
  {| type := None; excludeTypes := None; name := None; tags := None; excludeTags := None;
     families := None; excludeFamilies := None; gameMode := None; maxLevel := None;
     minLevel := None; location := None; volume := None; maxDistance := None;
     minDistance := None; closest := None; farthest := None; maxVerticalRotation := None;
     minVerticalRotation := None; maxHorizontalRotation := None;
     minHorizontalRotation := None; scoreOptions := None |}.

(** Property writes: [q.f = v], and [delete q.f] as [set_f None]. *)
Definition set_type (v : option string) (q : t) : t :=
  {| type := v; excludeTypes := excludeTypes q; name := name q; tags := tags q;
     excludeTags := excludeTags q; families := families q;
     excludeFamilies := excludeFamilies q; gameMode := gameMode q; maxLevel := maxLevel q;
     minLevel := minLevel q; location := location q; volume := volume q;
     maxDistance := maxDistance q; minDistance := minDistance q; closest := closest q;
     farthest := farthest q; maxVerticalRotation := maxVerticalRotation q;
     minVerticalRotation := minVerticalRotation q;
     maxHorizontalRotation := maxHorizontalRotation q;
     minHorizontalRotation := minHorizontalRotation q; scoreOptions := scoreOptions q |}.
Definition set_excludeTypes (v : option (arr string)) (q : t) : t :=
  {| type := type q; excludeTypes := v; name := name q; tags := tags q;
     excludeTags := excludeTags q; families := families q;
     excludeFamilies := excludeFamilies q; gameMode := gameMode q; maxLevel := maxLevel q;
     minLevel := minLevel q; location := location q; volume := volume q;
     maxDistance := maxDistance q; minDistance := minDistance q; closest := closest q;
     farthest := farthest q; maxVerticalRotation := maxVerticalRotation q;
     minVerticalRotation := minVerticalRotation q;
     maxHorizontalRotation := maxHorizontalRotation q;
     minHorizontalRotation := minHorizontalRotation q; scoreOptions := scoreOptions q |}.
Definition set_name (v : option string) (q : t) : t :=
  {| type := type q; excludeTypes := excludeTypes q; name := v; tags := tags q;
     excludeTags := excludeTags q; families := families q;
     excludeFamilies := excludeFamilies q; gameMode := gameMode q; maxLevel := maxLevel q;
     minLevel := minLevel q; location := location q; volume := volume q;
     maxDistance := maxDistance q; minDistance := minDistance q; closest := closest q;
     farthest := farthest q; maxVerticalRotation := maxVerticalRotation q;
     minVerticalRotation := minVerticalRotation q;
     maxHorizontalRotation := maxHorizontalRotation q;
     minHorizontalRotation := minHorizontalRotation q; scoreOptions := scoreOptions q |}.
Definition set_tags (v : option (arr string)) (q : t) : t :=
  {| type := type q; excludeTypes := excludeTypes q; name := name q; tags := v;
     excludeTags := excludeTags q; families := families q;
     excludeFamilies := excludeFamilies q; gameMode := gameMode q; maxLevel := maxLevel q;
     minLevel := minLevel q; location := location q; volume := volume q;
     maxDistance := maxDistance q; minDistance := minDistance q; closest := closest q;
     farthest := farthest q; maxVerticalRotation := maxVerticalRotation q;
     minVerticalRotation := minVerticalRotation q;
     maxHorizontalRotation := maxHorizontalRotation q;
     minHorizontalRotation := minHorizontalRotation q; scoreOptions := scoreOptions q |}.
Definition set_excludeTags (v : option (arr string)) (q : t) : t :=
  {| type := type q; excludeTypes := excludeTypes q; name := name q; tags := tags q;
     excludeTags := v; families := families q; excludeFamilies := excludeFamilies q;
     gameMode := gameMode q; maxLevel := maxLevel q; minLevel := minLevel q;
     location := location q; volume := volume q; maxDistance := maxDistance q;
     minDistance := minDistance q; closest := closest q; farthest := farthest q;
     maxVerticalRotation := maxVerticalRotation q;
     minVerticalRotation := minVerticalRotation q;
     maxHorizontalRotation := maxHorizontalRotation q;
     minHorizontalRotation := minHorizontalRotation q; scoreOptions := scoreOptions q |}.
Definition set_families (v : option (arr string)) (q : t) : t :=
  {| type := type q; excludeTypes := excludeTypes q; name := name q; tags := tags q;
     excludeTags := excludeTags q; families := v; excludeFamilies := excludeFamilies q;
     gameMode := gameMode q; maxLevel := maxLevel q; minLevel := minLevel q;
     location := location q; volume := volume q; maxDistance := maxDistance q;
     minDistance := minDistance q; closest := closest q; farthest := farthest q;
     maxVerticalRotation := maxVerticalRotation q;
     minVerticalRotation := minVerticalRotation q;
     maxHorizontalRotation := maxHorizontalRotation q;
     minHorizontalRotation := minHorizontalRotation q; scoreOptions := scoreOptions q |}.
Definition set_excludeFamilies (v : option (arr string)) (q : t) : t :=
  {| type := type q; excludeTypes := excludeTypes q; name := name q; tags := tags q;
     excludeTags := excludeTags q; families := families q; excludeFamilies := v;
     gameMode := gameMode q; maxLevel := maxLevel q; minLevel := minLevel q;
     location := location q; volume := volume q; maxDistance := maxDistance q;
     minDistance := minDistance q; closest := closest q; farthest := farthest q;
     maxVerticalRotation := maxVerticalRotation q;
     minVerticalRotation := minVerticalRotation q;
     maxHorizontalRotation := maxHorizontalRotation q;
     minHorizontalRotation := minHorizontalRotation q; scoreOptions := scoreOptions q |}.
Definition set_gameMode (v : option string) (q : t) : t :=
  {| type := type q; excludeTypes := excludeTypes q; name := name q; tags := tags q;
     excludeTags := excludeTags q; families := families q;
     excludeFamilies := excludeFamilies q; gameMode := v; maxLevel := maxLevel q;
     minLevel := minLevel q; location := location q; volume := volume q;
     maxDistance := maxDistance q; minDistance := minDistance q; closest := closest q;
     farthest := farthest q; maxVerticalRotation := maxVerticalRotation q;
     minVerticalRotation := minVerticalRotation q;
     maxHorizontalRotation := maxHorizontalRotation q;
     minHorizontalRotation := minHorizontalRotation q; scoreOptions := scoreOptions q |}.
Definition set_maxLevel (v : option number) (q : t) : t :=
  {| type := type q; excludeTypes := excludeTypes q; name := name q; tags := tags q;
     excludeTags := excludeTags q; families := families q;
     excludeFamilies := excludeFamilies q; gameMode := gameMode q; maxLevel := v;
     minLevel := minLevel q; location := location q; volume := volume q;
     maxDistance := maxDistance q; minDistance := minDistance q; closest := closest q;
     farthest := farthest q; maxVerticalRotation := maxVerticalRotation q;
     minVerticalRotation := minVerticalRotation q;
     maxHorizontalRotation := maxHorizontalRotation q;
     minHorizontalRotation := minHorizontalRotation q; scoreOptions := scoreOptions q |}.
Definition set_minLevel (v : option number) (q : t) : t :=
  {| type := type q; excludeTypes := excludeTypes q; name := name q; tags := tags q;
     excludeTags := excludeTags q; families := families q;
     excludeFamilies := excludeFamilies q; gameMode := gameMode q; maxLevel := maxLevel q;
     minLevel := v; location := location q; volume := volume q;
     maxDistance := maxDistance q; minDistance := minDistance q; closest := closest q;
     farthest := farthest q; maxVerticalRotation := maxVerticalRotation q;
     minVerticalRotation := minVerticalRotation q;
     maxHorizontalRotation := maxHorizontalRotation q;
     minHorizontalRotation := minHorizontalRotation q; scoreOptions := scoreOptions q |}.
Definition set_location (v : option vec) (q : t) : t :=
  {| type := type q; excludeTypes := excludeTypes q; name := name q; tags := tags q;
     excludeTags := excludeTags q; families := families q;
     excludeFamilies := excludeFamilies q; gameMode := gameMode q; maxLevel := maxLevel q;
     minLevel := minLevel q; location := v; volume := volume q;
     maxDistance := maxDistance q; minDistance := minDistance q; closest := closest q;
     farthest := farthest q; maxVerticalRotation := maxVerticalRotation q;
     minVerticalRotation := minVerticalRotation q;
     maxHorizontalRotation := maxHorizontalRotation q;
     minHorizontalRotation := minHorizontalRotation q; scoreOptions := scoreOptions q |}.
Definition set_volume (v : option vec) (q : t) : t :=
  {| type := type q; excludeTypes := excludeTypes q; name := name q; tags := tags q;
     excludeTags := excludeTags q; families := families q;
     excludeFamilies := excludeFamilies q; gameMode := gameMode q; maxLevel := maxLevel q;
     minLevel := minLevel q; location := location q; volume := v;
     maxDistance := maxDistance q; minDistance := minDistance q; closest := closest q;
     farthest := farthest q; maxVerticalRotation := maxVerticalRotation q;
     minVerticalRotation := minVerticalRotation q;
     maxHorizontalRotation := maxHorizontalRotation q;
     minHorizontalRotation := minHorizontalRotation q; scoreOptions := scoreOptions q |}.
Definition set_maxDistance (v : option number) (q : t) : t :=
  {| type := type q; excludeTypes := excludeTypes q; name := name q; tags := tags q;
     excludeTags := excludeTags q; families := families q;
     excludeFamilies := excludeFamilies q; gameMode := gameMode q; maxLevel := maxLevel q;
     minLevel := minLevel q; location := location q; volume := volume q; maxDistance := v;
     minDistance := minDistance q; closest := closest q; farthest := farthest q;
     maxVerticalRotation := maxVerticalRotation q;
     minVerticalRotation := minVerticalRotation q;
     maxHorizontalRotation := maxHorizontalRotation q;
     minHorizontalRotation := minHorizontalRotation q; scoreOptions := scoreOptions q |}.
Definition set_minDistance (v : option number) (q : t) : t :=
  {| type := type q; excludeTypes := excludeTypes q; name := name q; tags := tags q;
     excludeTags := excludeTags q; families := families q;
     excludeFamilies := excludeFamilies q; gameMode := gameMode q; maxLevel := maxLevel q;
     minLevel := minLevel q; location := location q; volume := volume q;
     maxDistance := maxDistance q; minDistance := v; closest := closest q;
     farthest := farthest q; maxVerticalRotation := maxVerticalRotation q;
     minVerticalRotation := minVerticalRotation q;
     maxHorizontalRotation := maxHorizontalRotation q;
     minHorizontalRotation := minHorizontalRotation q; scoreOptions := scoreOptions q |}.
Definition set_closest (v : option number) (q : t) : t :=
  {| type := type q; excludeTypes := excludeTypes q; name := name q; tags := tags q;
     excludeTags := excludeTags q; families := families q;
     excludeFamilies := excludeFamilies q; gameMode := gameMode q; maxLevel := maxLevel q;
     minLevel := minLevel q; location := location q; volume := volume q;
     maxDistance := maxDistance q; minDistance := minDistance q; closest := v;
     farthest := farthest q; maxVerticalRotation := maxVerticalRotation q;
     minVerticalRotation := minVerticalRotation q;
     maxHorizontalRotation := maxHorizontalRotation q;
     minHorizontalRotation := minHorizontalRotation q; scoreOptions := scoreOptions q |}.
Definition set_farthest (v : option number) (q : t) : t :=
  {| type := type q; excludeTypes := excludeTypes q; name := name q; tags := tags q;
     excludeTags := excludeTags q; families := families q;
     excludeFamilies := excludeFamilies q; gameMode := gameMode q; maxLevel := maxLevel q;
     minLevel := minLevel q; location := location q; volume := volume q;
     maxDistance := maxDistance q; minDistance := minDistance q; closest := closest q;
     farthest := v; maxVerticalRotation := maxVerticalRotation q;
     minVerticalRotation := minVerticalRotation q;
     maxHorizontalRotation := maxHorizontalRotation q;
     minHorizontalRotation := minHorizontalRotation q; scoreOptions := scoreOptions q |}.
Definition set_maxVerticalRotation (v : option number) (q : t) : t :=
  {| type := type q; excludeTypes := excludeTypes q; name := name q; tags := tags q;
     excludeTags := excludeTags q; families := families q;
     excludeFamilies := excludeFamilies q; gameMode := gameMode q; maxLevel := maxLevel q;
     minLevel := minLevel q; location := location q; volume := volume q;
     maxDistance := maxDistance q; minDistance := minDistance q; closest := closest q;
     farthest := farthest q; maxVerticalRotation := v;
     minVerticalRotation := minVerticalRotation q;
     maxHorizontalRotation := maxHorizontalRotation q;
     minHorizontalRotation := minHorizontalRotation q; scoreOptions := scoreOptions q |}.
Definition set_minVerticalRotation (v : option number) (q : t) : t :=
  {| type := type q; excludeTypes := excludeTypes q; name := name q; tags := tags q;
     excludeTags := excludeTags q; families := families q;
     excludeFamilies := excludeFamilies q; gameMode := gameMode q; maxLevel := maxLevel q;
     minLevel := minLevel q; location := location q; volume := volume q;
     maxDistance := maxDistance q; minDistance := minDistance q; closest := closest q;
     farthest := farthest q; maxVerticalRotation := maxVerticalRotation q;
     minVerticalRotation := v; maxHorizontalRotation := maxHorizontalRotation q;
     minHorizontalRotation := minHorizontalRotation q; scoreOptions := scoreOptions q |}.
Definition set_maxHorizontalRotation (v : option number) (q : t) : t :=
  {| type := type q; excludeTypes := excludeTypes q; name := name q; tags := tags q;
     excludeTags := excludeTags q; families := families q;
     excludeFamilies := excludeFamilies q; gameMode := gameMode q; maxLevel := maxLevel q;
     minLevel := minLevel q; location := location q; volume := volume q;
     maxDistance := maxDistance q; minDistance := minDistance q; closest := closest q;
     farthest := farthest q; maxVerticalRotation := maxVerticalRotation q;
     minVerticalRotation := minVerticalRotation q; maxHorizontalRotation := v;
     minHorizontalRotation := minHorizontalRotation q; scoreOptions := scoreOptions q |}.
Definition set_minHorizontalRotation (v : option number) (q : t) : t :=
  {| type := type q; excludeTypes := excludeTypes q; name := name q; tags := tags q;
     excludeTags := excludeTags q; families := families q;
     excludeFamilies := excludeFamilies q; gameMode := gameMode q; maxLevel := maxLevel q;
     minLevel := minLevel q; location := location q; volume := volume q;
     maxDistance := maxDistance q; minDistance := minDistance q; closest := closest q;
     farthest := farthest q; maxVerticalRotation := maxVerticalRotation q;
     minVerticalRotation := minVerticalRotation q;
     maxHorizontalRotation := maxHorizontalRotation q; minHorizontalRotation := v;
     scoreOptions := scoreOptions q |}.
Definition set_scoreOptions (v : option (arr ScoreFilter.t)) (q : t) : t :=
  {| type := type q; excludeTypes := excludeTypes q; name := name q; tags := tags q;
     excludeTags := excludeTags q; families := families q;
     excludeFamilies := excludeFamilies q; gameMode := gameMode q; maxLevel := maxLevel q;
     minLevel := minLevel q; location := location q; volume := volume q;
     maxDistance := maxDistance q; minDistance := minDistance q; closest := closest q;
     farthest := farthest q; maxVerticalRotation := maxVerticalRotation q;
     minVerticalRotation := minVerticalRotation q;
     maxHorizontalRotation := maxHorizontalRotation q;
     minHorizontalRotation := minHorizontalRotation q; scoreOptions := v |}.

End Fields.
Arguments t : clear implicits.
End Query.

(** The query as the parser builds it and the filters read it. *)
Abbreviation EntityQueryOptions := (Query.t list Vector3.t).

(** ** Entities and the host *)

Inductive EquipmentSlot :=
  | Head | Chest | Legs | Feet | Mainhand | Offhand
  | OtherSlot (slotName : string).

Module ItemStack.
Record t := {
  typeId : string;
  tags : list string;                 (* getTags() *)
  amount : number;
  durabilityDamage : option number;   (* damage of the durability component, if any *)
}.
End ItemStack.

Module Player.
Record t := { gameMode : string; level : number }.
End Player.

Module Entity.
Record t := {
  id : nat;
  typeId : string;
  nameTag : string;
  location : Vector3.t;
  rotationX : number;                                  (* getRotation().x *)
  rotationY : number;                                  (* getRotation().y *)
  tags : list string;                                  (* getTags() *)
  typeFamilies : option (list string);                 (* the type-family component, if any *)
  player : option Player.t;                            (* instanceof Player *)
  scoreboardIdentity : option nat;
  container : option (list (option ItemStack.t));      (* inventory?.container *)
  equippable : option (EquipmentSlot -> option ItemStack.t);
}.
End Entity.

(** What a call into the host gives back: a value, [undefined], or an
    exception. *)
Inductive Lookup (A : Type) :=
  | Found (a : A)
  | Undefined
  | Throws.
Arguments Found {A} a.
Arguments Undefined {A}.
Arguments Throws {A}.

(** Values of [JSON.parse].  An object lists each of its keys once. *)
Inductive json :=
  | JNull
  | JBool (b : bool)
  | JNum (n : number)
  | JStr (s : string)
  | JArr (items : list json)
  | JObj (members : list (string * json)).

(** The JavaScript runtime. *)
Class Runtime := {
  (** [JSON.parse(text)]; [None] is a [SyntaxError]. *)
  JSON_parse : string -> option json;
  (** [String(n)] on a number. *)
  numberToString : number -> string;
  (** The three [replace] calls of EntitySelectorParser.ts 233-242, which
      turn a [hasitem] value into JSON text with regular expressions. *)
  legacyJsonCompliant : string -> string;
}.

(** The game. *)
Class Host := {
  (** [dimension.getEntities(options)]. *)
  dimensionGetEntities : string -> EntityQueryOptions -> list Entity.t;
  (** [world.scoreboard.getObjective(name)], as the objective's name. *)
  scoreboardGetObjective : string -> Lookup string;
  (** [objective.getScore(identity)]. *)
  objectiveGetScore : string -> nat -> Lookup number;
  (** [Object.values(EquipmentSlot)]. *)
  equipmentSlots : list EquipmentSlot;
}.

(** The [k]-th value of [Math.random()] during one evaluation. *)
Definition RandomSource := nat -> Q.

Definition unitInterval (random : RandomSource) : Prop :=
  forall k, (0 <= random k)%Q /\ (random k < 1)%Q.

(** [console.warn]. *)
Inductive Warning :=
  | WarnInvalidSelector (selectorString : string)
  | WarnInvalidArgument (arg : string)
  | WarnUnsupportedArgument (key : string)
  | WarnHasitemFormat (value : string)
  | WarnHasitemParse (value : string)
  | WarnNoExecutor.

(** The fields of an [EntitySelector]. *)
Module Selector.
Record t := {
  selectorString : string;
  executionDimension : string;
  executionLocation : option Vector3.t;
  executor : option Entity.t;
  targetSelectorSymbol : string;
  queryOptions : EntityQueryOptions;
  hasItemFilters : list HasItemFilter.t;
}.

Definition set_targetSelectorSymbol (v : string) (s : t) : t :=
  {| selectorString := selectorString s; executionDimension := executionDimension s;
     executionLocation := executionLocation s; executor := executor s;
     targetSelectorSymbol := v; queryOptions := queryOptions s;
     hasItemFilters := hasItemFilters s |}.

Definition set_queryOptions (v : EntityQueryOptions) (s : t) : t :=
  {| selectorString := selectorString s; executionDimension := executionDimension s;
     executionLocation := executionLocation s; executor := executor s;
     targetSelectorSymbol := targetSelectorSymbol s; queryOptions := v;
     hasItemFilters := hasItemFilters s |}.

Definition set_hasItemFilters (v : list HasItemFilter.t) (s : t) : t :=
  {| selectorString := selectorString s; executionDimension := executionDimension s;
     executionLocation := executionLocation s; executor := executor s;
     targetSelectorSymbol := targetSelectorSymbol s; queryOptions := queryOptions s;
     hasItemFilters := v |}.

(** [this.queryOptions.f = ...] *)
Definition updQuery (f : EntityQueryOptions -> EntityQueryOptions) (s : t) : t :=
  set_queryOptions (f (queryOptions s)) s.
End Selector.

(** ** The range grammar

    [str.match(/^(-?\d+)?\.\.(-?\d+)?$/)] and the lines after it
    (EntitySelectorParser.ts 213-223, 264-271, 286-293; part_000 195-205,
    311-318, 331-338). *)

(** A prefix [-?\d+] of [s], as text, and what follows it. *)
Definition readInteger (s : string) : option (string * string) :=
  let '(negative, r) := match s with
                        | String "-" r => (true, r)
                        | _ => (false, s)
                        end in
  match JsNumber.spanDigits r with
  | ([], _) => None
  | (ds, rest) => Some ((if negative then "-" else "") +:+ ofChars ds, rest)
  end.

Definition readOptionalInteger (s : string) : option string * string :=
  match readInteger s with
  | Some (g, rest) => (Some g, rest)
  | None => (None, s)
  end.

(** The two capture groups when the whole of [s] matches. *)
Definition rangeMatch (s : string) : option (option string * option string) :=
  let '(g1, r1) := readOptionalInteger s in
  match r1 with
  | String "." (String "." r2) =>
      let '(g2, r3) := readOptionalInteger r2 in
      if isEmpty r3 then Some (g1, g2) else None
  | _ => None
  end.

(** [if (rangeMatch[i]) ... = parseInt(rangeMatch[i], 10)] *)
Definition groupBound (g : option string) : option number :=
  match g with
  | Some t => if isEmpty t then None else Some (JsNumber.parseInt t)
  | None => None
  end.

(** The bounds the shared lines leave behind for the text [s]. *)
Definition parseRange (s : string) : Range.t :=
  match rangeMatch s with
  | Some (g1, g2) => {| Range.min := groupBound g1; Range.max := groupBound g2 |}
  | None =>
      let exact := JsNumber.parseInt s in
      if JsNumber.isNaN exact then Range.empty else Range.exact exact
  end.


(** ** The argument interpreter: lines shared by the two files

    [_parseArguments], second loop. *)

Module Interpreter.

(** [const [key, ...valueParts] = arg.split("=")] *)
Definition keyOf (arg : string) : string := hd EmptyString (split "=" arg).

(** [valueParts.join("=").trim()]: always a string. *)
Definition valueOf (arg : string) : option string :=
  Some (trim (join "=" (tl (split "=" arg)))).

(** [if (!this.queryOptions.f) this.queryOptions.f = []; this.queryOptions.f.push(v)] *)
Definition push {A} (a : option (list A)) (v : A) : option (list A) :=
  Some (default [] a ++ [v]).

Section Cases.
Context (trimmedKey trimmedValue : string).

Definition caseType (q : EntityQueryOptions) : EntityQueryOptions :=
  if startsWith "!" trimmedValue
  then Query.set_excludeTypes (push (Query.excludeTypes q) (substringFrom 1 trimmedValue)) q
  else Query.set_type (Some trimmedValue) q.

Definition caseName (q : EntityQueryOptions) : EntityQueryOptions :=
  Query.set_name (Some trimmedValue) q.

Definition caseTag (q : EntityQueryOptions) : EntityQueryOptions :=
  if startsWith "!" trimmedValue
  then Query.set_excludeTags (push (Query.excludeTags q) (substringFrom 1 trimmedValue)) q
  else Query.set_tags (push (Query.tags q) trimmedValue) q.

Definition caseFamily (q : EntityQueryOptions) : EntityQueryOptions :=
  if startsWith "!" trimmedValue
  then Query.set_excludeFamilies
         (push (Query.excludeFamilies q) (substringFrom 1 trimmedValue)) q
  else Query.set_families (push (Query.families q) trimmedValue) q.

(** [(v as any)[k] = n] on a vector; a key other than [x], [y], [z] does not
    occur at the two places that write one. *)
Definition setAxis (k : string) (n : number) (v : Vector3.t) : Vector3.t :=
  if String.eqb k "x" then
    {| Vector3.x := n; Vector3.y := Vector3.y v; Vector3.z := Vector3.z v |}
  else if String.eqb k "y" then
    {| Vector3.x := Vector3.x v; Vector3.y := n; Vector3.z := Vector3.z v |}
  else if String.eqb k "z" then
    {| Vector3.x := Vector3.x v; Vector3.y := Vector3.y v; Vector3.z := n |}
  else v.

(** [this.executionLocation?.a ?? 0] *)
Definition contextAxis (a : Vector3.t -> number) (executionLocation : option Vector3.t)
  : number :=
  match executionLocation with
  | Some l => a l
  | None => Fin 0
  end.

(** [case "x": case "y": case "z":] of part_000 (143-154). *)
Definition caseXYZ (executionLocation : option Vector3.t) (q : EntityQueryOptions)
  : EntityQueryOptions :=
  let q1 :=
    match Query.location q with
    | Some _ => q
    | None =>
        Query.set_location
          (Some {| Vector3.x := contextAxis Vector3.x executionLocation;
                   Vector3.y := contextAxis Vector3.y executionLocation;
                   Vector3.z := contextAxis Vector3.z executionLocation |}) q
    end in
  Query.set_location
    (option_map (setAxis trimmedKey (JsNumber.parseFloat trimmedValue)) (Query.location q1))
    q1.

(** The same case in EntitySelectorParser.ts (163-176), whose initial object
    already holds the parsed value on the key's axis. *)
Definition caseXYZLegacy (executionLocation : option Vector3.t) (q : EntityQueryOptions)
  : EntityQueryOptions :=
  let initial (k : string) (a : Vector3.t -> number) :=
    if String.eqb trimmedKey k then JsNumber.parseFloat trimmedValue
    else contextAxis a executionLocation in
  let q1 :=
    match Query.location q with
    | Some _ => q
    | None =>
        Query.set_location
          (Some {| Vector3.x := initial "x" Vector3.x;
                   Vector3.y := initial "y" Vector3.y;
                   Vector3.z := initial "z" Vector3.z |}) q
    end in
  Query.set_location
    (option_map (setAxis trimmedKey (JsNumber.parseFloat trimmedValue)) (Query.location q1))
    q1.

(** [case "dx": case "dy": case "dz":]; the axis is [trimmedKey.charAt(1)]. *)
Definition caseVolume (q : EntityQueryOptions) : EntityQueryOptions :=
  let q1 :=
    match Query.volume q with
    | Some _ => q
    | None =>
        Query.set_volume
          (Some {| Vector3.x := Fin 0; Vector3.y := Fin 0; Vector3.z := Fin 0 |}) q
    end in
  Query.set_volume
    (option_map (setAxis (substring 1 2 trimmedKey) (JsNumber.parseFloat trimmedValue))
       (Query.volume q1))
    q1.

Definition caseCount (q : EntityQueryOptions) : EntityQueryOptions :=
  let count := JsNumber.parseInt trimmedValue in
  if negb (JsNumber.isNaN count) then
    if JsNumber.gt count (Fin 0) then Query.set_closest (Some count) q
    else if JsNumber.lt count (Fin 0) then Query.set_farthest (Some (JsNumber.abs count)) q
    else q
  else q.

(** One [scoreArg] of [case "scores":]. *)
Definition scoreOption (scoreArg : string) : option ScoreFilter.t :=
  match split "=" scoreArg with
  | objName :: scoreValStr :: _ =>
      if negb (isEmpty objName) && negb (isEmpty scoreValStr) then
        let r := parseRange (trim scoreValStr) in
        match Range.min r, Range.max r with
        | None, None => None
        | lo, hi =>
            Some {| ScoreFilter.objective := trim objName;
                    ScoreFilter.minScore := lo; ScoreFilter.maxScore := hi |}
        end
      else None
  | _ => None
  end.

Definition caseScores (q : EntityQueryOptions) : EntityQueryOptions :=
  if startsWith "{" trimmedValue && endsWith "}" trimmedValue then
    let scoreArgs :=
      split "," (substring 1 (Z.of_nat (String.length trimmedValue) - 1) trimmedValue) in
    Query.set_scoreOptions
      (Some (default [] (Query.scoreOptions q) ++ omap scoreOption scoreArgs)) q
  else q.

End Cases.

(** *** Reading the decoded [hasitem] conditions *)

Section Conditions.
Context `{Runtime}.

(** [String(v)]. *)
Fixpoint jsToString (v : json) : string :=
  match v with
  | JNull => "null"
  | JBool b => if b then "true" else "false"
  | JNum n => numberToString n
  | JStr s => s
  | JArr items =>
      join "," (map (fun i => match i with
                              | JNull => EmptyString
                              | _ => jsToString i
                              end) items)
  | JObj _ => "[object Object]"
  end.

Fixpoint member (k : string) (members : list (string * json)) : option json :=
  match members with
  | [] => None
  | (k', v) :: rest => if String.eqb k k' then Some v else member k rest
  end.

(** [itemCondition.k]: a [TypeError] on [null] ([None]), else the property
    or [undefined]. *)
Definition property (itemCondition : json) (k : string) : option (option json) :=
  match itemCondition with
  | JNull => None
  | JObj members => Some (member k members)
  | _ => Some None
  end.

(** The range of [quantity] or [slot] in part_000: a number is taken as
    it is, anything else goes through [String] and the range grammar. *)
Definition rangeOf (v : json) : Range.t :=
  match v with
  | JNum n => Range.exact n
  | _ => parseRange (jsToString v)
  end.

(** The same in EntitySelectorParser.ts, which reads strings only. *)
Definition rangeOfLegacy (v : json) : Range.t :=
  match v with
  | JNum n => Range.exact n
  | JStr s => parseRange s
  | _ => Range.empty
  end.

(** The body of [for (const itemCondition of parsedItems)], up to the
    [push]; [None] when a property read throws. *)
Definition filterOf (range : json -> Range.t) (itemCondition : json)
  : option HasItemFilter.t :=
  item ← property itemCondition "item";
  quantity ← property itemCondition "quantity";
  data ← property itemCondition "data";
  location ← property itemCondition "location";
  slot ← property itemCondition "slot";
  Some {| HasItemFilter.item := option_map jsToString item;
          HasItemFilter.quantity :=
            Some (match quantity with
                  | Some v => range v
                  | None => {| Range.min := Some (Fin 1); Range.max := None |}
                  end);
          HasItemFilter.data := option_map (fun v => JsNumber.parseInt (jsToString v)) data;
          HasItemFilter.location := option_map jsToString location;
          HasItemFilter.slot := option_map range slot |}.

(** The loop over [parsedItems]: the filters pushed, and whether the loop
    ran to its end ([true]) or was left by an exception. *)
Fixpoint pushFilters (range : json -> Range.t) (parsedItems : list json)
    (filters : list HasItemFilter.t) : list HasItemFilter.t * bool :=
  match parsedItems with
  | [] => (filters, true)
  | itemCondition :: rest =>
      match filterOf range itemCondition with
      | Some f => pushFilters range rest (filters ++ [f])
      | None => (filters, false)
      end
  end.

End Conditions.

(** *** The second loop around the [switch]

    The same text in both files (EntitySelectorParser.ts 120-131, part_000
    92-101); [dispatch] is the file's [switch]. *)

Section Loop.
Context (dispatch : string -> string -> Selector.t -> Selector.t * list Warning).

(** The body of [for (const arg of args)]. *)
Definition interpretWith (arg : string) (s : Selector.t) : Selector.t * list Warning :=
  if isEmpty arg then (s, [])
  else
    let key := keyOf arg in
    match valueOf arg with
    | None => (s, [WarnInvalidArgument arg])
    | Some value =>
        if isEmpty key then (s, [WarnInvalidArgument arg])
        else dispatch (trim key) (stripQuotes value) s
    end.

Fixpoint interpretAllWith (args : list string) (s : Selector.t)
  : Selector.t * list Warning :=
  match args with
  | [] => (s, [])
  | arg :: rest =>
      let '(s1, w1) := interpretWith arg s in
      let '(s2, w2) := interpretAllWith rest s1 in
      (s2, w1 ++ w2)
  end.

End Loop.

(** *** [_parseSelectorString] and the constructor

    The same text in both files (EntitySelectorParser.ts 59-97, part_000
    44-70), around each file's own [_parseArguments]. *)

(** [.] in a regular expression stops at a line terminator. *)
Definition isLineTerminator (c : ascii) : bool :=
  Ascii.eqb c "010" || Ascii.eqb c "013".

(** [s.match(/^\[(.*?)\]$/)]: the capture group. *)
Definition bracketed (s : string) : option string :=
  if startsWith "[" s && endsWith "]" s && (2 <=? String.length s)%nat then
    let body := substring 1 (Z.of_nat (String.length s) - 1) s in
    if forallb (fun c => negb (isLineTerminator c)) (chars body) then Some body else None
  else None.

Definition isSymbolLetter (c : ascii) : bool :=
  Ascii.eqb c "p" || Ascii.eqb c "a" || Ascii.eqb c "r" || Ascii.eqb c "s"
  || Ascii.eqb c "e".

(** [s.match(/^(@[parse])(?:\[(.*?)\])?$/)]: the two capture groups. *)
Definition selectorMatch (s : string) : option (string * option string) :=
  match s with
  | String "@" (String c rest) =>
      if isSymbolLetter c then
        let symbol := String "@" (String c EmptyString) in
        if isEmpty rest then Some (symbol, None)
        else match bracketed rest with
             | Some body => Some (symbol, Some body)
             | None => None
             end
      else None
  | _ => None
  end.

Section ParseSelectorString.
Context (_parseArguments : string -> Selector.t -> Selector.t * list Warning).

Definition _parseSelectorString (s : Selector.t) : Selector.t * list Warning :=
  let warned (r : Selector.t * list Warning) := (r.1, WarnInvalidSelector (Selector.selectorString s) :: r.2) in
  match selectorMatch (Selector.selectorString s) with
  | None =>
      warned
        (if negb (includes "[" (Selector.selectorString s)) then (s, [])
         else match bracketed (Selector.selectorString s) with
              | Some argsString =>
                  let s1 := Selector.set_targetSelectorSymbol "@e" s in
                  if negb (isEmpty argsString) then _parseArguments argsString s1
                  else (s1, [])
              | None => (s, [])
              end)
  | Some (symbol, argsString) =>
      let s1 := Selector.set_targetSelectorSymbol symbol s in
      match argsString with
      | Some argsString =>
          if negb (isEmpty argsString) then _parseArguments argsString s1 else (s1, [])
      | None => (s1, [])
      end
  end.

(** [new EntitySelector(selectorString, executionDimension, executionLocation, executor)] *)
Definition construct (selectorString executionDimension : string)
    (executionLocation : option Vector3.t) (executor : option Entity.t)
  : Selector.t * list Warning :=
  _parseSelectorString
    {| Selector.selectorString := selectorString;
       Selector.executionDimension := executionDimension;
       Selector.executionLocation :=
         match executionLocation with
         | Some l => Some l
         | None => option_map Entity.location executor
         end;
       Selector.executor := executor;
       Selector.targetSelectorSymbol := "@e";
       Selector.queryOptions := Query.empty;
       Selector.hasItemFilters := [] |}.

End ParseSelectorString.

End Interpreter.

(** ** part_000: the [hasitem] reader and the interpreter *)

Module Revised.
Import Interpreter.

Section WithRuntime.
Context `{Runtime}.

(** *** [parseObjectString] (217-257) *)

Record PairState := {
  assignments : list string;
  currentPair : string;
  braceDepth : Z;
}.

Definition pairStep (st : PairState) (char : ascii) : PairState :=
  if Ascii.eqb char "{" then
    {| assignments := assignments st; currentPair := currentPair st;
       braceDepth := braceDepth st + 1 |}
  else if Ascii.eqb char "}" then
    {| assignments := assignments st;
       currentPair := currentPair st +:+ String char EmptyString;
       braceDepth := braceDepth st - 1 |}
  else if Ascii.eqb char "," && (braceDepth st =? 0) then
    {| assignments := assignments st ++ [trim (currentPair st)];
       currentPair := EmptyString; braceDepth := braceDepth st |}
  else
    {| assignments := assignments st;
       currentPair := currentPair st +:+ String char EmptyString;
       braceDepth := braceDepth st |}.

Definition splitAssignments (objStr : string) : list string :=
  let st := fold_left pairStep (chars objStr)
              {| assignments := []; currentPair := EmptyString; braceDepth := 0 |} in
  if isEmpty (trim (currentPair st)) then assignments st
  else assignments st ++ [trim (currentPair st)].

Definition quoted (s : string) : string := quoteMark +:+ s +:+ quoteMark.

Definition jsonPair (assign : string) : string :=
  let parts := split "=" assign in
  let key := trim (hd EmptyString parts) in
  let value := trim (join "=" (tl parts)) in
  let processedValue :=
    if negb (JsNumber.isNaN (JsNumber.parseFloat value))
       && JsNumber.isFinite (JsNumber.Number value)
       && negb (includes ".." value)
    then value
    else if String.eqb (toLowerCase value) "true" || String.eqb (toLowerCase value) "false"
    then toLowerCase value
    else if startsWith quoteMark value && endsWith quoteMark value
    then value
    else quoted (escapeQuotes value) in
  quoted key +:+ ":" +:+ processedValue.

Definition parseObjectString (objStr : string) : string :=
  "{" +:+ join "," (map jsonPair (splitAssignments objStr)) +:+ "}".

(** *** The members of a [[...]] value (267-277) *)

Record ArrayState := {
  objectStrings : list string;
  balance : Z;
  startIndex : Z;
}.

Definition arrayStep (arrayContent : string) (st : ArrayState) (ic : Z * ascii)
  : ArrayState :=
  let '(i, char) := ic in
  if Ascii.eqb char "{" then
    {| objectStrings := objectStrings st; balance := balance st + 1;
       startIndex := startIndex st |}
  else if Ascii.eqb char "}" then
    {| objectStrings := objectStrings st; balance := balance st - 1;
       startIndex := startIndex st |}
  else if Ascii.eqb char "," && (balance st =? 0) && (startIndex st <? i) then
    {| objectStrings := objectStrings st ++ [substring (startIndex st) i arrayContent];
       balance := balance st; startIndex := i + 1 |}
  else st.

Definition indexed (s : string) : list (Z * ascii) :=
  imap (fun i c => (Z.of_nat i, c)) (chars s).

Definition splitObjects (arrayContent : string) : list string :=
  let st := fold_left (arrayStep arrayContent) (indexed arrayContent)
              {| objectStrings := []; balance := 0; startIndex := 0 |} in
  objectStrings st ++ [substringFrom (startIndex st) arrayContent].

(** One [objStr] of [objectStrings.map]; [None] is the [throw]. *)
Definition processObject (objStr : string) : option string :=
  let trimmedObjStr := trim objStr in
  if startsWith "{" trimmedObjStr && endsWith "}" trimmedObjStr
  then Some (parseObjectString
               (substring 1 (Z.of_nat (String.length trimmedObjStr) - 1) trimmedObjStr))
  else None.

(** *** The value of [parsedItems] (258-300) *)

Inductive Decoded :=
  | Items (parsedItems : json)
  | InvalidFormat            (* neither [[...]] nor [{...}]: a warning, then [break] *)
  | Exception.               (* a [throw], or [JSON.parse] failing *)

Definition inner (s : string) : string :=
  substring 1 (Z.of_nat (String.length s) - 1) s.

Definition decodeItems (valueToParse : string) : Decoded :=
  if startsWith "[" valueToParse then
    if negb (endsWith "]" valueToParse) then Exception
    else
      let arrayContent := inner valueToParse in
      if isEmpty (trim arrayContent) then Items (JArr [])
      else
        match mapM processObject (splitObjects arrayContent) with
        | None => Exception
        | Some processedObjects =>
            match JSON_parse ("[" +:+ join "," processedObjects +:+ "]") with
            | Some v => Items v
            | None => Exception
            end
        end
  else if startsWith "{" valueToParse then
    if negb (endsWith "}" valueToParse) then Exception
    else
      let objectContent := inner valueToParse in
      if isEmpty (trim objectContent) then Items (JArr [JObj []])
      else
        match JSON_parse (parseObjectString objectContent) with
        | Some v => Items (JArr [v])
        | None => Exception
        end
  else InvalidFormat.

(** [case "hasitem":] with its [try] and [catch] (215-347). *)
Definition caseHasitem (trimmedValue : string) (s : Selector.t)
  : Selector.t * list Warning :=
  match decodeItems trimmedValue with
  | InvalidFormat => (s, [WarnHasitemFormat trimmedValue])
  | Exception => (s, [WarnHasitemParse trimmedValue])
  | Items (JArr parsedItems) =>
      let '(filters, completed) :=
        pushFilters rangeOf parsedItems (Selector.hasItemFilters s) in
      (Selector.set_hasItemFilters filters s,
       if completed then [] else [WarnHasitemParse trimmedValue])
  | Items _ => (s, [])
  end.

(** *** The [switch] (103-350) *)

Definition dispatch (trimmedKey trimmedValue : string) (s : Selector.t)
  : Selector.t * list Warning :=
  let upd f := (Selector.updQuery f s, []) in
  let on k := String.eqb trimmedKey k in
  if on "type" then upd (caseType trimmedValue)
  else if on "name" then upd (caseName trimmedValue)
  else if on "tag" then upd (caseTag trimmedValue)
  else if on "family" then upd (caseFamily trimmedValue)
  else if on "m" then upd (Query.set_gameMode (Some trimmedValue))
  else if on "l" then upd (Query.set_maxLevel (Some (JsNumber.parseInt trimmedValue)))
  else if on "lm" then upd (Query.set_minLevel (Some (JsNumber.parseInt trimmedValue)))
  else if on "x" || on "y" || on "z"
  then upd (caseXYZ trimmedKey trimmedValue (Selector.executionLocation s))
  else if on "dx" || on "dy" || on "dz" then upd (caseVolume trimmedKey trimmedValue)
  else if on "r" then upd (Query.set_maxDistance (Some (JsNumber.parseInt trimmedValue)))
  else if on "rm" then upd (Query.set_minDistance (Some (JsNumber.parseInt trimmedValue)))
  else if on "c" then upd (caseCount trimmedValue)
  else if on "rx"
  then upd (Query.set_maxVerticalRotation (Some (JsNumber.parseFloat trimmedValue)))
  else if on "rxm"
  then upd (Query.set_minVerticalRotation (Some (JsNumber.parseFloat trimmedValue)))
  else if on "ry"
  then upd (Query.set_maxHorizontalRotation (Some (JsNumber.parseFloat trimmedValue)))
  else if on "rym"
  then upd (Query.set_minHorizontalRotation (Some (JsNumber.parseFloat trimmedValue)))
  else if on "scores" then upd (caseScores trimmedValue)
  else if on "hasitem" then caseHasitem trimmedValue s
  else (s, [WarnUnsupportedArgument trimmedKey]).

(** The second loop (92-351). *)
Definition interpret : string -> Selector.t -> Selector.t * list Warning :=
  interpretWith dispatch.

Definition interpretAll : list string -> Selector.t -> Selector.t * list Warning :=
  interpretAllWith dispatch.

Definition _parseArguments (argsString : string) (s : Selector.t)
  : Selector.t * list Warning :=
  interpretAll (splitArguments argsString) s.

Definition EntitySelector := construct _parseArguments.

End WithRuntime.
End Revised.

(** ** EntitySelectorParser.ts: the interpreter *)

Module Legacy.
Import Interpreter.

Section WithRuntime.
Context `{Runtime}.

(** [case "hasitem":] with its [try] and [catch] (231-302). *)
Definition caseHasitem (trimmedValue : string) (s : Selector.t)
  : Selector.t * list Warning :=
  let jsonCompliantValue := legacyJsonCompliant trimmedValue in
  let parsedItems :=
    if startsWith "[" jsonCompliantValue
    then Some (JSON_parse jsonCompliantValue)
    else if startsWith "{" jsonCompliantValue
    then Some (option_map (fun v => JArr [v]) (JSON_parse jsonCompliantValue))
    else None in
  match parsedItems with
  | None => (s, [WarnHasitemFormat trimmedValue])
  | Some None => (s, [WarnHasitemParse trimmedValue])
  | Some (Some (JArr parsedItems)) =>
      let '(filters, completed) :=
        pushFilters rangeOfLegacy parsedItems (Selector.hasItemFilters s) in
      (Selector.set_hasItemFilters filters s,
       if completed then [] else [WarnHasitemParse trimmedValue])
  | Some (Some _) => (s, [])
  end.

(** The [switch] (133-307). *)
Definition dispatch (trimmedKey trimmedValue : string) (s : Selector.t)
  : Selector.t * list Warning :=
  let upd f := (Selector.updQuery f s, []) in
  let on k := String.eqb trimmedKey k in
  if on "type" then upd (caseType trimmedValue)
  else if on "name" then upd (caseName trimmedValue)
  else if on "tag" then upd (caseTag trimmedValue)
  else if on "family" then upd (caseFamily trimmedValue)
  else if on "x" || on "y" || on "z"
  then upd (caseXYZLegacy trimmedKey trimmedValue (Selector.executionLocation s))
  else if on "dx" || on "dy" || on "dz" then upd (caseVolume trimmedKey trimmedValue)
  else if on "r" then upd (Query.set_maxDistance (Some (JsNumber.parseInt trimmedValue)))
  else if on "rm" then upd (Query.set_minDistance (Some (JsNumber.parseInt trimmedValue)))
  else if on "c" then upd (caseCount trimmedValue)
  else if on "m" then upd (Query.set_gameMode (Some trimmedValue))
  else if on "l" then upd (Query.set_maxLevel (Some (JsNumber.parseInt trimmedValue)))
  else if on "lm" then upd (Query.set_minLevel (Some (JsNumber.parseInt trimmedValue)))
  else if on "scores" then upd (caseScores trimmedValue)
  else if on "hasitem" then caseHasitem trimmedValue s
  else (s, [WarnUnsupportedArgument trimmedKey]).

(** The second loop (120-308). *)
Definition interpret : string -> Selector.t -> Selector.t * list Warning :=
  interpretWith dispatch.

Definition interpretAll : list string -> Selector.t -> Selector.t * list Warning :=
  interpretAllWith dispatch.

Definition _parseArguments (argsString : string) (s : Selector.t)
  : Selector.t * list Warning :=
  interpretAll (splitArguments argsString) s.

Definition EntitySelector := construct _parseArguments.

End WithRuntime.
End Legacy.

(** ** Filters on one entity, shared by the two files *)

Module Filters.

Definition memberOf (x : string) (l : list string) : bool := bool_decide (x ∈ l).

(** [o !== undefined], and the truthiness of an optional object. *)
Definition defined {A} (o : option A) : bool :=
  match o with
  | Some _ => true
  | None => false
  end.

(** Truthiness of an optional string property: present and not empty. *)
Definition truthyString (o : option string) : option string :=
  match o with
  | Some s => if isEmpty s then None else Some s
  | None => None
  end.

(** [familyComponent?.hasTypeFamily(family)], as a condition. *)
Definition hasTypeFamily (e : Entity.t) (family : string) : bool :=
  match Entity.typeFamilies e with
  | Some fs => memberOf family fs
  | None => false
  end.

(** [_calculateDistanceSquared] *)
Definition _calculateDistanceSquared (a b : Vector3.t) : number :=
  let dx := JsNumber.sub (Vector3.x a) (Vector3.x b) in
  let dy := JsNumber.sub (Vector3.y a) (Vector3.y b) in
  let dz := JsNumber.sub (Vector3.z a) (Vector3.z b) in
  JsNumber.add (JsNumber.add (JsNumber.mul dx dx) (JsNumber.mul dy dy)) (JsNumber.mul dz dz).

(** One axis of [_isWithinVolume] (part_000 459-483) and of the callback in
    [_filterByVolume] (EntitySelectorParser.ts 453-479). *)
Definition withinAxis (e base delta : number) : bool :=
  let lo := JsNumber.min base (JsNumber.add base delta) in
  let hi := JsNumber.max base (JsNumber.add base delta) in
  let effectiveMax := if JsNumber.isZero delta then JsNumber.add lo (Fin 1) else hi in
  JsNumber.ge e lo && JsNumber.lt e effectiveMax.

Definition _isWithinVolume (entityLocation volumeBaseLocation volumeDelta : Vector3.t)
  : bool :=
  withinAxis (Vector3.x entityLocation) (Vector3.x volumeBaseLocation) (Vector3.x volumeDelta)
  && withinAxis (Vector3.y entityLocation) (Vector3.y volumeBaseLocation)
       (Vector3.y volumeDelta)
  && withinAxis (Vector3.z entityLocation) (Vector3.z volumeBaseLocation)
       (Vector3.z volumeDelta).

Definition _filterByVolume (entities : list Entity.t) (location volume : Vector3.t)
  : list Entity.t :=
  List.filter (fun entity => _isWithinVolume (Entity.location entity) location volume)
    entities.

(** The conditions on type, name, tags and families, which
    [_checkExecutorMatchesBaseQuery] and [_matchesManualFilters] start
    with. *)
Definition matchesIdentity (entity : Entity.t) (options : EntityQueryOptions) : bool :=
  match truthyString (Query.type options) with
  | Some t => String.eqb (Entity.typeId entity) t
  | None => true
  end
  && match Query.excludeTypes options with
     | Some l => negb (memberOf (Entity.typeId entity) l)
     | None => true
     end
  && match truthyString (Query.name options) with
     | Some n => String.eqb (Entity.nameTag entity) n
     | None => true
     end
  && match Query.tags options with
     | Some l => forallb (fun tag => memberOf tag (Entity.tags entity)) l
     | None => true
     end
  && match Query.excludeTags options with
     | Some l => negb (existsb (fun tag => memberOf tag (Entity.tags entity)) l)
     | None => true
     end
  && match Query.families options with
     | Some l => forallb (hasTypeFamily entity) l
     | None => true
     end
  && match Query.excludeFamilies options with
     | Some l => negb (existsb (hasTypeFamily entity) l)
     | None => true
     end.

(** [o !== undefined && test(o)] is not the case. *)
Definition unlessBound (o : option number) (violates : number -> bool) : bool :=
  match o with
  | Some b => negb (violates b)
  | None => true
  end.

Definition matchesLevels (p : Player.t) (options : EntityQueryOptions) : bool :=
  unlessBound (Query.minLevel options) (fun b => JsNumber.lt (Player.level p) b)
  && unlessBound (Query.maxLevel options) (fun b => JsNumber.gt (Player.level p) b).

Definition matchesGameMode (p : Player.t) (options : EntityQueryOptions) : bool :=
  match truthyString (Query.gameMode options) with
  | Some m => String.eqb (Player.gameMode p) m
  | None => true
  end.

Definition matchesDistance (entity : Entity.t) (options : EntityQueryOptions) : bool :=
  match Query.location options with
  | Some l =>
      let distSq := _calculateDistanceSquared (Entity.location entity) l in
      unlessBound (Query.minDistance options)
        (fun b => JsNumber.lt distSq (JsNumber.mul b b))
      && unlessBound (Query.maxDistance options)
           (fun b => JsNumber.gt distSq (JsNumber.mul b b))
  | None => true
  end.

(** *** The slots [_checkSingleEntityHasItem] searches *)

Module Slot.
Record t := {
  itemStack : option ItemStack.t;
  slotType : string;
  slotIndex : Z;
}.
End Slot.

Definition equipmentSlotType (slotKey : EquipmentSlot) : string :=
  match slotKey with
  | Head => "slot.armor.head"
  | Chest => "slot.armor.chest"
  | Legs => "slot.armor.legs"
  | Feet => "slot.armor.feet"
  | Mainhand => "slot.weapon.mainhand"
  | Offhand => "slot.weapon.offhand"
  | OtherSlot slotName => "slot.equippable." +:+ toLowerCase slotName
  end.

Section WithHost.
Context `{Host}.

Definition slotsToSearch (entity : Entity.t) : list Slot.t :=
  match Entity.container entity with
  | Some items =>
      imap (fun i item =>
              {| Slot.itemStack := item;
                 Slot.slotType :=
                   match Entity.player entity with
                   | Some _ => if (i <=? 8)%nat then "slot.hotbar" else "slot.inventory"
                   | None => "slot.inventory"
                   end;
                 Slot.slotIndex := Z.of_nat i |}) items
  | None => []
  end
  ++
  match Entity.equippable entity with
  | Some getEquipment =>
      map (fun slotKey =>
             {| Slot.itemStack := getEquipment slotKey;
                Slot.slotType := equipmentSlotType slotKey;
                Slot.slotIndex := -1 |}) equipmentSlots
  | None => []
  end.

End WithHost.

(** [sMin <= slotIndex <= sMax] with an absent bound read as the matching
    infinity (part_000 663-665, 677-679). *)
Definition inRange (r : Range.t) (n : number) : bool :=
  JsNumber.ge n (default NegInf (Range.min r))
  && JsNumber.le n (default PosInf (Range.max r)).

End Filters.

(** ** part_000: the evaluator *)

Module RevisedEval.
Import Filters.

(** [_checkExecutorMatchesBaseQuery] (485-526). *)
Definition _checkExecutorMatchesBaseQuery (entity : Entity.t) (options : EntityQueryOptions)
  : bool :=
  matchesIdentity entity options
  && match Entity.player entity with
     | Some p => matchesGameMode p options && matchesLevels p options
     | None => true
     end
  && unlessBound (Query.minHorizontalRotation options)
       (fun b => JsNumber.lt (Entity.rotationY entity) b)
  && unlessBound (Query.maxHorizontalRotation options)
       (fun b => JsNumber.gt (Entity.rotationY entity) b)
  && unlessBound (Query.minVerticalRotation options)
       (fun b => JsNumber.lt (Entity.rotationX entity) b)
  && unlessBound (Query.maxVerticalRotation options)
       (fun b => JsNumber.gt (Entity.rotationX entity) b)
  && matchesDistance entity options.

(** One slot of the last loop of [_checkSingleEntityHasItem] (622-685):
    [true] is [return true], [false] a [continue]. *)
Definition slotMatches (filter : HasItemFilter.t) (slot : Slot.t) : bool :=
  match Slot.itemStack slot with
  | None => false
  | Some itemStack =>
      let slotType := Slot.slotType slot in
      let slotIndex := Slot.slotIndex slot in
      let itemMatch :=
        match truthyString (HasItemFilter.item filter) with
        | None => true
        | Some item =>
            if startsWith "minecraft:" item
            then String.eqb (ItemStack.typeId itemStack) item
            else memberOf item (ItemStack.tags itemStack)
        end in
      let quantityMatch :=
        match HasItemFilter.quantity filter with
        | None => true
        | Some q => inRange q (ItemStack.amount itemStack)
        end in
      let dataMatch :=
        match HasItemFilter.data filter with
        | None => true
        | Some data =>
            negb (JsNumber.truthy data) || JsNumber.strictEq data (Fin (-1))
            || (negb (JsNumber.strictEq data (Fin (-1)))
                && match ItemStack.durabilityDamage itemStack with
                   | Some damage => JsNumber.strictEq data damage
                   | None => JsNumber.strictEq data (Fin 0)
                   end)
        end in
      let locationAndSlotMatch :=
        match truthyString (HasItemFilter.location filter) with
        | Some location =>
            let matchesLocation :=
              String.eqb location slotType
              || (String.eqb location "slot.inventory"
                  && (String.eqb slotType "slot.hotbar"
                      || String.eqb slotType "slot.inventory")) in
            matchesLocation
            && match HasItemFilter.slot filter with
               | Some r =>
                   if negb (slotIndex =? -1) then inRange r (JsNumber.ofZ slotIndex)
                   else startsWith "slot.armor." slotType
                        || startsWith "slot.weapon." slotType
               | None => true
               end
        | None =>
            match HasItemFilter.slot filter with
            | Some r =>
                if negb (slotIndex =? -1) then inRange r (JsNumber.ofZ slotIndex)
                else false
            | None => true
            end
        end in
      itemMatch && quantityMatch && dataMatch && locationAndSlotMatch
  end.

Section WithHost.
Context `{Host}.

Definition _checkSingleEntityHasItem (entity : Entity.t) (filter : HasItemFilter.t) : bool :=
  existsb (slotMatches filter) (slotsToSearch entity).

(** [entities.filter(e => this.hasItemFilters.every(...))], guarded by
    [this.hasItemFilters.length > 0]. *)
Definition filterByItems (hasItemFilters : list HasItemFilter.t) (entities : list Entity.t)
  : list Entity.t :=
  if (0 <? List.length hasItemFilters)%nat then
    List.filter (fun e => forallb (_checkSingleEntityHasItem e) hasItemFilters) entities
  else entities.

(** [const queryForS = { type: currentQuery.type, ... }] (361-377). *)
Definition queryForS {arr vec} (currentQuery : Query.t arr vec) : Query.t arr vec :=
  {| Query.type := Query.type currentQuery;
     Query.excludeTypes := Query.excludeTypes currentQuery;
     Query.name := Query.name currentQuery;
     Query.tags := Query.tags currentQuery;
     Query.excludeTags := Query.excludeTags currentQuery;
     Query.families := Query.families currentQuery;
     Query.excludeFamilies := Query.excludeFamilies currentQuery;
     Query.gameMode := Query.gameMode currentQuery;
     Query.maxLevel := Query.maxLevel currentQuery;
     Query.minLevel := Query.minLevel currentQuery;
     Query.location := None;
     Query.volume := None;
     Query.maxDistance := None;
     Query.minDistance := None;
     Query.closest := None;
     Query.farthest := None;
     Query.maxVerticalRotation := Query.maxVerticalRotation currentQuery;
     Query.minVerticalRotation := Query.minVerticalRotation currentQuery;
     Query.maxHorizontalRotation := Query.maxHorizontalRotation currentQuery;
     Query.minHorizontalRotation := Query.minHorizontalRotation currentQuery;
     Query.scoreOptions := Query.scoreOptions currentQuery |}.

(** The condition of "location の自動設定" (404-415), [location] aside. *)
Definition needsLocation {arr vec} (q : Query.t arr vec) : bool :=
  defined (Query.minDistance q) || defined (Query.maxDistance q)
  || defined (Query.closest q) || defined (Query.farthest q)
  || defined (Query.volume q)
  || defined (Query.minHorizontalRotation q)
  || defined (Query.maxHorizontalRotation q)
  || defined (Query.minVerticalRotation q)
  || defined (Query.maxVerticalRotation q).

(** [n || 1] on an optional number. *)
Definition orOne (n : option number) : number :=
  match n with
  | Some c => if JsNumber.truthy c then c else Fin 1
  | None => Fin 1
  end.

(** [Math.floor(Math.random() * length)] *)
Definition randomIndex (r : Q) (length : nat) : nat :=
  Z.to_nat (Qfloor (r * inject_Z (Z.of_nat length))).

(** The loop [for (let i = 0; i < count && copy.length > 0; i++)] (449-452)
    from iteration [i] on.  Each iteration takes one entity out of [copy],
    so [fuel] iterations are enough when [fuel] is the length of [copy].
    With [Math.random()] below 1 the index is in range; the model stops
    where it is not. *)
Fixpoint sampleLoop (fuel : nat) (random : RandomSource) (i : nat) (count : number)
    (copy result : list Entity.t) : list Entity.t :=
  match fuel with
  | O => result
  | S fuel' =>
      if JsNumber.lt (JsNumber.ofZ (Z.of_nat i)) count && (0 <? List.length copy)%nat then
        let randomIndex := randomIndex (random i) (List.length copy) in
        match copy !! randomIndex with
        | Some e =>
            sampleLoop fuel' random (S i) count (delete randomIndex copy) (result ++ [e])
        | None => result
        end
      else result
  end.

(** The symbol-specific changes to [currentQuery] (421-432). *)
Definition bySymbol {arr vec} (symbol : string) (closest : option number)
    (currentQuery : Query.t arr vec) : Query.t arr vec :=
  if String.eqb symbol "@p" then
    Query.set_closest (Some (orOne closest))
      (Query.set_type (Some "minecraft:player") currentQuery)
  else if String.eqb symbol "@a" then
    Query.set_type (Some "minecraft:player") currentQuery
  else if String.eqb symbol "@r" then
    let q :=
      if negb (defined (truthyString (Query.type currentQuery)))
         && negb (defined (Query.families currentQuery))
         && negb (defined (Query.tags currentQuery))
         && negb (defined (truthyString (Query.name currentQuery)))
      then Query.set_type (Some "minecraft:player") currentQuery
      else currentQuery in
    Query.set_farthest None (Query.set_closest None q)
  else currentQuery.

(** [countArg] and [count] (445-446). *)
Definition sampleCount {arr vec} (q : Query.t arr vec) : number :=
  let countArg :=
    match Query.closest q with
    | Some c => c
    | None => default (Fin 1) (Query.farthest q)
    end in
  JsNumber.max (Fin 1) (JsNumber.abs countArg).

(** The query handed to the host for a symbol other than [@s]. *)
Definition effectiveQuery (s : Selector.t) : EntityQueryOptions :=
  let currentQuery := Selector.queryOptions s in
  let currentQuery :=
    if negb (defined (Query.location currentQuery)) && needsLocation currentQuery then
      match Selector.executionLocation s with
      | Some l => Query.set_location (Some l) currentQuery
      | None => currentQuery
      end
    else currentQuery in
  bySymbol (Selector.targetSelectorSymbol s) (Query.closest (Selector.queryOptions s))
    currentQuery.

(** [getEntities] (354-457). *)
Definition getEntities (random : RandomSource) (s : Selector.t)
  : list Entity.t * list Warning :=
  let currentQuery := Selector.queryOptions s in
  if String.eqb (Selector.targetSelectorSymbol s) "@s" then
    match Selector.executor s with
    | Some executor =>
        if _checkExecutorMatchesBaseQuery executor (queryForS currentQuery) then
          let executorArray := filterByItems (Selector.hasItemFilters s) [executor] in
          match Query.volume currentQuery, Query.location currentQuery with
          | Some volumeForS, Some locationForS =>
              if negb (_isWithinVolume (Entity.location executor) locationForS volumeForS)
              then ([], [])
              else (executorArray, [])
          | _, _ => (executorArray, [])
          end
        else ([], [])
    | None => ([], [WarnNoExecutor])
    end
  else
    let entities := dimensionGetEntities (Selector.executionDimension s) (effectiveQuery s) in
    let entities := filterByItems (Selector.hasItemFilters s) entities in
    if String.eqb (Selector.targetSelectorSymbol s) "@r"
       && (0 <? List.length entities)%nat
    then (sampleLoop (List.length entities) random 0
            (sampleCount (Selector.queryOptions s)) entities [], [])
    else (entities, []).

End WithHost.
End RevisedEval.

(** ** EntitySelectorParser.ts: the evaluator *)

Module LegacyEval.
Import Filters.

Section WithHost.
Context `{Host}.

(** One [filter] of the loop of [_matchesScoreFilters] (430-451): [true]
    where the loop goes on. *)
Definition scoreMatches (scoreboardId : nat) (filter : ScoreFilter.t) : bool :=
  match scoreboardGetObjective (ScoreFilter.objective filter) with
  | Found objective =>
      match objectiveGetScore objective scoreboardId with
      | Found score =>
          unlessBound (ScoreFilter.minScore filter) (fun b => JsNumber.lt score b)
          && unlessBound (ScoreFilter.maxScore filter) (fun b => JsNumber.gt score b)
      | Undefined | Throws => false
      end
  | Undefined | Throws => false
  end.

Definition _matchesScoreFilters (entity : Entity.t) (scoreFilters : list ScoreFilter.t)
  : bool :=
  match Entity.scoreboardIdentity entity with
  | Some scoreboardId => forallb (scoreMatches scoreboardId) scoreFilters
  | None => false
  end.

(** [if (scoreOptions && scoreOptions.length > 0) l = l.filter(...)] *)
Definition filterByScores (scoreOptions : option (list ScoreFilter.t))
    (entities : list Entity.t) : list Entity.t :=
  match scoreOptions with
  | Some (f :: fs) => List.filter (fun e => _matchesScoreFilters e (f :: fs)) entities
  | _ => entities
  end.

(** [_matchesManualFilters] (374-429). *)
Definition _matchesManualFilters (entity : Entity.t) (options : EntityQueryOptions) : bool :=
  matchesIdentity entity options
  && match Entity.player entity with
     | Some p => matchesGameMode p options && matchesLevels p options
     | None => true
     end
  && match Query.scoreOptions options with
     | Some (f :: fs) => _matchesScoreFilters entity (f :: fs)
     | _ => true
     end
  && matchesDistance entity options.

(** One slot of the last loop of [_checkSingleEntityHasItem] (534-632). *)
Definition slotMatches (filter : HasItemFilter.t) (slot : Slot.t) : bool :=
  match Slot.itemStack slot with
  | None => false
  | Some itemStack =>
      let slotType := Slot.slotType slot in
      let slotIndex := Slot.slotIndex slot in
      let itemMatch :=
        match truthyString (HasItemFilter.item filter) with
        | None => true
        | Some item =>
            if negb (String.eqb (ItemStack.typeId itemStack) item)
               && negb (memberOf item (ItemStack.tags itemStack))
            then
              if startsWith "minecraft:" item
              then String.eqb (ItemStack.typeId itemStack) item
              else memberOf item (ItemStack.tags itemStack)
            else true
        end in
      let quantityMatch :=
        match HasItemFilter.quantity filter with
        | None => true
        | Some q =>
            unlessBound (Range.min q) (fun b => JsNumber.lt (ItemStack.amount itemStack) b)
            && unlessBound (Range.max q)
                 (fun b => JsNumber.gt (ItemStack.amount itemStack) b)
        end in
      let dataMatch :=
        match HasItemFilter.data filter with
        | None => true
        | Some data =>
            if negb (JsNumber.strictEq data (Fin (-1))) then
              match ItemStack.durabilityDamage itemStack with
              | Some damage =>
                  negb (JsNumber.strictEq data (Fin 0)
                        && negb (JsNumber.strictEq damage (Fin 0)))
                  && negb (JsNumber.gt data (Fin 0)
                           && negb (JsNumber.strictEq damage data))
              | None => JsNumber.strictEq data (Fin 0)
              end
            else true
        end in
      (** [sMin], [sMax] and the three-way test on them (572-580, 613-623) *)
      let bounded (r : Range.t) :=
        match Range.min r, Range.max r with
        | Some sMin, Some sMax =>
            JsNumber.ge (JsNumber.ofZ slotIndex) sMin
            && JsNumber.le (JsNumber.ofZ slotIndex) sMax
        | Some sMin, None => JsNumber.ge (JsNumber.ofZ slotIndex) sMin
        | None, Some sMax => JsNumber.le (JsNumber.ofZ slotIndex) sMax
        | None, None => false
        end in
      let locationAndSlotMatch :=
        match truthyString (HasItemFilter.location filter) with
        | Some location =>
            let first :=
              String.eqb location slotType
              && match HasItemFilter.slot filter with
                 | Some r => if negb (slotIndex =? -1) then bounded r else true
                 | None => true
                 end in
            if String.eqb location "slot.inventory"
               && (String.eqb slotType "slot.hotbar" || String.eqb slotType "slot.inventory")
            then
              match HasItemFilter.slot filter with
              | Some r =>
                  if negb (slotIndex =? -1) then
                    match Range.min r, Range.max r with
                    | None, None => true
                    | _, _ => bounded r
                    end
                  else true
              | None => true
              end
            else first
        | None =>
            match HasItemFilter.slot filter with
            | Some r => if negb (slotIndex =? -1) then bounded r else false
            | None => true
            end
        end in
      itemMatch && quantityMatch && dataMatch && locationAndSlotMatch
  end.

Definition _checkSingleEntityHasItem (entity : Entity.t) (filter : HasItemFilter.t) : bool :=
  existsb (slotMatches filter) (slotsToSearch entity).

Definition filterByItems (hasItemFilters : list HasItemFilter.t) (entities : list Entity.t)
  : list Entity.t :=
  if (0 <? List.length hasItemFilters)%nat then
    List.filter (fun e => forallb (_checkSingleEntityHasItem e) hasItemFilters) entities
  else entities.

(** The loop [for (let i = 0; i < count && allMatching.length > 0; i++)]
    (344-347), as [RevisedEval.sampleLoop]. *)
Definition sampleLoop := RevisedEval.sampleLoop.

(** [baseQuery] after [case "@p":] (325-329). *)
Definition nearestPlayerQuery {arr vec} (executionLocation : option vec)
    (closest : option number) (baseQuery : Query.t arr vec) : Query.t arr vec :=
  let q := Query.set_type (Some "minecraft:player") baseQuery in
  let q := match executionLocation with
           | Some l => Query.set_location (Some l) q
           | None => q
           end in
  Query.set_closest (Some (RevisedEval.orOne closest)) q.

(** [baseQuery] after [if (!baseQuery.type) ...] of [case "@r":] (337). *)
Definition randomQuery {arr vec} (baseQuery : Query.t arr vec) : Query.t arr vec :=
  if defined (truthyString (Query.type baseQuery)) then baseQuery
  else Query.set_type (Some "minecraft:player") baseQuery.

(** The two filters after the [switch] (360-370). *)
Definition postFilters (s : Selector.t) (entities : list Entity.t) : list Entity.t :=
  let entities :=
    match Query.volume (Selector.queryOptions s), Query.location (Selector.queryOptions s) with
    | Some volume, Some location => _filterByVolume entities location volume
    | _, _ => entities
    end in
  filterByItems (Selector.hasItemFilters s) entities.

(** [getEntities] (311-372). *)
Definition getEntities (random : RandomSource) (s : Selector.t)
  : list Entity.t * list Warning :=
  let baseQuery := Query.set_scoreOptions None (Selector.queryOptions s) in
  let symbol := Selector.targetSelectorSymbol s in
  let dimension := Selector.executionDimension s in
  let scoreOptions := Query.scoreOptions (Selector.queryOptions s) in
  let '(entities, log) :=
    if String.eqb symbol "@s" then
      match Selector.executor s with
      | Some executor =>
          (List.filter (fun e => _matchesManualFilters e (Selector.queryOptions s)) [executor],
           [])
      | None => ([], [WarnNoExecutor])
      end
    else if String.eqb symbol "@p" then
      (dimensionGetEntities dimension
         (nearestPlayerQuery (Selector.executionLocation s)
            (Query.closest (Selector.queryOptions s)) baseQuery), [])
    else if String.eqb symbol "@a" then
      (dimensionGetEntities dimension (Query.set_type (Some "minecraft:player") baseQuery),
       [])
    else if String.eqb symbol "@r" then
      let allMatching :=
        filterByScores scoreOptions (dimensionGetEntities dimension (randomQuery baseQuery)) in
      (if (0 <? List.length allMatching)%nat
       then sampleLoop (List.length allMatching) random 0
              (RevisedEval.orOne (Query.closest (Selector.queryOptions s))) allMatching []
       else [], [])
    else
      (filterByScores scoreOptions (dimensionGetEntities dimension baseQuery), []) in
  (postFilters s entities, log).

End WithHost.
End LegacyEval.

(** ** The object store

    [getEntities] works on objects: [this], the object [this.queryOptions]
    and the arrays and vectors it refers to, the copy [{ ...this.queryOptions }],
    and the arrays of entities it builds.  Here they live in a store, a
    property that holds an array or an object holds a reference, a spread
    copies the references, and an assignment to a property or a [splice]
    writes the cell of the object it is made on. *)

Module Store.

Definition loc := positive.

(** An [EntityQueryOptions] object. *)
Abbreviation QueryObject := (Query.t (fun _ => loc) loc).

(** An [EntitySelector] object. *)
Module SelectorObject.
Record t := {
  selectorString : string;
  executionDimension : string;
  executionLocation : option loc;
  executor : option Entity.t;
  targetSelectorSymbol : string;
  queryOptions : loc;
  hasItemFilters : loc;
}.
End SelectorObject.

Inductive cell :=
  | Strings (l : list string)
  | Vector (v : Vector3.t)
  | Scores (l : list ScoreFilter.t)
  | ItemFilters (l : list HasItemFilter.t)
  | Entities (l : list Entity.t)
  | QueryObj (q : QueryObject)
  | This (s : SelectorObject.t).

Abbreviation store := (gmap loc cell).

(** *** Reading the store *)

Definition loadStrings (h : store) (l : loc) : option (list string) :=
  match h !! l with Some (Strings x) => Some x | _ => None end.
Definition loadVector (h : store) (l : loc) : option Vector3.t :=
  match h !! l with Some (Vector x) => Some x | _ => None end.
Definition loadScores (h : store) (l : loc) : option (list ScoreFilter.t) :=
  match h !! l with Some (Scores x) => Some x | _ => None end.
Definition loadItemFilters (h : store) (l : loc) : option (list HasItemFilter.t) :=
  match h !! l with Some (ItemFilters x) => Some x | _ => None end.
Definition loadEntities (h : store) (l : loc) : option (list Entity.t) :=
  match h !! l with Some (Entities x) => Some x | _ => None end.
Definition loadQueryObj (h : store) (l : loc) : option QueryObject :=
  match h !! l with Some (QueryObj x) => Some x | _ => None end.
Definition loadThis (h : store) (l : loc) : option SelectorObject.t :=
  match h !! l with Some (This x) => Some x | _ => None end.

(** An optional property that holds a reference, followed. *)
Definition follow {A} (load : loc -> option A) (r : option loc) : option (option A) :=
  match r with
  | Some l => Some <$> load l
  | None => Some None
  end.

(** The options an [EntityQueryOptions] object stands for. *)
Definition resolve (h : store) (q : QueryObject) : option EntityQueryOptions :=
  excludeTypes ← follow (loadStrings h) (Query.excludeTypes q);
  tags ← follow (loadStrings h) (Query.tags q);
  excludeTags ← follow (loadStrings h) (Query.excludeTags q);
  families ← follow (loadStrings h) (Query.families q);
  excludeFamilies ← follow (loadStrings h) (Query.excludeFamilies q);
  location ← follow (loadVector h) (Query.location q);
  volume ← follow (loadVector h) (Query.volume q);
  scoreOptions ← follow (loadScores h) (Query.scoreOptions q);
  Some {| Query.type := Query.type q; Query.excludeTypes := excludeTypes;
          Query.name := Query.name q; Query.tags := tags;
          Query.excludeTags := excludeTags; Query.families := families;
          Query.excludeFamilies := excludeFamilies; Query.gameMode := Query.gameMode q;
          Query.maxLevel := Query.maxLevel q; Query.minLevel := Query.minLevel q;
          Query.location := location; Query.volume := volume;
          Query.maxDistance := Query.maxDistance q;
          Query.minDistance := Query.minDistance q; Query.closest := Query.closest q;
          Query.farthest := Query.farthest q;
          Query.maxVerticalRotation := Query.maxVerticalRotation q;
          Query.minVerticalRotation := Query.minVerticalRotation q;
          Query.maxHorizontalRotation := Query.maxHorizontalRotation q;
          Query.minHorizontalRotation := Query.minHorizontalRotation q;
          Query.scoreOptions := scoreOptions |}.

(** The selector an [EntitySelector] object stands for. *)
Definition loadSelector (h : store) (this : loc) : option Selector.t :=
  self ← loadThis h this;
  executionLocation ← follow (loadVector h) (SelectorObject.executionLocation self);
  q ← loadQueryObj h (SelectorObject.queryOptions self);
  queryOptions ← resolve h q;
  hasItemFilters ← loadItemFilters h (SelectorObject.hasItemFilters self);
  Some {| Selector.selectorString := SelectorObject.selectorString self;
          Selector.executionDimension := SelectorObject.executionDimension self;
          Selector.executionLocation := executionLocation;
          Selector.executor := SelectorObject.executor self;
          Selector.targetSelectorSymbol := SelectorObject.targetSelectorSymbol self;
          Selector.queryOptions := queryOptions;
          Selector.hasItemFilters := hasItemFilters |}.

(** *** Computations on the store *)

Definition M (A : Type) : Type := store -> option (A * store).

Definition ret {A} (a : A) : M A := fun h => Some (a, h).

Definition bind {A B} (m : M A) (k : A -> M B) : M B :=
  fun h => match m h with
           | Some (a, h') => k a h'
           | None => None
           end.

#[export] Instance M_ret : MRet M := @ret.
#[export] Instance M_bind : MBind M := fun A B k m => bind m k.

(** A new object. *)
Definition alloc (c : cell) : M loc :=
  fun h => let l := fresh (dom h) in Some (l, <[l := c]> h).

(** A read through a reference; a dangling or ill-typed one has no result. *)
Definition read {A} (load : store -> loc -> option A) (l : loc) : M A :=
  fun h => match load h l with
           | Some a => Some (a, h)
           | None => None
           end.

(** A write to an object that exists. *)
Definition write (l : loc) (c : cell) : M unit :=
  fun h => match h !! l with
           | Some _ => Some (tt, <[l := c]> h)
           | None => None
           end.

(** A look at the store that changes nothing. *)
Definition peek {A} (f : store -> option A) : M A :=
  fun h => match f h with
           | Some a => Some (a, h)
           | None => None
           end.

(** [q.f = v] on the object at [l]. *)
Definition update (l : loc) (f : QueryObject -> QueryObject) : M unit :=
  q ← read loadQueryObj l; write l (QueryObj (f q)).

(** The objects a selector is made of, as its constructor leaves them. *)
Definition allocOption {A} (inj : A -> cell) (o : option A) : M (option loc) :=
  match o with
  | Some a => l ← alloc (inj a); mret (Some l)
  | None => mret None
  end.

Definition allocSelector (s : Selector.t) : M loc :=
  let q := Selector.queryOptions s in
  executionLocation ← allocOption Vector (Selector.executionLocation s);
  excludeTypes ← allocOption Strings (Query.excludeTypes q);
  tags ← allocOption Strings (Query.tags q);
  excludeTags ← allocOption Strings (Query.excludeTags q);
  families ← allocOption Strings (Query.families q);
  excludeFamilies ← allocOption Strings (Query.excludeFamilies q);
  location ← allocOption Vector (Query.location q);
  volume ← allocOption Vector (Query.volume q);
  scoreOptions ← allocOption Scores (Query.scoreOptions q);
  queryOptions ← alloc (QueryObj
    {| Query.type := Query.type q; Query.excludeTypes := excludeTypes;
       Query.name := Query.name q; Query.tags := tags;
       Query.excludeTags := excludeTags; Query.families := families;
       Query.excludeFamilies := excludeFamilies; Query.gameMode := Query.gameMode q;
       Query.maxLevel := Query.maxLevel q; Query.minLevel := Query.minLevel q;
       Query.location := location; Query.volume := volume;
       Query.maxDistance := Query.maxDistance q;
       Query.minDistance := Query.minDistance q; Query.closest := Query.closest q;
       Query.farthest := Query.farthest q;
       Query.maxVerticalRotation := Query.maxVerticalRotation q;
       Query.minVerticalRotation := Query.minVerticalRotation q;
       Query.maxHorizontalRotation := Query.maxHorizontalRotation q;
       Query.minHorizontalRotation := Query.minHorizontalRotation q;
       Query.scoreOptions := scoreOptions |});
  hasItemFilters ← alloc (ItemFilters (Selector.hasItemFilters s));
  alloc (This
    {| SelectorObject.selectorString := Selector.selectorString s;
       SelectorObject.executionDimension := Selector.executionDimension s;
       SelectorObject.executionLocation := executionLocation;
       SelectorObject.executor := Selector.executor s;
       SelectorObject.targetSelectorSymbol := Selector.targetSelectorSymbol s;
       SelectorObject.queryOptions := queryOptions;
       SelectorObject.hasItemFilters := hasItemFilters |}).

Section WithHost.
Context `{Host}.
Import Filters.

(** The options the object at [l] stands for, as a callee reads them. *)
Definition options (l : loc) : M EntityQueryOptions :=
  peek (fun h => q ← loadQueryObj h l; resolve h q).

(** [dimension.getEntities(q)]: a new array. *)
Definition hostQuery (dimension : string) (q : loc) : M loc :=
  o ← options q; alloc (Entities (dimensionGetEntities dimension o)).

(** [l.filter(keep)]: a new array. *)
Definition filtered (keep : Entity.t -> bool) (l : loc) : M loc :=
  entities ← read loadEntities l; alloc (Entities (List.filter keep entities)).

(** The sampling loop: [from.splice(randomIndex, 1)] writes the array
    [from], [to.push(...)] the array [to]. *)
Fixpoint sampleLoop (fuel : nat) (random : RandomSource) (i : nat) (count : number)
    (from to : loc) : M unit :=
  match fuel with
  | O => mret tt
  | S fuel' =>
      copy ← read loadEntities from;
      if JsNumber.lt (JsNumber.ofZ (Z.of_nat i)) count && (0 <? List.length copy)%nat then
        let randomIndex := RevisedEval.randomIndex (random i) (List.length copy) in
        match copy !! randomIndex with
        | Some e =>
            write from (Entities (delete randomIndex copy));;
            result ← read loadEntities to;
            write to (Entities (result ++ [e]));;
            sampleLoop fuel' random (S i) count from to
        | None => mret tt
        end
      else mret tt
  end.

(** [this.f] *)
Definition self (this : loc) : M SelectorObject.t := read loadThis this.

(** [if (this.hasItemFilters.length > 0) l = l.filter(...)], with the
    test of one entity as [check]. *)
Definition filterByItems (check : Entity.t -> HasItemFilter.t -> bool) (this : loc)
    (entities : loc) : M loc :=
  me ← self this;
  hasItemFilters ← read loadItemFilters (SelectorObject.hasItemFilters me);
  if (0 <? List.length hasItemFilters)%nat
  then filtered (fun e => forallb (check e) hasItemFilters) entities
  else mret entities.

(** [getEntities] of part_000 (354-457). *)
Definition getEntities (random : RandomSource) (this : loc)
  : M (list Entity.t * list Warning) :=
  me ← self this;
  q ← read loadQueryObj (SelectorObject.queryOptions me);
  currentQuery ← alloc (QueryObj q);
  if String.eqb (SelectorObject.targetSelectorSymbol me) "@s" then
    match SelectorObject.executor me with
    | Some executor =>
        cq ← read loadQueryObj currentQuery;
        queryForS ← alloc (QueryObj (RevisedEval.queryForS cq));
        o ← options queryForS;
        if RevisedEval._checkExecutorMatchesBaseQuery executor o then
          executorArray ← alloc (Entities [executor]);
          executorArray ←
            filterByItems RevisedEval._checkSingleEntityHasItem this executorArray;
          cq ← read loadQueryObj currentQuery;
          executorArray ←
            match Query.volume cq, Query.location cq with
            | Some volumeForS, Some locationForS =>
                volume ← read loadVector volumeForS;
                location ← read loadVector locationForS;
                if negb (_isWithinVolume (Entity.location executor) location volume)
                then alloc (Entities [])
                else mret executorArray
            | _, _ => mret executorArray
            end;
          entities ← read loadEntities executorArray;
          mret (entities, [])
        else mret ([], [])
    | None => mret ([], [WarnNoExecutor])
    end
  else
    cq ← read loadQueryObj currentQuery;
    (if negb (defined (Query.location cq)) && RevisedEval.needsLocation cq then
       match SelectorObject.executionLocation me with
       | Some l => update currentQuery (Query.set_location (Some l))
       | None => mret tt
       end
     else mret tt);;
    me ← self this;
    stored ← read loadQueryObj (SelectorObject.queryOptions me);
    update currentQuery
      (RevisedEval.bySymbol (SelectorObject.targetSelectorSymbol me) (Query.closest stored));;
    entities ← hostQuery (SelectorObject.executionDimension me) currentQuery;
    entities ← filterByItems RevisedEval._checkSingleEntityHasItem this entities;
    found ← read loadEntities entities;
    me ← self this;
    if String.eqb (SelectorObject.targetSelectorSymbol me) "@r"
       && (0 <? List.length found)%nat
    then
      stored ← read loadQueryObj (SelectorObject.queryOptions me);
      result ← alloc (Entities []);
      copy ← alloc (Entities found);
      sampleLoop (List.length found) random 0 (RevisedEval.sampleCount stored) copy result;;
      sampled ← read loadEntities result;
      mret (sampled, [])
    else mret (found, []).

(** [getEntities] of EntitySelectorParser.ts (311-372). *)
Definition getEntitiesLegacy (random : RandomSource) (this : loc)
  : M (list Entity.t * list Warning) :=
  entities ← alloc (Entities []);
  me ← self this;
  q ← read loadQueryObj (SelectorObject.queryOptions me);
  baseQuery ← alloc (QueryObj q);
  update baseQuery (Query.set_scoreOptions None);;
  me ← self this;
  let symbol := SelectorObject.targetSelectorSymbol me in
  let dimension := SelectorObject.executionDimension me in
  '(entities, log) ←
    (if String.eqb symbol "@s" then
       match SelectorObject.executor me with
       | Some executor =>
           array ← alloc (Entities [executor]);
           o ← options (SelectorObject.queryOptions me);
           l ← filtered (fun e => LegacyEval._matchesManualFilters e o) array;
           mret (l, [])
       | None => mret (entities, [WarnNoExecutor])
       end
     else if String.eqb symbol "@p" then
       stored ← read loadQueryObj (SelectorObject.queryOptions me);
       update baseQuery
         (LegacyEval.nearestPlayerQuery (SelectorObject.executionLocation me)
            (Query.closest stored));;
       l ← hostQuery dimension baseQuery;
       mret (l, [])
     else if String.eqb symbol "@a" then
       update baseQuery (Query.set_type (Some "minecraft:player"));;
       l ← hostQuery dimension baseQuery;
       mret (l, [])
     else if String.eqb symbol "@r" then
       update baseQuery LegacyEval.randomQuery;;
       allMatching ← hostQuery dimension baseQuery;
       o ← options (SelectorObject.queryOptions me);
       allMatching ←
         match Query.scoreOptions o with
         | Some (f :: fs) =>
             filtered (fun e => LegacyEval._matchesScoreFilters e (f :: fs)) allMatching
         | _ => mret allMatching
         end;
       found ← read loadEntities allMatching;
       (if (0 <? List.length found)%nat then
          stored ← read loadQueryObj (SelectorObject.queryOptions me);
          sampleLoop (List.length found) random 0
            (RevisedEval.orOne (Query.closest stored)) allMatching entities
        else mret tt);;
       mret (entities, [])
     else
       l ← hostQuery dimension baseQuery;
       o ← options (SelectorObject.queryOptions me);
       l ←
         match Query.scoreOptions o with
         | Some (f :: fs) => filtered (fun e => LegacyEval._matchesScoreFilters e (f :: fs)) l
         | _ => mret l
         end;
       mret (l, []));
  me ← self this;
  stored ← read loadQueryObj (SelectorObject.queryOptions me);
  entities ←
    match Query.volume stored, Query.location stored with
    | Some v, Some l =>
        volume ← read loadVector v;
        location ← read loadVector l;
        filtered (fun entity => _isWithinVolume (Entity.location entity) location volume)
          entities
    | _, _ => mret entities
    end;
  entities ← filterByItems LegacyEval._checkSingleEntityHasItem this entities;
  found ← read loadEntities entities;
  mret (found, log).

End WithHost.
End Store.

(** ** Words of the specification *)

(** *** Arguments *)

Module ArgumentSpec.
Import Interpreter.

(** The key and the value the second loop reads from a token, when it goes
    on to the [switch] with it. *)
Definition argumentOf (arg : string) : option (string * string) :=
  if isEmpty arg || isEmpty (keyOf arg) then None
  else (fun value => (trim (keyOf arg), stripQuotes value)) <$> valueOf arg.

(** The values of the [type] arguments of a list of tokens, in order. *)
Definition typeValues (args : list string) : list string :=
  omap (fun arg => match argumentOf arg with
                   | Some (k, v) => if String.eqb k "type" then Some v else None
                   | None => None
                   end) args.

(** The [X] of the arguments [type=!X]. *)
Definition exclusions (args : list string) : list string :=
  substringFrom 1 <$> List.filter (startsWith "!") (typeValues args).

(** The [X] of the arguments [type=X] that are not negated. *)
Definition positives (args : list string) : list string :=
  List.filter (fun v => negb (startsWith "!" v)) (typeValues args).

(** An array property after [xs] were pushed on it. *)
Definition pushed (before : option (list string)) (xs : list string)
  : option (list string) :=
  match xs with
  | [] => before
  | _ => Some (default [] before ++ xs)
  end.

(** A property after the values [xs] were assigned to it in turn. *)
Definition overwritten (before : option string) (xs : list string) : option string :=
  match last xs with
  | Some v => Some v
  | None => before
  end.

Definition isAxis (k : string) : bool :=
  String.eqb k "x" || String.eqb k "y" || String.eqb k "z".

(** The [x], [y] and [z] arguments of a list of tokens, in order. *)
Definition axisArguments (args : list string) : list (string * string) :=
  omap (fun arg => match argumentOf arg with
                   | Some (k, v) => if isAxis k then Some (k, v) else None
                   | None => None
                   end) args.

(** The execution-context location, or zero on each axis. *)
Definition contextOrigin (executionLocation : option Vector3.t) : Vector3.t :=
  default {| Vector3.x := Fin 0; Vector3.y := Fin 0; Vector3.z := Fin 0 |} executionLocation.

(** The origin after one [x], [y] or [z] argument: the first one starts
    from the context, and each writes its own axis. *)
Definition located (executionLocation : option Vector3.t) (origin : option Vector3.t)
    (kv : string * string) : option Vector3.t :=
  Some (setAxis kv.1 (JsNumber.parseFloat kv.2)
          (default (contextOrigin executionLocation) origin)).


Section WithRuntime.
Context `{Runtime}.

(** A [hasitem] value part_000 cannot decode: it is neither [[...]] nor
    [{...}], its delimiters do not match, a member of the array is not an
    object, or [JSON.parse] fails on the text made from it. *)
Definition malformed (value : string) : bool :=
  match Revised.decodeItems value with
  | Revised.Items _ => false
  | Revised.InvalidFormat | Revised.Exception => true
  end.




End WithRuntime.
End ArgumentSpec.

(** *** Ranges *)

Module RangeSpec.

(** Every character of [s] satisfies [p]. *)
Definition allOf (p : ascii -> bool) (s : string) : bool := forallb p (chars s).

(** [s] does not go on with a character that satisfies [p]. *)
Definition stopsAt (p : ascii -> bool) (s : string) : bool :=
  match s with
  | EmptyString => true
  | String c _ => negb (p c)
  end.

(** A run of one or more decimal digits. *)
Definition isDigits (s : string) : bool := negb (isEmpty s) && allOf isDigit s.

(** A bare integer: [-?\d+] and nothing else. *)
Definition isBareInteger (s : string) : bool :=
  match s with
  | String "-" r => isDigits r
  | _ => isDigits s
  end.



(** A capture group of the pattern: absent, or a bare integer. *)
Definition groupOk (g : option string) : Prop :=
  match g with
  | Some t => isBareInteger t = true
  | None => True
  end.

Definition groupText (g : option string) : string := default EmptyString g.

End RangeSpec.

(** *** Volumes *)

Module VolumeSpec.


Definition vec (x y z : Q) : Vector3.t :=
  {| Vector3.x := Fin x; Vector3.y := Fin y; Vector3.z := Fin z |}.

End VolumeSpec.

(** *** Random selection *)

Module SamplingSpec.
Section WithHost.
Context `{Host}.

(** The entities an [@r] selector of part_000 draws from: what the host
    returns for the query made for it, less those that fail a [hasitem]
    condition. *)
Definition matching (s : Selector.t) : list Entity.t :=
  RevisedEval.filterByItems (Selector.hasItemFilters s)
    (dimensionGetEntities (Selector.executionDimension s) (RevisedEval.effectiveQuery s)).

End WithHost.
End SamplingSpec.

(** ** A small world to run the evaluators in *)

Module Example.
Import Filters.

Definition player (id : nat) (x : Q) : Entity.t :=
  {| Entity.id := id;
     Entity.typeId := "minecraft:player";
     Entity.nameTag := "";
     Entity.location := {| Vector3.x := Fin x; Vector3.y := Fin 0; Vector3.z := Fin 0 |};
     Entity.rotationX := Fin 0;
     Entity.rotationY := Fin 0;
     Entity.tags := [];
     Entity.typeFamilies := Some ["player"];
     Entity.player := Some {| Player.gameMode := "survival"; Player.level := Fin 0 |};
     Entity.scoreboardIdentity := Some id;
     Entity.container := None;
     Entity.equippable := None |}.

(** Two players on the x axis: [near], one block from the origin, and
    [far], five blocks from it. *)
Definition near : Entity.t := player 1 1.
Definition far : Entity.t := player 2 5.

(** The objective [level]: 0 for [near], 7 for [far]. *)
Definition score (objective : string) (identity : nat) : Lookup number :=
  if String.eqb objective "level" then
    match identity with
    | 1%nat => Found (Fin 0)
    | 2%nat => Found (Fin 7)
    | _ => Undefined
    end
  else Throws.

Definition scoreInRange (e : Entity.t) (f : ScoreFilter.t) : bool :=
  match Entity.scoreboardIdentity e with
  | Some i =>
      match score (ScoreFilter.objective f) i with
      | Found n =>
          unlessBound (ScoreFilter.minScore f) (fun b => JsNumber.lt n b)
          && unlessBound (ScoreFilter.maxScore f) (fun b => JsNumber.gt n b)
      | _ => false
      end
  | None => false
  end.

(** The host: of the two players, nearest to the origin first, it keeps
    those that pass the type, name, tag, family and score options it is
    given, and of these the first [closest]. *)
Definition worldQuery (q : EntityQueryOptions) : list Entity.t :=
  let found :=
    List.filter
      (fun e => matchesIdentity e q
                && forallb (scoreInRange e) (default [] (Query.scoreOptions q)))
      [near; far] in
  match Query.closest q with
  | Some (Fin n) => take (Z.to_nat (Qfloor n)) found
  | _ => found
  end.

#[export] Instance host : Host :=
  {| dimensionGetEntities _ q := worldQuery q;
     scoreboardGetObjective name :=
       if String.eqb name "level" then Found name else Undefined;
     objectiveGetScore := score;
     equipmentSlots := [Head; Chest; Legs; Feet; Mainhand; Offhand] |}.

(** A runtime whose [JSON.parse] decodes the one text
    [{"item":"minecraft:torch"}] and whose other services are not called
    on. *)
Definition parseTorch (text : string) : option json :=
  if String.eqb text ("{" +:+ Revised.quoted "item" +:+ ":" +:+ Revised.quoted "minecraft:torch" +:+ "}")
  then Some (JObj [("item", JStr "minecraft:torch")])
  else None.

#[export] Instance runtime : Runtime :=
  {| JSON_parse := parseTorch;
     numberToString _ := EmptyString;
     legacyJsonCompliant s := s |}.

(** A selector as the constructor has it before it reads its string. *)
Definition blank : Selector.t :=
  {| Selector.selectorString := "@e";
     Selector.executionDimension := "overworld";
     Selector.executionLocation := None;
     Selector.executor := None;
     Selector.targetSelectorSymbol := "@e";
     Selector.queryOptions := Query.empty;
     Selector.hasItemFilters := [] |}.

(** [Math.random()] giving 0 each time. *)
Definition zeros : RandomSource := fun _ => 0%Q.

(** An [@r] selector that asks for one entity with a score of 5 or more. *)
Definition nearestFirst : string := "@r[x=0,y=0,z=0,c=1,scores={level=5..}]".

(** A selector, and the store its objects are in. *)
Definition nearestPlayer : Selector.t :=
  (Revised.EntitySelector "@p[type=!minecraft:pig,x=1,scores={level=5..}]" "overworld"
     None (Some near)).1.

Definition nearestPlayerStore : option (Store.loc * Store.store) :=
  Store.allocSelector nearestPlayer ∅.

End Example.

(** ** Reasoning about the store *)

Module StoreLogic.
Import Store.

(** [m] runs from [h] to a result and a store that satisfy [Q]. *)
Definition wp {A} (m : M A) (Q : A -> store -> Prop) (h : store) : Prop :=
  exists a h', m h = Some (a, h') /\ Q a h'.

(** The fields of the options an object stands for. *)
Record Resolves (h : store) (q : QueryObject) (o : EntityQueryOptions) : Prop := {
  r_type : Query.type o = Query.type q;
  r_excludeTypes : follow (loadStrings h) (Query.excludeTypes q) = Some (Query.excludeTypes o);
  r_name : Query.name o = Query.name q;
  r_tags : follow (loadStrings h) (Query.tags q) = Some (Query.tags o);
  r_excludeTags : follow (loadStrings h) (Query.excludeTags q) = Some (Query.excludeTags o);
  r_families : follow (loadStrings h) (Query.families q) = Some (Query.families o);
  r_excludeFamilies :
    follow (loadStrings h) (Query.excludeFamilies q) = Some (Query.excludeFamilies o);
  r_gameMode : Query.gameMode o = Query.gameMode q;
  r_maxLevel : Query.maxLevel o = Query.maxLevel q;
  r_minLevel : Query.minLevel o = Query.minLevel q;
  r_location : follow (loadVector h) (Query.location q) = Some (Query.location o);
  r_volume : follow (loadVector h) (Query.volume q) = Some (Query.volume o);
  r_maxDistance : Query.maxDistance o = Query.maxDistance q;
  r_minDistance : Query.minDistance o = Query.minDistance q;
  r_closest : Query.closest o = Query.closest q;
  r_farthest : Query.farthest o = Query.farthest q;
  r_maxVerticalRotation : Query.maxVerticalRotation o = Query.maxVerticalRotation q;
  r_minVerticalRotation : Query.minVerticalRotation o = Query.minVerticalRotation q;
  r_maxHorizontalRotation : Query.maxHorizontalRotation o = Query.maxHorizontalRotation q;
  r_minHorizontalRotation : Query.minHorizontalRotation o = Query.minHorizontalRotation q;
  r_scoreOptions : follow (loadScores h) (Query.scoreOptions q) = Some (Query.scoreOptions o);
}.

End StoreLogic.

(** ** Proof steps *)

(** Case analysis on the key of a [switch]. *)
Ltac switch k :=
  cbv zeta;
  repeat match goal with
         | |- context [String.eqb k ?lit] =>
             destruct (String.eqb_spec k lit) as [?|?]; [try subst k|]; cbn [orb andb]
         end.

(** A case of the [switch] leaves a property it does not write. *)
Ltac frame :=
  unfold Interpreter.caseType, Interpreter.caseName, Interpreter.caseTag,
    Interpreter.caseFamily, Interpreter.caseCount, Interpreter.caseXYZ,
    Interpreter.caseXYZLegacy, Interpreter.caseVolume, Interpreter.caseScores;
  cbv zeta; simpl; repeat (case_match; simpl); repeat split; reflexivity.

(** A setter keeps what an object stands for, on the fields it leaves. *)
Ltac resolves H := destruct H; constructor; simpl; try done.

(** The digits and signs of the 256 characters, by cases. *)
Ltac by_character c := destruct c as [[] [] [] [] [] [] [] []]; try done.

(** ** More words for the argument list *)

Module ParseSpec.
Import Interpreter ArgumentSpec.

(** The key and value of every token that reaches the [switch], in
    order. *)
Definition arguments (args : list string) : list (string * string) :=
  omap argumentOf args.

(** The values of the arguments with key [k], in order. *)
Definition valuesOf (k : string) (args : list string) : list string :=
  omap (fun kv : string * string => if String.eqb kv.1 k then Some kv.2 else None)
    (arguments args).

(** The [X] of the values [!X]. *)
Definition negated (values : list string) : list string :=
  substringFrom 1 <$> List.filter (startsWith "!") values.

(** The values that do not start with [!]. *)
Definition plain (values : list string) : list string :=
  List.filter (fun v => negb (startsWith "!" v)) values.


(** The counts of the [c] arguments: the integers that are above zero,
    and those that are below. *)
Definition counts (args : list string) : list number :=
  List.filter (fun n => negb (JsNumber.isNaN n)) (JsNumber.parseInt <$> valuesOf "c" args).

Definition lastNumber (g : number -> number) (before : option number) (ns : list number)
  : option number :=
  match last ns with
  | Some n => Some (g n)
  | None => before
  end.




(** The five symbols of a selector. *)
Definition symbols : list string := ["@p"; "@a"; "@r"; "@s"; "@e"].

(** The keys each file's [switch] has a case for. *)
Definition legacyKeys : list string :=
  ["type"; "name"; "tag"; "family"; "x"; "y"; "z"; "dx"; "dy"; "dz"; "r"; "rm"; "c";
   "m"; "l"; "lm"; "scores"; "hasitem"].

Definition revisedKeys : list string :=
  legacyKeys ++ ["rx"; "rxm"; "ry"; "rym"].

(** A score filter with a bound. *)
Definition bounded (f : ScoreFilter.t) : bool :=
  Filters.defined (ScoreFilter.minScore f) || Filters.defined (ScoreFilter.maxScore f).


(** What the constructor sets before it reads the selector string stays as
    it is. *)
Definition sameContext (s s' : Selector.t) : Prop :=
  Selector.selectorString s' = Selector.selectorString s
  /\ Selector.executionDimension s' = Selector.executionDimension s
  /\ Selector.executionLocation s' = Selector.executionLocation s
  /\ Selector.executor s' = Selector.executor s.


End ParseSpec.

(** ** Words for the evaluators *)

Module EvalSpec.
Import Filters.

Section WithHost.
Context `{Host}.

(** The query EntitySelectorParser.ts hands to the host, by symbol. *)
Definition legacyQuery (s : Selector.t) : EntityQueryOptions :=
  let baseQuery := Query.set_scoreOptions None (Selector.queryOptions s) in
  let symbol := Selector.targetSelectorSymbol s in
  if String.eqb symbol "@p" then
    LegacyEval.nearestPlayerQuery (Selector.executionLocation s)
      (Query.closest (Selector.queryOptions s)) baseQuery
  else if String.eqb symbol "@a" then Query.set_type (Some "minecraft:player") baseQuery
  else if String.eqb symbol "@r" then LegacyEval.randomQuery baseQuery
  else baseQuery.

(** Where the entities of a result come from: the executor for [@s], the
    host's answer to [query] for the other symbols. *)
Definition source (query : Selector.t -> EntityQueryOptions) (s : Selector.t)
  : list Entity.t :=
  if String.eqb (Selector.targetSelectorSymbol s) "@s"
  then option_list (Selector.executor s)
  else dimensionGetEntities (Selector.executionDimension s) (query s).

(** The entities EntitySelectorParser.ts draws from for [@r]. *)
Definition legacyPool (s : Selector.t) : list Entity.t :=
  LegacyEval.filterByScores (Query.scoreOptions (Selector.queryOptions s))
    (dimensionGetEntities (Selector.executionDimension s) (legacyQuery s)).

(** Every item stack of the entity holds at least one item. *)
Definition stocked (entity : Entity.t) : Prop :=
  forall slot stack,
    slot ∈ slotsToSearch entity -> Slot.itemStack slot = Some stack ->
    JsNumber.le (Fin 1) (ItemStack.amount stack) = true.

End WithHost.


End EvalSpec.

(** ** An entity with an inventory *)

Module Holder.

Definition torches (amount : Q) : ItemStack.t :=
  {| ItemStack.typeId := "minecraft:torch";
     ItemStack.tags := [];
     ItemStack.amount := Fin amount;
     ItemStack.durabilityDamage := None |}.

(** A pig that carries three torches in its first slot and nothing in its
    second. *)
Definition pig : Entity.t :=
  {| Entity.id := 7;
     Entity.typeId := "minecraft:pig";
     Entity.nameTag := "";
     Entity.location := {| Vector3.x := Fin 3; Vector3.y := Fin 4; Vector3.z := Fin 0 |};
     Entity.rotationX := Fin 0;
     Entity.rotationY := Fin 0;
     Entity.tags := [];
     Entity.typeFamilies := Some ["pig"; "mob"];
     Entity.player := None;
     Entity.scoreboardIdentity := None;
     Entity.container := Some [Some (torches 3); None];
     Entity.equippable := None |}.

(** [hasitem={item=minecraft:torch,quantity=Q}] as the parser stores it. *)
Definition torchFilter (quantity : Range.t) : HasItemFilter.t :=
  {| HasItemFilter.item := Some "minecraft:torch";
     HasItemFilter.quantity := Some quantity;
     HasItemFilter.data := None;
     HasItemFilter.location := None;
     HasItemFilter.slot := None |}.

End Holder.

(** ** RawMessageParser.ts: the class [RawMessageParser] (45-310)

    The caller of [EntitySelector].  A raw message is what [JSON.parse]
    gives or what a caller passes: a value of [json].  The declared types
    ([RawMessage], [RawText]) are not checked at run time, so the
    functions are embedded on every value, with the property reads,
    truthiness tests and string conversions that JavaScript makes.

    [parseSingleMessage] calls itself on the members of [rawtext] and of
    [with]; here it goes down by [fuel], and [parse] starts it with more
    fuel than the value is deep. *)

Module RawMessageParser.
Import Interpreter Filters.

(** [executionSource?: Entity | Block | Dimension | Vector3] *)
Inductive ExecutionSource :=
  | SourceDimension (dimension : string)
  | SourceBlock (dimension : string) (location : Vector3.t)
  | SourceEntity (entity : Entity.t)
  | SourceVector (location : Vector3.t).

(** [interface ExecutionContext] (39-43). *)
Module Context.
Record t := {
  dimension : string;
  location : option Vector3.t;
  executor : option Entity.t;
}.
End Context.

(** What the class needs of the game besides [Host]. *)
Class World := {
  (** [entity.dimension], as the dimension's id. *)
  entityDimension : Entity.t -> string;
  (** [player.name], for an entity that is a [Player]. *)
  playerName : Entity.t -> string;
  (** [world.scoreboard.getParticipants()]: the display name and the
      identity of each participant. *)
  scoreboardParticipants : list (string * nat);
  (** [world.scoreboard.getObjective(v)] where [v] is not a string. *)
  getObjectiveUntyped : option json -> Lookup string;
  (** [entity.id], the text the game gives an entity. *)
  entityIdText : Entity.t -> string;
  (** [objective.getScores()]: the display name of each participant that
      has a score, and the score; [None] is an exception. *)
  objectiveGetScores : string -> option (list (string * number));
}.

(** The lines written with [console.warn]. *)
Inductive Notice :=
  | FromSelector (w : Warning)                      (* by [EntitySelector] *)
  | ObjectiveNotFound (objective : string)          (* 219 *)
  | ScoreFailed (name objective : option json)      (* 272 *)
  | SelectorFailed (selectorStr : json)             (* 303 *)
  | ExecutorScoreFailed                             (* part_001 222 *)
  | SelectorScoreFailed (selectorString : string)   (* part_001 244 *)
  | NameScoreFailed (name : string).                (* part_001 271 *)

(** How many values [Math.random()] has given so far, and the lines
    written so far. *)
Record State := { drawn : nat; log : list Notice }.

Definition start : State := {| drawn := 0; log := [] |}.

(** The end of a computation: a value, an exception that nothing caught,
    or no fuel left. *)
Inductive Run (A : Type) :=
  | Done (a : A) (st : State)
  | Thrown (st : State)
  | OutOfFuel.
Arguments Done {A} a st.
Arguments Thrown {A} st.
Arguments OutOfFuel {A}.

Definition M (A : Type) : Type := State -> Run A.

Definition ret {A} (a : A) : M A := fun st => Done a st.

Definition bind {A B} (m : M A) (k : A -> M B) : M B :=
  fun st => match m st with
            | Done a st' => k a st'
            | Thrown st' => Thrown st'
            | OutOfFuel => OutOfFuel
            end.

Definition throw {A} : M A := fun st => Thrown st.

Definition outOfFuel {A} : M A := fun _ => OutOfFuel.

(** [try { m } catch (e) { handler }] *)
Definition tryCatch {A} (m handler : M A) : M A :=
  fun st => match m st with
            | Thrown st' => handler st'
            | r => r
            end.

Definition warn (n : Notice) : M unit :=
  fun st => Done tt {| drawn := drawn st; log := log st ++ [n] |}.

(** [items.map(f)], left to right. *)
Fixpoint forEach {A B} (f : A -> M B) (items : list A) : M (list B) :=
  match items with
  | [] => ret []
  | item :: rest => bind (f item) (fun b => bind (forEach f rest) (fun bs => ret (b :: bs)))
  end.

(** Truthiness of a value, and of a property that may be [undefined]. *)
Definition truthy (v : json) : bool :=
  match v with
  | JNull => false
  | JBool b => b
  | JNum n => JsNumber.truthy n
  | JStr s => negb (isEmpty s)
  | JArr _ | JObj _ => true
  end.

Definition truthyProperty (o : option json) : bool :=
  match o with
  | Some v => truthy v
  | None => false
  end.

(** How deep a value is. *)
Fixpoint depth (v : json) : nat :=
  match v with
  | JArr items => S (fold_right (fun i d => Nat.max (depth i) d) O items)
  | JObj members => S (fold_right (fun kv d => Nat.max (depth kv.2) d) O members)
  | _ => O
  end.

Section WithWorld.
Context `{Runtime} `{Host} `{World}.

(** [String(v)] where [v] may be [undefined]. *)
Definition toText (o : option json) : string :=
  match o with
  | Some v => jsToString v
  | None => "undefined"
  end.

(** [createExecutionContext] (119-146). *)
Definition createExecutionContext (executionSource : option ExecutionSource) : Context.t :=
  match executionSource with
  | None =>
      {| Context.dimension := "overworld"; Context.location := None;
         Context.executor := None |}
  | Some (SourceDimension dimension) =>
      {| Context.dimension := dimension; Context.location := None;
         Context.executor := None |}
  | Some (SourceBlock dimension location) =>
      {| Context.dimension := dimension; Context.location := Some location;
         Context.executor := None |}
  | Some (SourceEntity entity) =>
      {| Context.dimension := entityDimension entity;
         Context.location := Some (Entity.location entity);
         Context.executor := Some entity |}
  | Some (SourceVector location) =>
      {| Context.dimension := "overworld"; Context.location := Some location;
         Context.executor := None |}
  end.

(** The calls of [Math.random()] that [getEntities] of
    EntitySelectorParser.ts makes: one for each entity it draws. *)
Definition drawsOf (random : RandomSource) (s : Selector.t) : nat :=
  if String.eqb (Selector.targetSelectorSymbol s) "@r" then
    let pool := EvalSpec.legacyPool s in
    if (0 <? List.length pool)%nat then
      List.length
        (LegacyEval.sampleLoop (List.length pool) random 0
           (RevisedEval.orOne (Query.closest (Selector.queryOptions s))) pool [])
    else O
  else O.

Section WithRandom.
Context (random : RandomSource).

(** [new EntitySelector(selectorString, context.dimension, context.location,
    context.executor).getEntities()] *)
Definition evaluate (selectorString : string) (context : Context.t) : M (list Entity.t) :=
  fun st =>
    let new :=
      Legacy.EntitySelector selectorString (Context.dimension context)
        (Context.location context) (Context.executor context) in
    let next : RandomSource := fun k => random (drawn st + k)%nat in
    let found := LegacyEval.getEntities next new.1 in
    Done found.1
      {| drawn := (drawn st + drawsOf next new.1)%nat;
         log := log st ++ (FromSelector <$> new.2 ++ found.2) |}.

(** [score !== undefined ? String(score) : "0"] inside its [try]. *)
Definition scoreText (score : Lookup number) : string :=
  match score with
  | Found n => numberToString n
  | Undefined | Throws => "0"
  end.

(** [world.scoreboard.getObjective(scoreInfo.objective)] *)
Definition getObjective (objective : option json) : Lookup string :=
  match objective with
  | Some (JStr name) => scoreboardGetObjective name
  | _ => getObjectiveUntyped objective
  end.

(** [handleScore] (212-274). *)
Definition handleScore (scoreInfo : json) (context : Context.t) : M string :=
  match property scoreInfo "name", property scoreInfo "objective" with
  | Some scoreHolderName, Some objectiveName =>
      match getObjective objectiveName with
      | Throws => bind (warn (ScoreFailed scoreHolderName objectiveName)) (fun _ => ret "0")
      | Undefined =>
          bind (warn (ObjectiveNotFound (toText objectiveName))) (fun _ => ret "0")
      | Found objective =>
          match scoreHolderName with
          | Some (JStr name) =>
              if String.eqb name "*" then
                match Context.executor context with
                | Some executor =>
                    match Entity.scoreboardIdentity executor with
                    | Some who => ret (scoreText (objectiveGetScore objective who))
                    | None => ret "0"
                    end
                | None => ret "0"
                end
              else if startsWith "@" name then
                bind (evaluate name context) (fun entities =>
                  match entities with
                  | first :: _ =>
                      match Entity.scoreboardIdentity first with
                      | Some who =>
                          ret (scoreText (objectiveGetScore objective who))
                      | None => ret "0"
                      end
                  | [] => ret "0"
                  end)
              else
                match List.find (fun p : string * nat => String.eqb p.1 name)
                        scoreboardParticipants with
                | Some targetParticipant =>
                    ret (scoreText (objectiveGetScore objective targetParticipant.2))
                | None => ret "0"
                end
          | _ =>
              (* [scoreHolderName.startsWith] is not a function *)
              bind (warn (ScoreFailed scoreHolderName objectiveName)) (fun _ => ret "0")
          end
      end
  | _, _ => throw
  end.

(** The name [handleSelector] shows for an entity (290-298). *)
Definition shownName (e : Entity.t) : string :=
  match Entity.player e with
  | Some _ => playerName e
  | None => if negb (isEmpty (Entity.nameTag e)) then Entity.nameTag e else Entity.typeId e
  end.

(** [handleSelector] (281-309). *)
Definition handleSelector (selectorStr : json) (context : Context.t) : M string :=
  match selectorStr with
  | JStr selectorString =>
      bind (evaluate selectorString context) (fun selectedEntities =>
        if (0 <? List.length selectedEntities)%nat
        then ret (join ", " (shownName <$> selectedEntities))
        else ret "")
  | _ =>
      (* [this.selectorString.match] is not a function *)
      bind (warn (SelectorFailed selectorStr)) (fun _ => ret "")
  end.

(** [handleTranslate] (180-207), around the function it calls on the
    members of [with]. *)
Definition handleTranslate (parseSingleMessage : json -> M string)
    (translate withProperty : option json) : M string :=
  let translatedText := if truthyProperty translate then toText translate else "" in
  if truthyProperty withProperty then
    bind
      (match withProperty with
       | Some (JArr items) =>
           forEach (fun val => match val with
                               | JStr text => ret text
                               | _ => parseSingleMessage val
                               end) items
       | Some (JObj members) =>
           bind (parseSingleMessage (JObj members)) (fun text => ret [text])
       | _ => ret []
       end)
      (fun withValues =>
         if (0 <? List.length withValues)%nat
         then ret (translatedText +:+ " [" +:+ join ", " withValues +:+ "]")
         else ret translatedText)
  else ret translatedText.

(** The body of [parseSingleMessage] (151-175), around the function it
    calls on the members of [with] and of [rawtext]. *)
Definition parseSingleMessageWith (parseSingleMessage : json -> M string)
    (context : Context.t) (message : json) : M string :=
  match property message "text" with
  | None => throw                       (* [message] is [null] *)
  | Some _ =>
      let get k := default None (property message k) in
      let score := get "score" in
      let scoreProperty k :=
        match score with
        | Some scoreInfo => default None (property scoreInfo k)
        | None => None
        end in
      bind
        (if truthyProperty (get "text") then ret (toText (get "text"))
         else if truthyProperty (get "translate")
         then handleTranslate parseSingleMessage (get "translate") (get "with")
         else if truthyProperty score && truthyProperty (scoreProperty "name")
                 && truthyProperty (scoreProperty "objective")
         then handleScore (default JNull score) context
         else if truthyProperty (get "selector")
         then handleSelector (default JNull (get "selector")) context
         else ret "")
        (fun result =>
           match get "rawtext" with
           | Some (JArr items) =>
               bind (forEach parseSingleMessage items)
                 (fun texts => ret (result +:+ join "" texts))
           | _ => ret result
           end)
  end.

(** [parseSingleMessage] with [fuel] calls within calls. *)
Fixpoint parseSingleMessage (fuel : nat) (context : Context.t) (message : json)
  : M string :=
  match fuel with
  | O => outOfFuel
  | S fuel' => parseSingleMessageWith (parseSingleMessage fuel' context) context message
  end.

(** [parseInputToObject] (86-99). *)
Definition parseInputToObject (rawInput : json) : json :=
  match rawInput with
  | JStr text =>
      match JSON_parse text with
      | Some parsed => parsed
      | None => rawInput
      end
  | _ => rawInput
  end.

(** [parse] (53-81); [rawInput] is [None] where it is [undefined]. *)
Definition parse (rawInput : option json) (executionSource : option ExecutionSource)
  : M string :=
  if negb (truthyProperty rawInput) then ret ""
  else
    let parsedObject := parseInputToObject (default JNull rawInput) in
    if negb (truthy parsedObject) then ret ""
    else
      let context := createExecutionContext executionSource in
      let fuel := S (depth parsedObject) in
      let concatenated (items : list json) :=
        bind (forEach (parseSingleMessage fuel context) items)
          (fun texts => ret (join "" texts)) in
      match parsedObject with
      | JArr items => concatenated items
      | JObj members =>
          match member "rawtext" members with
          | Some rawtext =>
              if truthy rawtext then
                match rawtext with
                | JArr items => concatenated items
                | _ => throw           (* [.map] is not a function *)
                end
              else concatenated []
          | None => parseSingleMessage fuel context parsedObject
          end
      | _ => ret (jsToString parsedObject)
      end.

End WithRandom.
End WithWorld.
End RawMessageParser.

(** ** The two classes [RawTextParser]

    [RawMessageParser.ts] holds, after [RawMessageParser], a class
    [RawTextParser] (343-557) that gives the text without its colour codes;
    [src/unnamed/part_001] is a later revision of it, cut into the same
    functions as [RawMessageParser].  Both import [EntitySelector] from
    [./EntitySelectorParser], as [RawMessageParser] does.  They are
    embedded in [Module RawTextParser] and [Module RawTextParserRevised],
    with the state, the context and the selector evaluation of
    [RawMessageParser]. *)

Module ColorCodes.

(** The section sign, U+00A7. *)
Definition sectionSign : ascii := "167".

(** The class [[0-9a-fk-or]]. *)
Definition isColorCode (c : ascii) : bool :=
  let n := nat_of_ascii c in
  ((48 <=? n) && (n <=? 57) || (97 <=? n) && (n <=? 102)
   || (107 <=? n) && (n <=? 111) || (n =? 114))%nat.

(** [s.replace(/§[0-9a-fk-or]/g, "")]: from left to right, a section
    sign and a code after it are left out, and the search goes on after the
    two. *)
Fixpoint stripColorCodes (s : string) : string :=
  match s with
  | EmptyString => EmptyString
  | String c tail =>
      match tail with
      | String d rest =>
          if Ascii.eqb c sectionSign && isColorCode d
          then stripColorCodes rest
          else String c (stripColorCodes tail)
      | EmptyString => s
      end
  end.

(** The places of [s] where a section sign has a code after it. *)
Fixpoint codes (s : string) : nat :=
  match s with
  | EmptyString => O
  | String c tail =>
      match tail with
      | String d _ =>
          ((if Ascii.eqb c sectionSign && isColorCode d then 1 else 0) + codes tail)%nat
      | EmptyString => O
      end
  end.

End ColorCodes.

Module RawTextParser.
Import Interpreter Filters RawMessageParser ColorCodes.

Section WithWorld.
Context `{Runtime} `{Host} `{World} (random : RandomSource).

(** [message.text.replace(/§[0-9a-fk-or]/g, "")] for a [message.text] that
    is truthy (447). *)
Definition plainText (text : option json) : M string :=
  match text with
  | Some (JStr s) => ret (stripColorCodes s)
  | _ => throw                          (* [replace] is not a function *)
  end.

(** The [translate] branch (448-461), around the function it calls on the
    members of [with]. *)
Definition translateText (parseSingleMessage : json -> M string)
    (translate withProperty : option json) : M string :=
  if truthyProperty withProperty then
    bind
      (match withProperty with
       | Some (JArr items) =>
           bind
             (forEach (fun val => match val with
                                  | JStr text => ret text
                                  | _ => parseSingleMessage val
                                  end) items)
             (fun values => ret (join ", " values))
       | Some other => parseSingleMessage other
       | None => ret ""
       end)
      (fun withValues =>
         ret ("[" +:+ toText translate +:+ " with (" +:+ withValues +:+ ")]"))
  else ret ("[" +:+ toText translate +:+ "]").

(** The [score] branch (462-527). *)
Definition scoreValueText (scoreInfo : json) (context : Context.t) : M string :=
  match property scoreInfo "name", property scoreInfo "objective" with
  | Some scoreHolderName, Some objectiveName =>
      let failed := bind (warn (ScoreFailed scoreHolderName objectiveName))
                      (fun _ => ret "0") in
      (* [if (targetIdentity) { ... objective.getScore(targetIdentity) ... }] *)
      let read (objective : string) (targetIdentity : nat) : M string :=
        match objectiveGetScore objective targetIdentity with
        | Found n => ret (numberToString n)
        | Undefined => ret "0"
        | Throws => failed
        end in
      match getObjective objectiveName with
      | Throws => failed
      | Undefined => ret "0"
      | Found objective =>
          match scoreHolderName with
          | Some (JStr name) =>
              if String.eqb name "*" then
                match Context.executor context with
                | Some executor =>
                    match Entity.scoreboardIdentity executor with
                    | Some who => read objective who
                    | None => ret "0"
                    end
                | None => ret "0"
                end
              else if startsWith "@" name then
                bind (evaluate random name context) (fun selectedEntities =>
                  match selectedEntities with
                  | first :: _ =>
                      match Entity.scoreboardIdentity first with
                      | Some who => read objective who
                      | None => ret "0"
                      end
                  | [] => ret "0"
                  end)
              else
                match List.find (fun p : string * nat => String.eqb p.1 name)
                        scoreboardParticipants with
                | Some foundParticipant => read objective foundParticipant.2
                | None => ret "0"
                end
          | _ =>
              (* [scoreHolderName.startsWith] is not a function *)
              failed
          end
      end
  | _, _ => throw
  end.

(** The [selector] branch (528-545): the ids of the entities. *)
Definition selectorText (selectorStr : json) (context : Context.t) : M string :=
  match selectorStr with
  | JStr selectorString =>
      bind (evaluate random selectorString context) (fun selectedEntities =>
        if (0 <? List.length selectedEntities)%nat
        then ret (join ", " (entityIdText <$> selectedEntities))
        else ret "")
  | _ =>
      (* [this.selectorString.match] is not a function *)
      bind (warn (SelectorFailed selectorStr)) (fun _ => ret "")
  end.

(** The body of [parseSingleMessage] (438-556), around the function it
    calls on the members of [with] and of [rawtext].  Its [dimension],
    [location] and [executor] are the three fields of [context]; the
    dimension is always there (403-405). *)
Definition parseSingleMessageWith (parseSingleMessage : json -> M string)
    (context : Context.t) (message : json) : M string :=
  match property message "text" with
  | None => throw                       (* [message] is [null] *)
  | Some _ =>
      let get k := default None (property message k) in
      let score := get "score" in
      let scoreProperty k :=
        match score with
        | Some scoreInfo => default None (property scoreInfo k)
        | None => None
        end in
      bind
        (if truthyProperty (get "text") then plainText (get "text")
         else if truthyProperty (get "translate")
         then translateText parseSingleMessage (get "translate") (get "with")
         else if truthyProperty score && truthyProperty (scoreProperty "name")
                 && truthyProperty (scoreProperty "objective")
         then scoreValueText (default JNull score) context
         else if truthyProperty (get "selector")
         then selectorText (default JNull (get "selector")) context
         else ret "")
        (fun result =>
           match get "rawtext" with
           | Some (JArr items) =>
               bind (forEach parseSingleMessage items)
                 (fun texts => ret (result +:+ join "" texts))
           | _ => ret result
           end)
  end.

(** [parseSingleMessage] with [fuel] calls within calls. *)
Fixpoint parseSingleMessage (fuel : nat) (context : Context.t) (message : json)
  : M string :=
  match fuel with
  | O => outOfFuel
  | S fuel' => parseSingleMessageWith (parseSingleMessage fuel' context) context message
  end.

(** [parse] (352-428) from the value it works on (372-427).  The dimension,
    the location and the executor it reads from [executionSource] (376-405)
    are those of [createExecutionContext]. *)
Definition parseObject (parsedObject : json) (executionSource : option ExecutionSource)
  : M string :=
  if negb (truthy parsedObject) then ret ""
  else
    let context := createExecutionContext executionSource in
    let fuel := S (depth parsedObject) in
    let concatenated (items : list json) :=
      bind (forEach (parseSingleMessage fuel context) items)
        (fun texts => ret (join "" texts)) in
    match parsedObject with
    | JArr items => concatenated items
    | JObj members =>
        match member "rawtext" members with
        | Some (JArr items) => concatenated items
        | _ => parseSingleMessage fuel context parsedObject
        end
    | _ => ret (stripColorCodes (jsToString parsedObject))
    end.

(** [parse] (352-428); [rawInput] is [None] where it is [undefined]. *)
Definition parse (rawInput : option json) (executionSource : option ExecutionSource)
  : M string :=
  if negb (truthyProperty rawInput) then ret ""
  else
    match rawInput with
    | Some (JStr text) =>
        match JSON_parse text with
        | Some parsed => parseObject parsed executionSource
        | None => ret (stripColorCodes text)
        end
    | Some other => parseObject other executionSource
    | None => ret ""
    end.

End WithWorld.
End RawTextParser.

Module RawTextParserRevised.
Import Interpreter Filters RawMessageParser ColorCodes.

Section WithWorld.
Context `{Runtime} `{Host} `{World} (random : RandomSource).

(** [handleTranslate] (part_001 164-176), around the function it calls on
    the members of [with]. *)
Definition handleTranslate (parseSingleMessage : json -> M string)
    (translate withProperty : option json) : M string :=
  if truthyProperty withProperty then
    bind
      (match withProperty with
       | Some (JArr items) =>
           bind
             (forEach (fun val => match val with
                                  | JStr text => ret text
                                  | _ => parseSingleMessage val
                                  end) items)
             (fun values => ret (join ", " values))
       | Some other => parseSingleMessage other
       | None => ret ""
       end)
      (fun withValues =>
         ret ("[" +:+ toText translate +:+ " with (" +:+ withValues +:+ ")]"))
  else ret ("[" +:+ toText translate +:+ "]").

(** [getScoreForExecutor] (part_001 213-225). *)
Definition getScoreForExecutor (objective : string) (context : Context.t) : M string :=
  match Context.executor context with
  | Some executor =>
      match Entity.scoreboardIdentity executor with
      | Some who =>
          match objectiveGetScore objective who with
          | Found n => ret (numberToString n)
          | Undefined => ret "0"
          | Throws => bind (warn ExecutorScoreFailed) (fun _ => ret "0")
          end
      | None => ret "0"
      end
  | None => ret "0"
  end.

(** [getScoreForSelector] (part_001 230-248). *)
Definition getScoreForSelector (selectorString objective : string) (context : Context.t)
  : M string :=
  bind (evaluate random selectorString context) (fun selectedEntities =>
    match selectedEntities with
    | first :: _ =>
        match Entity.scoreboardIdentity first with
        | Some who =>
            match objectiveGetScore objective who with
            | Found n => ret (numberToString n)
            | Undefined => ret "0"
            | Throws => bind (warn (SelectorScoreFailed selectorString)) (fun _ => ret "0")
            end
        | None => ret "0"
        end
    | [] => ret "0"
    end).

(** [getScoreForName] (part_001 253-276). *)
Definition getScoreForName (name objective : string) : M string :=
  match objectiveGetScores objective with
  | None => throw
  | Some allScoresOnObjective =>
      match List.find (fun s : string * number => String.eqb s.1 name)
              allScoresOnObjective with
      | Some foundScoreInfo => ret (numberToString foundScoreInfo.2)
      | None =>
          match List.find (fun p : string * nat => String.eqb p.1 name)
                  scoreboardParticipants with
          | Some foundParticipant =>
              match objectiveGetScore objective foundParticipant.2 with
              | Found n => ret (numberToString n)
              | Undefined => ret "0"
              | Throws => bind (warn (NameScoreFailed name)) (fun _ => ret "0")
              end
          | None => ret "0"
          end
      end
  end.

(** [handleScore] (part_001 181-208). *)
Definition handleScore (scoreInfo : json) (context : Context.t) : M string :=
  match property scoreInfo "name", property scoreInfo "objective" with
  | Some scoreHolderName, Some objectiveName =>
      let failed := bind (warn (ScoreFailed scoreHolderName objectiveName))
                      (fun _ => ret "0") in
      match getObjective objectiveName with
      | Throws => failed
      | Undefined =>
          bind (warn (ObjectiveNotFound (toText objectiveName))) (fun _ => ret "0")
      | Found objective =>
          match scoreHolderName with
          | Some (JStr name) =>
              tryCatch
                (if String.eqb name "*" then getScoreForExecutor objective context
                 else if startsWith "@" name then getScoreForSelector name objective context
                 else getScoreForName name objective)
                failed
          | _ =>
              (* [scoreHolderName.startsWith] is not a function *)
              failed
          end
      end
  | _, _ => throw
  end.

(** [handleSelector] (part_001 281-302). *)
Definition handleSelector (selectorStr : json) (context : Context.t) : M string :=
  match selectorStr with
  | JStr selectorString =>
      bind (evaluate random selectorString context) (fun selectedEntities =>
        if (0 <? List.length selectedEntities)%nat
        then ret (join ", " (shownName <$> selectedEntities))
        else ret "")
  | _ =>
      (* [this.selectorString.match] is not a function *)
      bind (warn (SelectorFailed selectorStr)) (fun _ => ret "")
  end.

(** The body of [parseSingleMessage] (part_001 141-159), around the
    function it calls on the members of [with] and of [rawtext];
    [context.dimension] is always there. *)
Definition parseSingleMessageWith (parseSingleMessage : json -> M string)
    (context : Context.t) (message : json) : M string :=
  match property message "text" with
  | None => throw                       (* [message] is [null] *)
  | Some _ =>
      let get k := default None (property message k) in
      let score := get "score" in
      let scoreProperty k :=
        match score with
        | Some scoreInfo => default None (property scoreInfo k)
        | None => None
        end in
      bind
        (if truthyProperty (get "text") then RawTextParser.plainText (get "text")
         else if truthyProperty (get "translate")
         then handleTranslate parseSingleMessage (get "translate") (get "with")
         else if truthyProperty score && truthyProperty (scoreProperty "name")
                 && truthyProperty (scoreProperty "objective")
         then handleScore (default JNull score) context
         else if truthyProperty (get "selector")
         then handleSelector (default JNull (get "selector")) context
         else ret "")
        (fun result =>
           match get "rawtext" with
           | Some (JArr items) =>
               bind (forEach parseSingleMessage items)
                 (fun texts => ret (result +:+ join "" texts))
           | _ => ret result
           end)
  end.

(** [parseSingleMessage] with [fuel] calls within calls. *)
Fixpoint parseSingleMessage (fuel : nat) (context : Context.t) (message : json)
  : M string :=
  match fuel with
  | O => outOfFuel
  | S fuel' => parseSingleMessageWith (parseSingleMessage fuel' context) context message
  end.

(** [parseInputToObject] (part_001 80-91). *)
Definition parseInputToObject (rawInput : json) : json :=
  match rawInput with
  | JStr text =>
      match JSON_parse text with
      | Some parsed => parsed
      | None => JStr (stripColorCodes text)
      end
  | _ => rawInput
  end.

(** [parse] (part_001 48-75); [rawInput] is [None] where it is
    [undefined]. *)
Definition parse (rawInput : option json) (executionSource : option ExecutionSource)
  : M string :=
  if negb (truthyProperty rawInput) then ret ""
  else
    let parsedObject := parseInputToObject (default JNull rawInput) in
    if negb (truthy parsedObject) then ret ""
    else
      let context := createExecutionContext executionSource in
      let fuel := S (depth parsedObject) in
      let concatenated (items : list json) :=
        bind (forEach (parseSingleMessage fuel context) items)
          (fun texts => ret (join "" texts)) in
      match parsedObject with
      | JArr items => concatenated items
      | JObj members =>
          match member "rawtext" members with
          | Some rawtext =>
              if truthy rawtext then
                match rawtext with
                | JArr items => concatenated items
                | _ => throw           (* [.map] is not a function *)
                end
              else concatenated []
          | None => parseSingleMessage fuel context parsedObject
          end
      | _ => ret (stripColorCodes (jsToString parsedObject))
      end.

End WithWorld.
End RawTextParserRevised.

(** ** What is said of the message parser *)

Module MessageSpec.
Import Interpreter Filters RawMessageParser.


(** No [score] and no [selector] key in the value, at any depth. *)
Fixpoint quiet (v : json) : bool :=
  match v with
  | JArr items => forallb quiet items
  | JObj members =>
      forallb (fun kv => negb (String.eqb "score" kv.1) && negb (String.eqb "selector" kv.1)
                         && quiet kv.2) members
  | _ => true
  end.


(** The message [{ text: s }]. *)
Definition textMessage (s : string) : json := JObj [("text", JStr s)].

(** The state a computation ends in. *)
Definition final {A} (r : Run A) : option State :=
  match r with
  | Done _ st | Thrown st => Some st
  | OutOfFuel => None
  end.

(** The value a computation returns. *)
Definition value {A} (r : Run A) : option A :=
  match r with
  | Done a _ => Some a
  | _ => None
  end.

(** The end [r] with the state [st] in place of its own. *)
Definition ending {A} (st : State) (r : Run A) : Run A :=
  match r with
  | Done a _ => Done a st
  | Thrown _ => Thrown st
  | OutOfFuel => OutOfFuel
  end.

(** Two computations that end the same way from any two states, and
    leave the state as it was. *)
Definition same {A} (m m' : M A) : Prop :=
  forall st st', m st = ending st (m' st').

(** A scoreboard with the one participant [far], and players named by
    their number. *)
#[export] Instance world : World :=
  {| entityDimension _ := "overworld";
     playerName e := if Nat.eqb (Entity.id e) 1 then "Alex" else "Steve";
     scoreboardParticipants := [("Steve", 2%nat)];
     getObjectiveUntyped _ := Undefined;
     entityIdText e := if Nat.eqb (Entity.id e) 1 then "-1" else "-2";
     objectiveGetScores _ := Some [] |}.

End MessageSpec.

(** * Theorems *)

(** ** Strings *)

Lemma chars_snoc s c : chars (s +:+ String c EmptyString) = chars s ++ [c].
Proof. induction s as [|a s IH]; simpl; [done | by rewrite IH]. Qed.


Lemma ofChars_chars s : ofChars (chars s) = s.
Proof. apply string_of_list_ascii_of_string. Qed.

Lemma chars_ofChars l : chars (ofChars l) = l.
Proof. apply list_ascii_of_string_of_list_ascii. Qed.


Lemma append_empty_r (u : string) : u +:+ "" = u.
Proof.
  induction u as [|a u IH]; [done|].
  change (String a (u +:+ "") = String a u). by rewrite IH.
Qed.

Lemma append_assoc (a b c : string) : (a +:+ b) +:+ c = a +:+ b +:+ c.
Proof.
  induction a as [|x a IH]; [done|].
  change (String x ((a +:+ b) +:+ c) = String x (a +:+ b +:+ c)). by rewrite IH.
Qed.






Lemma split_nonempty sep s : split sep s <> [].
Proof.
  destruct s as [|c s]; simpl; [done|].
  destruct (Ascii.eqb c sep); [done|]. by destruct (split sep s).
Qed.

Lemma split_without sep s : sep ∉ chars s -> split sep s = [s].
Proof.
  induction s as [|c s IH]; simpl; [done|]. intros Hs.
  apply not_elem_of_cons in Hs as [Hc Hs].
  destruct (Ascii.eqb_spec c sep) as [->|_]; [done|]. by rewrite IH.
Qed.

Lemma split_first sep key rest :
  sep ∉ chars key ->
  split sep (key +:+ String sep rest) = key :: split sep rest.
Proof.
  induction key as [|c key IH]; intros Hk.
  - simpl. by rewrite Ascii.eqb_refl.
  - apply not_elem_of_cons in Hk as [Hc Hk].
    change (String c key +:+ String sep rest) with (String c (key +:+ String sep rest)).
    simpl. destruct (Ascii.eqb_spec c sep) as [->|_]; [done|]. by rewrite IH.
Qed.

Lemma join_split sep s : join (String sep EmptyString) (split sep s) = s.
Proof.
  induction s as [|c s IH]; [done|]. simpl.
  destruct (Ascii.eqb_spec c sep) as [->|_].
  - pose proof (split_nonempty sep s). destruct (split sep s) as [|p ps] eqn:E; [done|].
    change (join (String sep "") ("" :: p :: ps))
      with (String sep (join (String sep "") (p :: ps))).
    by rewrite IH.
  - pose proof (split_nonempty sep s). destruct (split sep s) as [|p ps] eqn:E; [done|].
    destruct ps as [|p' ps].
    + simpl in *. by rewrite IH.
    + change (join (String sep "") (String c p :: p' :: ps))
        with (String c (join (String sep "") (p :: p' :: ps))).
      by rewrite IH.
Qed.

(** ** The tokenizer *)

Section Tokenizer.
Import TokenizerSpec.

















Example tokenizer_keeps_nested_commas :
  splitArguments "type=a, scores={x=1,y=2} ,,hasitem=[{i=1},{i=2}]"
  = ["type=a"; "scores={x=1,y=2}"; ""; "hasitem=[{i=1},{i=2}]"]
  /\ tokens "type=a, scores={x=1,y=2} ,,hasitem=[{i=1},{i=2}]"
     = ["type=a"; "scores={x=1,y=2}"; "hasitem=[{i=1},{i=2}]"].
Proof. split; reflexivity. Qed.

End Tokenizer.

(** ** The range grammar *)

Section RangeGrammar.
Import RangeSpec.

Lemma spanDigits_run ds rest :
  allOf isDigit ds = true -> stopsAt isDigit rest = true ->
  JsNumber.spanDigits (ds +:+ rest) = (chars ds, rest).
Proof.
  intros Hd Hr. induction ds as [|c ds IH]; simpl in *.
  - destruct rest as [|c r]; [done|]. simpl in *.
    apply negb_true_iff in Hr. by rewrite Hr.
  - unfold allOf in Hd. simpl in Hd. apply andb_prop in Hd as [Hc Hd].
    rewrite Hc, IH by done. done.
Qed.


Lemma isDigits_cons ds : isDigits ds = true -> exists c r, ds = String c r /\ isDigit c = true.
Proof.
  unfold isDigits, allOf. destruct ds as [|c r]; simpl; [done|].
  intros [Hc _]%andb_prop. eauto.
Qed.





Lemma spanDigits_split s :
  let '(ds, rest) := JsNumber.spanDigits s in
  s = ofChars ds +:+ rest /\ forallb isDigit ds = true /\ stopsAt isDigit rest = true.
Proof.
  induction s as [|c s IH]; [done|]. simpl.
  destruct (isDigit c) eqn:D.
  - destruct (JsNumber.spanDigits s) as [ds rest]. destruct IH as (E & Hd & Hr).
    split_and!; [by rewrite E at 1 | by simpl; rewrite D | done].
  - simpl. by rewrite D.
Qed.



Lemma readInteger_digit c x :
  isDigit c = true ->
  readInteger (String c x)
  = match JsNumber.spanDigits (String c x) with
    | ([], _) => None
    | (ds, rest) => Some ("" +:+ ofChars ds, rest)
    end.
Proof. intros H. by_character c. Qed.

Lemma readInteger_run (negative : bool) ds rest :
  isDigits ds = true -> stopsAt isDigit rest = true ->
  readInteger ((if negative then "-" else "") +:+ ds +:+ rest)
  = Some ((if negative then "-" else "") +:+ ds, rest).
Proof.
  intros Hd Hr.
  destruct (isDigits_cons ds Hd) as (c & r & -> & Hc).
  apply andb_prop in Hd as [_ Hd].
  destruct negative.
  - unfold readInteger.
    change ("-" +:+ String c r +:+ rest) with (String "-" (String c r +:+ rest)).
    cbv iota beta. rewrite spanDigits_run by done.
    change (chars (String c r)) with (c :: chars r). cbv iota beta.
    change (c :: chars r) with (chars (String c r)). by rewrite ofChars_chars.
  - change ("" +:+ String c r +:+ rest) with (String c (r +:+ rest)).
    rewrite readInteger_digit by done.
    change (String c (r +:+ rest)) with (String c r +:+ rest).
    rewrite spanDigits_run by done.
    change (chars (String c r)) with (c :: chars r). cbv iota beta.
    change (c :: chars r) with (chars (String c r)). by rewrite ofChars_chars.
Qed.

Lemma isBareInteger_split t :
  isBareInteger t = true ->
  exists (negative : bool) ds, t = (if negative then "-" else "") +:+ ds /\ isDigits ds = true.
Proof.
  destruct t as [|c t]; [done|].
  destruct (Ascii.eqb_spec c "-") as [->|N].
  - simpl. intros H. by exists true, t.
  - intros H. exists false, (String c t). split; [done|]. by_character c.
Qed.

Lemma readInteger_sound s t rest :
  readInteger s = Some (t, rest) ->
  s = t +:+ rest /\ isBareInteger t = true /\ stopsAt isDigit rest = true.
Proof.
  unfold readInteger.
  set (p := match s with String "-" r => (true, r) | _ => (false, s) end).
  assert (s = (if p.1 then "-" else "") +:+ p.2) as Es.
  { subst p. destruct s as [|c s]; [done|].
    destruct (Ascii.eqb_spec c "-") as [->|N]; [done|].
    assert (match String c s with String "-" r => (true, r) | _ => (false, String c s) end
            = (false, String c s)) as ->.
    { by_character c. }
    done. }
  destruct p as [negative r]. simpl in *.
  pose proof (spanDigits_split r) as Hd.
  destruct (JsNumber.spanDigits r) as [ds rest']. destruct Hd as (E & Hd & Hr).
  destruct ds as [|d ds]; [done|]. intros [= <- <-].
  split_and!; [| | done].
  - rewrite Es, E. destruct negative; done.
  - assert (isDigits (ofChars (d :: ds)) = true) as Hdd.
    { unfold isDigits, allOf. rewrite chars_ofChars. done. }
    destruct negative; [done|].
    change ("" +:+ ofChars (d :: ds)) with (String d (ofChars ds)) in *.
    simpl in Hd. apply andb_prop in Hd as [Hd0 _].
    unfold isBareInteger. by_character d.
Qed.

Lemma dots_inv {A} (F : string -> option A) r X :
  match r with
  | String "." (String "." r2) => F r2
  | _ => None
  end = Some X ->
  exists r2, r = String "." (String "." r2) /\ F r2 = Some X.
Proof.
  destruct r as [|c1 [|c2 r2]].
  - done.
  - by_character c1.
  - by_character c1. by_character c2. eauto.
Qed.

Lemma secondGroup r2 (g1 g1' g2 : option string) :
  (let '(g, r3) := readOptionalInteger r2 in
   if isEmpty r3 then Some (g1, g) else None) = Some (g1', g2) ->
  groupOk g2 /\ g2 <> Some EmptyString /\ r2 = groupText g2.
Proof.
  unfold readOptionalInteger.
  destruct (readInteger r2) as [[t2 r3]|] eqn:E2.
  - apply readInteger_sound in E2 as (Er & H2 & _).
    destruct r3; [|done]. intros [= _ <-]. simpl.
    split_and!; [done| |by rewrite append_empty_r in Er].
    intros [= ->]. done.
  - destruct r2; [|done]. intros [= _ <-]. done.
Qed.

(** [rangeMatch] is the match of [/^(-?\d+)?\.\.(-?\d+)?$/]: the string
    is a first group, two dots and a second group, where a group is absent
    or a bare integer. *)
Lemma rangeMatch_spec s g1 g2 :
  rangeMatch s = Some (g1, g2) <->
  groupOk g1 /\ groupOk g2
  /\ (g1 <> Some EmptyString) /\ (g2 <> Some EmptyString)
  /\ s = groupText g1 +:+ ".." +:+ groupText g2.
Proof.
  split.
  - unfold rangeMatch, readOptionalInteger at 1.
    destruct (readInteger s) as [[t1 r1]|] eqn:E1.
    + apply readInteger_sound in E1 as (Es & H1 & _).
      intros (r2 & -> & H)%dots_inv.
      assert (g1 = Some t1) as ->.
      { destruct (readOptionalInteger r2) as [g r3]. destruct (isEmpty r3); congruence. }
      apply secondGroup in H as (H2 & N2 & ->).
      split_and!; [done|done| |done|done]. intros [= ->]. done.
    + intros (r2 & -> & H)%dots_inv.
      assert (g1 = None) as ->.
      { destruct (readOptionalInteger r2) as [g r3]. destruct (isEmpty r3); congruence. }
      apply secondGroup in H as (H2 & N2 & ->). done.
  - intros (H1 & H2 & N1 & N2 & ->). unfold rangeMatch.
    assert (readOptionalInteger (groupText g2) = (g2, EmptyString)) as R2.
    { destruct g2 as [t2|]; [|done]. simpl in *.
      destruct (isBareInteger_split t2 H2) as (neg & ds & -> & Hd).
      unfold readOptionalInteger.
      pose proof (readInteger_run neg ds EmptyString Hd eq_refl) as R.
      rewrite append_empty_r in R. rewrite R. done. }
    destruct g1 as [t1|].
    + change (groupText (Some t1)) with t1. simpl in H1.
      destruct (isBareInteger_split t1 H1) as (neg & ds & -> & Hd).
      unfold readOptionalInteger at 1.
      rewrite append_assoc, readInteger_run by done.
      change (".." +:+ groupText g2) with (String "." (String "." (groupText g2))).
      cbv iota beta. rewrite R2. done.
    + change (groupText None) with "".
      change (readOptionalInteger ("" +:+ ".." +:+ groupText g2))
        with (@None string, String "." (String "." (groupText g2))).
      cbv iota beta. rewrite R2. done.
Qed.




(** The three places that read a range: a score, and the quantity and the
    slot of an item condition. *)
Lemma range_grammar_in_context `{Runtime} :
  Interpreter.caseScores "{level=5..10,kills=..10,deaths=5..,wins=7}" Query.empty
  = Query.set_scoreOptions
      (Some [ {| ScoreFilter.objective := "level";
                 ScoreFilter.minScore := Some (Fin 5); ScoreFilter.maxScore := Some (Fin 10) |};
              {| ScoreFilter.objective := "kills";
                 ScoreFilter.minScore := None; ScoreFilter.maxScore := Some (Fin 10) |};
              {| ScoreFilter.objective := "deaths";
                 ScoreFilter.minScore := Some (Fin 5); ScoreFilter.maxScore := None |};
              {| ScoreFilter.objective := "wins";
                 ScoreFilter.minScore := Some (Fin 7); ScoreFilter.maxScore := Some (Fin 7) |} ])
      Query.empty
  /\ (forall text, Interpreter.rangeOf (JStr text) = parseRange text)
  /\ (forall text, Interpreter.rangeOfLegacy (JStr text) = parseRange text)
  /\ (forall n, Interpreter.rangeOf (JNum n) = Range.exact n)
  /\ (forall n, Interpreter.rangeOfLegacy (JNum n) = Range.exact n)
  /\ Revised.jsonPair "quantity=5..10" = Revised.quoted "quantity" +:+ ":" +:+ Revised.quoted "5..10"
  /\ Revised.jsonPair "slot=7" = Revised.quoted "slot" +:+ ":7".
Proof. split_and!; reflexivity. Qed.

End RangeGrammar.

(** ** The argument interpreter *)

Section InterpreterLemmas.
Import Interpreter ArgumentSpec.

Lemma interpretWith_argument dispatch arg s k v :
  argumentOf arg = Some (k, v) -> interpretWith dispatch arg s = dispatch k v s.
Proof.
  unfold argumentOf, interpretWith, valueOf.
  destruct (isEmpty arg); [done|]. destruct (isEmpty (keyOf arg)); [done|].
  simpl. by intros [= <- <-].
Qed.

Lemma interpretWith_skipped dispatch arg s :
  argumentOf arg = None -> (interpretWith dispatch arg s).1 = s.
Proof.
  unfold argumentOf, interpretWith, valueOf.
  destruct (isEmpty arg); [done|]. destruct (isEmpty (keyOf arg)); done.
Qed.

Lemma interpretAllWith_app dispatch a b s :
  interpretAllWith dispatch (a ++ b) s =
  let '(s1, w1) := interpretAllWith dispatch a s in
  let '(s2, w2) := interpretAllWith dispatch b s1 in
  (s2, w1 ++ w2).
Proof.
  revert s. induction a as [|x a IH]; intros s; simpl.
  - by destruct (interpretAllWith dispatch b s).
  - destruct (interpretWith dispatch x s) as [s1 w1]. rewrite IH.
    destruct (interpretAllWith dispatch a s1) as [s2 w2].
    destruct (interpretAllWith dispatch b s2) as [s3 w3]. by rewrite app_assoc.
Qed.

(** The key is what stands before the first [=], the value all that
    follows it, later [=] included. *)
Lemma key_value_at_first_equals key rest :
  "="%char ∉ chars key ->
  keyOf (key +:+ String "=" rest) = key
  /\ valueOf (key +:+ String "=" rest) = Some (trim rest).
Proof.
  intros Hk. unfold keyOf, valueOf. rewrite split_first by done. simpl.
  by rewrite join_split.
Qed.

(** Without any [=] the key is the whole token and the value the empty
    string. *)
Lemma key_value_without_equals arg :
  "="%char ∉ chars arg -> keyOf arg = arg /\ valueOf arg = Some EmptyString.
Proof. intros Ha. unfold keyOf, valueOf. by rewrite split_without. Qed.

Lemma caseXYZLegacy_caseXYZ k v l q :
  isAxis k = true -> caseXYZLegacy k v l q = caseXYZ k v l q.
Proof.
  unfold isAxis. intros Hk.
  destruct (String.eqb_spec k "x") as [->|?];
    [|destruct (String.eqb_spec k "y") as [->|?];
      [|destruct (String.eqb_spec k "z") as [->|?]; [|done]]];
    unfold caseXYZLegacy, caseXYZ; destruct (Query.location q); reflexivity.
Qed.

Lemma caseXYZ_located k v l q :
  Query.location (caseXYZ k v l q) = located l (Query.location q) (k, v).
Proof.
  unfold caseXYZ, located, contextOrigin. cbv zeta.
  destruct (Query.location q) eqn:E; simpl.
  - rewrite E. done.
  - destruct l as [[]|]; done.
Qed.

Lemma updQuery_query f s :
  Selector.queryOptions (Selector.updQuery f s) = f (Selector.queryOptions s).
Proof. reflexivity. Qed.

Lemma pushed_cons before x xs :
  pushed (push before x) xs = pushed before (x :: xs).
Proof.
  unfold pushed, push. destruct xs; simpl; [done|]. by rewrite <- app_assoc.
Qed.

Lemma overwritten_cons before x xs :
  overwritten (Some x) xs = overwritten before (x :: xs).
Proof.
  unfold overwritten. destruct xs as [|y xs]; [reflexivity|].
  change (last (x :: y :: xs)) with (last (y :: xs)).
  destruct (last (y :: xs)) eqn:E; [done|]. by apply last_None in E.
Qed.

Section WithRuntime.
Context `{Runtime}.

Lemma Revised_caseHasitem_query v s :
  Selector.queryOptions (Revised.caseHasitem v s).1 = Selector.queryOptions s
  /\ Selector.executionLocation (Revised.caseHasitem v s).1 = Selector.executionLocation s.
Proof.
  unfold Revised.caseHasitem.
  destruct (Revised.decodeItems v) as [[]| |]; try done.
  by destruct (pushFilters _ _ _).
Qed.

Lemma Legacy_caseHasitem_query v s :
  Selector.queryOptions (Legacy.caseHasitem v s).1 = Selector.queryOptions s
  /\ Selector.executionLocation (Legacy.caseHasitem v s).1 = Selector.executionLocation s.
Proof.
  unfold Legacy.caseHasitem.
  repeat case_match; try done.
Qed.

Lemma Revised_dispatch_type_frame k v s :
  k <> "type" ->
  Query.type (Selector.queryOptions (Revised.dispatch k v s).1)
  = Query.type (Selector.queryOptions s)
  /\ Query.excludeTypes (Selector.queryOptions (Revised.dispatch k v s).1)
     = Query.excludeTypes (Selector.queryOptions s).
Proof.
  intros Hk. unfold Revised.dispatch. switch k; try done; try by frame.
  destruct (Revised_caseHasitem_query v s) as [-> _]. done.
Qed.

Lemma Legacy_dispatch_type_frame k v s :
  k <> "type" ->
  Query.type (Selector.queryOptions (Legacy.dispatch k v s).1)
  = Query.type (Selector.queryOptions s)
  /\ Query.excludeTypes (Selector.queryOptions (Legacy.dispatch k v s).1)
     = Query.excludeTypes (Selector.queryOptions s).
Proof.
  intros Hk. unfold Legacy.dispatch. switch k; try done; try by frame.
  destruct (Legacy_caseHasitem_query v s) as [-> _]. done.
Qed.

Lemma Revised_dispatch_axis k v s :
  isAxis k = true ->
  Revised.dispatch k v s
  = (Selector.updQuery (caseXYZ k v (Selector.executionLocation s)) s, []).
Proof.
  unfold isAxis. intros Hk. unfold Revised.dispatch. switch k; done.
Qed.

Lemma Legacy_dispatch_axis k v s :
  isAxis k = true ->
  Legacy.dispatch k v s
  = (Selector.updQuery (caseXYZ k v (Selector.executionLocation s)) s, []).
Proof.
  intros Hk. unfold isAxis in Hk. unfold Legacy.dispatch.
  switch k; try done; unfold Selector.updQuery; by rewrite caseXYZLegacy_caseXYZ.
Qed.

Lemma Revised_dispatch_location_frame k v s :
  isAxis k = false ->
  Query.location (Selector.queryOptions (Revised.dispatch k v s).1)
  = Query.location (Selector.queryOptions s).
Proof.
  unfold isAxis. intros Hk. unfold Revised.dispatch. switch k; try done; try by frame.
  destruct (Revised_caseHasitem_query v s) as [-> _]. done.
Qed.

Lemma Legacy_dispatch_location_frame k v s :
  isAxis k = false ->
  Query.location (Selector.queryOptions (Legacy.dispatch k v s).1)
  = Query.location (Selector.queryOptions s).
Proof.
  unfold isAxis. intros Hk. unfold Legacy.dispatch. switch k; try done; try by frame.
  destruct (Legacy_caseHasitem_query v s) as [-> _]. done.
Qed.

Lemma Revised_dispatch_context k v s :
  Selector.executionLocation (Revised.dispatch k v s).1 = Selector.executionLocation s.
Proof.
  unfold Revised.dispatch. switch k; try done.
  by destruct (Revised_caseHasitem_query v s) as [_ ->].
Qed.

Lemma Legacy_dispatch_context k v s :
  Selector.executionLocation (Legacy.dispatch k v s).1 = Selector.executionLocation s.
Proof.
  unfold Legacy.dispatch. switch k; try done.
  by destruct (Legacy_caseHasitem_query v s) as [_ ->].
Qed.






End WithRuntime.
End InterpreterLemmas.

(** *** What a list of tokens does to one property *)

Section Origin.
Import Interpreter ArgumentSpec.
Context (dispatch : string -> string -> Selector.t -> Selector.t * list Warning).
Hypothesis dispatch_axis : forall k v s,
  isAxis k = true ->
  dispatch k v s = (Selector.updQuery (caseXYZ k v (Selector.executionLocation s)) s, []).
Hypothesis dispatch_frame : forall k v s,
  isAxis k = false ->
  Query.location (Selector.queryOptions (dispatch k v s).1)
  = Query.location (Selector.queryOptions s).
Hypothesis dispatch_context : forall k v s,
  Selector.executionLocation (dispatch k v s).1 = Selector.executionLocation s.

Lemma origin_after args s :
  Query.location (Selector.queryOptions (interpretAllWith dispatch args s).1)
  = fold_left (located (Selector.executionLocation s)) (axisArguments args)
      (Query.location (Selector.queryOptions s)).
Proof.
  revert s. induction args as [|arg args IH]; intros s; [done|].
  simpl interpretAllWith.
  destruct (interpretWith dispatch arg s) as [s1 w1] eqn:E1.
  specialize (IH s1).
  destruct (interpretAllWith dispatch args s1) as [s2 w2]. simpl in *.
  rewrite IH. unfold axisArguments. simpl omap.
  destruct (argumentOf arg) as [[k v]|] eqn:Ea.
  - rewrite (interpretWith_argument _ _ _ _ _ Ea) in E1.
    pose proof (dispatch_context k v s) as C. rewrite E1 in C. simpl in C. rewrite C.
    destruct (isAxis k) eqn:Hk.
    + rewrite dispatch_axis in E1 by done. injection E1 as <- _.
      rewrite updQuery_query, caseXYZ_located. done.
    + pose proof (dispatch_frame k v s Hk) as F. rewrite E1 in F. simpl in F.
      by rewrite F.
  - pose proof (interpretWith_skipped dispatch arg s Ea) as F. rewrite E1 in F.
    simpl in F. by subst s1.
Qed.

End Origin.

Section Types.
Import Interpreter ArgumentSpec.
Context (dispatch : string -> string -> Selector.t -> Selector.t * list Warning).
Hypothesis dispatch_type : forall v s,
  dispatch "type" v s = (Selector.updQuery (caseType v) s, []).
Hypothesis dispatch_frame : forall k v s,
  k <> "type" ->
  Query.type (Selector.queryOptions (dispatch k v s).1)
  = Query.type (Selector.queryOptions s)
  /\ Query.excludeTypes (Selector.queryOptions (dispatch k v s).1)
     = Query.excludeTypes (Selector.queryOptions s).

Lemma types_after args s :
  let q := Selector.queryOptions s in
  let q' := Selector.queryOptions (interpretAllWith dispatch args s).1 in
  Query.excludeTypes q' = pushed (Query.excludeTypes q) (exclusions args)
  /\ Query.type q' = overwritten (Query.type q) (positives args).
Proof.
  revert s. induction args as [|arg args IH]; intros s; [done|].
  cbn zeta. simpl interpretAllWith.
  destruct (interpretWith dispatch arg s) as [s1 w1] eqn:E1.
  specialize (IH s1). cbn zeta in IH.
  destruct (interpretAllWith dispatch args s1) as [s2 w2]. simpl in *.
  destruct IH as [IH1 IH2]. rewrite IH1, IH2.
  unfold exclusions, positives, typeValues. simpl omap.
  destruct (argumentOf arg) as [[k v]|] eqn:Ea.
  - rewrite (interpretWith_argument _ _ _ _ _ Ea) in E1.
    destruct (String.eqb_spec k "type") as [->|Hk].
    + rewrite dispatch_type in E1. injection E1 as <- _.
      simpl. unfold caseType. destruct (startsWith "!" v) eqn:Hv; simpl.
      * by rewrite pushed_cons.
      * split; [done|]. apply overwritten_cons.
    + destruct (dispatch_frame k v s Hk) as [F1 F2]. rewrite E1 in F1, F2.
      simpl in F1, F2. by rewrite F1, F2.
  - pose proof (interpretWith_skipped dispatch arg s Ea) as F. rewrite E1 in F.
    simpl in F. by subst s1.
Qed.

End Types.

Section Dropped.
Import Interpreter ArgumentSpec.
Context (dispatch : string -> string -> Selector.t -> Selector.t * list Warning).



(** A token without [=] goes to the [switch] with the empty string as its
    value. *)
Lemma interpretWith_without_equals arg s :
  "="%char ∉ chars arg -> isEmpty arg = false ->
  interpretWith dispatch arg s = dispatch (trim arg) EmptyString s.
Proof.
  intros Ha He. destruct (key_value_without_equals arg Ha) as [Hk Hv].
  unfold interpretWith. rewrite He, Hv, Hk, He. done.
Qed.

(** A token with a key before its first [=] goes to the [switch] with all
    that follows this [=] as its value. *)
Lemma interpretWith_at_first_equals key rest s :
  "="%char ∉ chars key -> isEmpty key = false ->
  interpretWith dispatch (key +:+ String "=" rest) s
  = dispatch (trim key) (stripQuotes (trim rest)) s.
Proof.
  intros Hk He. destruct (key_value_at_first_equals key rest Hk) as [Ek Ev].
  unfold interpretWith. rewrite Ek, Ev, He.
  destruct key; [done|]. done.
Qed.

End Dropped.

(** *** Origin, types, rotation keys and tokens without [=] *)

Section InterpreterProperties.
Import Interpreter ArgumentSpec.
Context `{Runtime}.

(** C3.  In both files the origin of the query, after a list of
    arguments, is what the [x], [y] and [z] arguments among them make of
    it in turn: the first starts from the execution-context location, or
    from zero on each axis without one, and each writes the number parsed
    from its value on its own axis and leaves the two others.  With only
    [y=10] and a context location [(cx, cy, cz)] the origin is
    [(cx, 10, cz)]. *)
Theorem origin_from_axis_arguments :
  (forall argsString s,
     Query.location (Selector.queryOptions (Revised._parseArguments argsString s).1)
     = fold_left (located (Selector.executionLocation s))
         (axisArguments (splitArguments argsString))
         (Query.location (Selector.queryOptions s))
     /\ Query.location (Selector.queryOptions (Legacy._parseArguments argsString s).1)
        = fold_left (located (Selector.executionLocation s))
            (axisArguments (splitArguments argsString))
            (Query.location (Selector.queryOptions s)))
  /\ (forall context k v,
        located (Some context) None (k, v)
        = Some (setAxis k (JsNumber.parseFloat v) context)
        /\ located None None (k, v)
           = Some (setAxis k (JsNumber.parseFloat v)
                     {| Vector3.x := Fin 0; Vector3.y := Fin 0; Vector3.z := Fin 0 |}))
  /\ (forall context origin k v,
        located context (Some origin) (k, v)
        = Some (setAxis k (JsNumber.parseFloat v) origin))
  /\ (forall n o,
        setAxis "x" n o
        = {| Vector3.x := n; Vector3.y := Vector3.y o; Vector3.z := Vector3.z o |}
        /\ setAxis "y" n o
           = {| Vector3.x := Vector3.x o; Vector3.y := n; Vector3.z := Vector3.z o |}
        /\ setAxis "z" n o
           = {| Vector3.x := Vector3.x o; Vector3.y := Vector3.y o; Vector3.z := n |})
  /\ (forall dimension context executor,
        Query.location
          (Selector.queryOptions
             (Revised.EntitySelector "@e[y=10]" dimension (Some context) executor).1)
        = Some {| Vector3.x := Vector3.x context; Vector3.y := Fin 10;
                  Vector3.z := Vector3.z context |}
        /\ Query.location
             (Selector.queryOptions
                (Legacy.EntitySelector "@e[y=10]" dimension (Some context) executor).1)
           = Some {| Vector3.x := Vector3.x context; Vector3.y := Fin 10;
                     Vector3.z := Vector3.z context |})
  /\ (forall dimension,
        Query.location
          (Selector.queryOptions (Revised.EntitySelector "@e[y=10]" dimension None None).1)
        = Some {| Vector3.x := Fin 0; Vector3.y := Fin 10; Vector3.z := Fin 0 |}
        /\ Query.location
             (Selector.queryOptions (Legacy.EntitySelector "@e[y=10]" dimension None None).1)
           = Some {| Vector3.x := Fin 0; Vector3.y := Fin 10; Vector3.z := Fin 0 |}).
Proof.
  split_and!.
  - intros argsString s. split.
    + apply (origin_after Revised.dispatch).
      * apply Revised_dispatch_axis.
      * apply Revised_dispatch_location_frame.
      * apply Revised_dispatch_context.
    + apply (origin_after Legacy.dispatch).
      * apply Legacy_dispatch_axis.
      * apply Legacy_dispatch_location_frame.
      * apply Legacy_dispatch_context.
  - intros context k v. split; reflexivity.
  - reflexivity.
  - intros n o. split_and!; reflexivity.
  - intros dimension [cx cy cz] executor. split; reflexivity.
  - intros dimension. split; reflexivity.
Qed.

(** Three axis arguments in a row, the second [x] over the first. *)
Example origin_last_write_per_axis :
  Query.location
    (Selector.queryOptions
       (Legacy.EntitySelector "@e[x=1,z=3,x=-2.5]" "overworld"
          (Some {| Vector3.x := Fin 7; Vector3.y := Fin 8; Vector3.z := Fin 9 |}) None).1)
  = Some {| Vector3.x := Fin (-5 # 2); Vector3.y := Fin 8; Vector3.z := Fin 3 |}.
Proof. reflexivity. Qed.

(** C4.  In both files, after a list of arguments the exclusion list is
    the one before with the [X] of every [type=!X] appended in order, and
    the positive type is the value of the last [type=X] that is not
    negated (the one before when there is none).  So
    [type=!minecraft:pig,type=!minecraft:cow] records both exclusions, and
    [type=minecraft:pig,type=minecraft:cow] leaves [minecraft:cow]. *)
Theorem type_arguments_accumulate_and_overwrite :
  (forall argsString s,
     let q := Selector.queryOptions s in
     let revised := Selector.queryOptions (Revised._parseArguments argsString s).1 in
     let legacy := Selector.queryOptions (Legacy._parseArguments argsString s).1 in
     Query.excludeTypes revised
     = pushed (Query.excludeTypes q) (exclusions (splitArguments argsString))
     /\ Query.type revised = overwritten (Query.type q) (positives (splitArguments argsString))
     /\ Query.excludeTypes legacy
        = pushed (Query.excludeTypes q) (exclusions (splitArguments argsString))
     /\ Query.type legacy = overwritten (Query.type q) (positives (splitArguments argsString)))
  /\ (forall before x xs, pushed before (x :: xs) = Some (default [] before ++ x :: xs))
  /\ (forall before xs x, overwritten before (xs ++ [x]) = Some x)
  /\ (forall dimension location executor,
        let revised :=
          Selector.queryOptions
            (Revised.EntitySelector "@e[type=!minecraft:pig,type=!minecraft:cow]"
               dimension location executor).1 in
        let legacy :=
          Selector.queryOptions
            (Legacy.EntitySelector "@e[type=!minecraft:pig,type=!minecraft:cow]"
               dimension location executor).1 in
        Query.excludeTypes revised = Some ["minecraft:pig"; "minecraft:cow"]
        /\ Query.type revised = None
        /\ Query.excludeTypes legacy = Some ["minecraft:pig"; "minecraft:cow"]
        /\ Query.type legacy = None)
  /\ (forall dimension location executor,
        let revised :=
          Selector.queryOptions
            (Revised.EntitySelector "@e[type=minecraft:pig,type=minecraft:cow]"
               dimension location executor).1 in
        let legacy :=
          Selector.queryOptions
            (Legacy.EntitySelector "@e[type=minecraft:pig,type=minecraft:cow]"
               dimension location executor).1 in
        Query.type revised = Some "minecraft:cow"
        /\ Query.excludeTypes revised = None
        /\ Query.type legacy = Some "minecraft:cow"
        /\ Query.excludeTypes legacy = None).
Proof.
  split_and!.
  - intros argsString s. cbv zeta.
    destruct (types_after Revised.dispatch (fun _ _ => eq_refl) Revised_dispatch_type_frame
                (splitArguments argsString) s) as [R1 R2].
    destruct (types_after Legacy.dispatch (fun _ _ => eq_refl) Legacy_dispatch_type_frame
                (splitArguments argsString) s) as [L1 L2].
    done.
  - reflexivity.
  - intros before xs x. unfold overwritten. by rewrite last_snoc.
  - intros dimension location executor. split_and!; reflexivity.
  - intros dimension location executor. split_and!; reflexivity.
Qed.

(** C5 on EntitySelectorParser.ts: its [switch] has no case for [rx],
    [rxm], [ry] or [rym], so each of them falls to [default], which leaves
    the selector as it was and warns of an unsupported argument.  The
    [switch] of part_000 has the four cases and sets the four rotation
    bounds. *)
Theorem legacy_rotation_keys_unsupported (v : string) (s : Selector.t) :
  Legacy.dispatch "rx" v s = (s, [WarnUnsupportedArgument "rx"])
  /\ Legacy.dispatch "rxm" v s = (s, [WarnUnsupportedArgument "rxm"])
  /\ Legacy.dispatch "ry" v s = (s, [WarnUnsupportedArgument "ry"])
  /\ Legacy.dispatch "rym" v s = (s, [WarnUnsupportedArgument "rym"])
  /\ Revised.dispatch "rx" v s
     = (Selector.updQuery
          (Query.set_maxVerticalRotation (Some (JsNumber.parseFloat v))) s, [])
  /\ Revised.dispatch "rxm" v s
     = (Selector.updQuery
          (Query.set_minVerticalRotation (Some (JsNumber.parseFloat v))) s, [])
  /\ Revised.dispatch "ry" v s
     = (Selector.updQuery
          (Query.set_maxHorizontalRotation (Some (JsNumber.parseFloat v))) s, [])
  /\ Revised.dispatch "rym" v s
     = (Selector.updQuery
          (Query.set_minHorizontalRotation (Some (JsNumber.parseFloat v))) s, [])
  /\ Selector.queryOptions (Legacy.EntitySelector "@e[rx=45]" "overworld" None None).1
     = Query.empty
  /\ (Legacy.EntitySelector "@e[rx=45]" "overworld" None None).2
     = [WarnUnsupportedArgument "rx"]
  /\ Selector.queryOptions (Revised.EntitySelector "@e[rx=45]" "overworld" None None).1
     = Query.set_maxVerticalRotation (Some (Fin 45)) Query.empty
  /\ (Revised.EntitySelector "@e[rx=45]" "overworld" None None).2 = [].
Proof. split_and!; reflexivity. Qed.

(** C10 on both files: the key is cut at the first [=] and the value keeps
    the later ones, but [if (!key || value === undefined)] does not stop a
    token without [=]: its value is the empty string, never [undefined],
    and the token goes to the [switch].  [type] alone sets the type to
    the empty string, and [tag] alone asks for the empty tag. *)
Theorem token_without_equals_is_dispatched (s : Selector.t) :
  keyOf "scores={level=5..10}" = "scores"
  /\ valueOf "scores={level=5..10}" = Some "{level=5..10}"
  /\ keyOf "type" = "type"
  /\ valueOf "type" = Some EmptyString
  /\ Revised.interpret "type" s
     = (Selector.updQuery (Query.set_type (Some EmptyString)) s, [])
  /\ Legacy.interpret "type" s
     = (Selector.updQuery (Query.set_type (Some EmptyString)) s, [])
  /\ Revised.interpret "tag" s = (Selector.updQuery (caseTag EmptyString) s, [])
  /\ Legacy.interpret "tag" s = (Selector.updQuery (caseTag EmptyString) s, [])
  /\ Query.type
       (Selector.queryOptions (Legacy.EntitySelector "@e[type]" "overworld" None None).1)
     = Some EmptyString
  /\ (Legacy.EntitySelector "@e[type]" "overworld" None None).2 = []
  /\ Query.type
       (Selector.queryOptions (Revised.EntitySelector "@e[type]" "overworld" None None).1)
     = Some EmptyString
  /\ (Revised.EntitySelector "@e[type]" "overworld" None None).2 = [].
Proof. split_and!; reflexivity. Qed.

(** The same for every token without [=], and the rule of the first [=],
    in both files. *)
Lemma tokens_reach_the_switch :
  (forall arg s,
     "="%char ∉ chars arg -> isEmpty arg = false ->
     Revised.interpret arg s = Revised.dispatch (trim arg) EmptyString s
     /\ Legacy.interpret arg s = Legacy.dispatch (trim arg) EmptyString s)
  /\ (forall key rest s,
        "="%char ∉ chars key -> isEmpty key = false ->
        Revised.interpret (key +:+ String "=" rest) s
        = Revised.dispatch (trim key) (stripQuotes (trim rest)) s
        /\ Legacy.interpret (key +:+ String "=" rest) s
           = Legacy.dispatch (trim key) (stripQuotes (trim rest)) s).
Proof.
  split.
  - intros arg s Ha He. split; by apply interpretWith_without_equals.
  - intros key rest s Hk He. split; by apply interpretWith_at_first_equals.
Qed.

End InterpreterProperties.

(** *** A [hasitem] argument that cannot be decoded *)

Section HasitemClaim.
Import Interpreter ArgumentSpec.
Context {runtime : Runtime}.


End HasitemClaim.

Section HasitemExamples.
Import Interpreter ArgumentSpec Example.


(** At construction: the type and the count are read, no item condition is
    kept, and the one warning is that of the [hasitem] value. *)
Example malformed_hasitem_at_construction :
  let revised :=
    Revised.EntitySelector "@e[type=minecraft:pig,hasitem=[x],c=2]" "overworld" None None in
  let legacy :=
    Legacy.EntitySelector "@e[type=minecraft:pig,hasitem=[x],c=2]" "overworld" None None in
  Selector.hasItemFilters revised.1 = []
  /\ Query.type (Selector.queryOptions revised.1) = Some "minecraft:pig"
  /\ Query.closest (Selector.queryOptions revised.1) = Some (Fin 2)
  /\ revised.2 = [WarnHasitemParse "[x]"]
  /\ Selector.hasItemFilters legacy.1 = []
  /\ Query.type (Selector.queryOptions legacy.1) = Some "minecraft:pig"
  /\ Query.closest (Selector.queryOptions legacy.1) = Some (Fin 2)
  /\ legacy.2 = [WarnHasitemParse "[x]"].
Proof. cbv zeta. split_and!; reflexivity. Qed.

(** A bracket that is not closed keeps the tokenizer inside the token to
    the end of the string: what is written after it is part of the
    [hasitem] value, not an argument of its own. *)
Example unclosed_hasitem_takes_the_rest :
  splitArguments "type=minecraft:pig,hasitem=[{item=minecraft:torch},c=2"
  = ["type=minecraft:pig"; "hasitem=[{item=minecraft:torch},c=2"]
  /\ argumentOf "hasitem=[{item=minecraft:torch},c=2"
     = Some ("hasitem", "[{item=minecraft:torch},c=2")
  /\ malformed "[{item=minecraft:torch},c=2" = true
  /\ Query.closest
       (Selector.queryOptions
          (Revised.EntitySelector "@e[type=minecraft:pig,hasitem=[{item=minecraft:torch},c=2]"
             "overworld" None None).1)
     = None.
Proof. split_and!; reflexivity. Qed.

End HasitemExamples.

(** ** The volume filter *)

Section Volume.
Import VolumeSpec Filters.





(** The filter in use: EntitySelectorParser.ts applies it to what the
    host returns whenever the selector has both a volume and an origin. *)
Example volume_filter_unit_thickness :
  map Entity.id
    (_filterByVolume
       [Example.player 1 0; Example.player 2 (1 # 2); Example.player 3 1]
       (vec 0 0 0) (vec 0 0 2))
  = [1%nat; 2%nat].
Proof. reflexivity. Qed.

End Volume.

(** ** Random selection *)

Section Sampling.
Import Filters RevisedEval.

Lemma randomIndex_bound (r : Q) (n : nat) :
  (0 <= r)%Q -> (r < 1)%Q -> (0 < n)%nat -> (randomIndex r n < n)%nat.
Proof.
  intros H0 H1 Hn. unfold randomIndex.
  set (len := inject_Z (Z.of_nat n)).
  assert (0 < len)%Q as Hlen.
  { subst len. replace 0%Q with (inject_Z 0) by done. rewrite <- Zlt_Qlt. lia. }
  assert (0 <= Qfloor (r * len)) as Hlo.
  { change 0 with (Qfloor 0). apply Qfloor_resp_le. nra. }
  assert (Qfloor (r * len) < Z.of_nat n) as Hhi.
  { rewrite Zlt_Qlt. eapply Qle_lt_trans; [apply Qfloor_le|]. fold len. nra. }
  lia.
Qed.

Lemma lt_ofZ (a b : Z) : JsNumber.lt (JsNumber.ofZ a) (JsNumber.ofZ b) = bool_decide (a < b).
Proof.
  unfold JsNumber.lt, JsNumber.ofZ.
  destruct (Qle_bool (inject_Z b) (inject_Z a)) eqn:E; simpl.
  - apply Qle_bool_iff in E. rewrite <- Zle_Qle in E. by rewrite bool_decide_false by lia.
  - apply not_true_iff_false in E. rewrite Qle_bool_iff, <- Zle_Qle in E.
    by rewrite bool_decide_true by lia.
Qed.

(** The sampling loop moves entities from [copy] to [result], one for each
    iteration, until [count] is reached or [copy] is empty. *)
Lemma sampleLoop_moves (random : RandomSource) (n : nat) :
  unitInterval random ->
  forall fuel i copy result,
    (List.length copy <= fuel)%nat ->
    let sampled := sampleLoop fuel random i (JsNumber.ofZ (Z.of_nat n)) copy result in
    (exists rest, sampled ++ rest ≡ₚ result ++ copy)
    /\ List.length sampled = (List.length result + Nat.min (n - i) (List.length copy))%nat.
Proof.
  intros Hr. induction fuel as [|fuel IH]; intros i copy result Hfuel; cbn zeta.
  - destruct copy; [|simpl in Hfuel; lia]. simpl. split; [by exists []|]. lia.
  - cbn [sampleLoop]. rewrite lt_ofZ.
    destruct (bool_decide_reflect (Z.of_nat i < Z.of_nat n)) as [Hi|Hi]; simpl.
    2:{ split; [by exists copy|]. lia. }
    destruct (Nat.ltb_spec 0 (List.length copy)) as [Hc|Hc].
    2:{ split; [by exists copy|]. lia. }
    destruct (Hr i) as [H0 H1].
    pose proof (randomIndex_bound (random i) (List.length copy) H0 H1 Hc) as Hidx.
    destruct (lookup_lt_is_Some_2 copy _ Hidx) as [e He]. rewrite He.
    specialize (IH (S i) (delete (randomIndex (random i) (List.length copy)) copy)
                  (result ++ [e])).
    cbn zeta in IH.
    pose proof (length_delete copy _ (ex_intro _ e He)) as Hlen.
    destruct IH as [[rest Hp] Hl]; [lia|].
    split.
    + exists rest. rewrite Hp, <- app_assoc. simpl.
      apply Permutation_app_head. symmetry. by apply delete_Permutation.
    + rewrite Hl, length_app, Hlen. simpl. lia.
Qed.

Lemma zeros_unit : unitInterval Example.zeros.
Proof. intros k. unfold Example.zeros. split; [apply Qle_refl | reflexivity]. Qed.

Section WithHost.
Context `{Host}.
Import SamplingSpec.

Lemma sampleCount_closest (q : EntityQueryOptions) (n : nat) :
  Query.closest q = Some (JsNumber.ofZ (Z.of_nat n)) -> (0 < n)%nat ->
  sampleCount q = JsNumber.ofZ (Z.of_nat n).
Proof.
  intros E Hn. unfold sampleCount. rewrite E.
  unfold JsNumber.max, JsNumber.abs, JsNumber.ofZ, JsNumber.le.
  assert (Qred (Qabs (inject_Z (Z.of_nat n))) = inject_Z (Z.of_nat n)) as ->.
  { unfold inject_Z, Qabs. rewrite Z.abs_eq by lia.
    apply Qred_identity. simpl. apply Z.gcd_1_r. }
  assert (Qle_bool 1 (inject_Z (Z.of_nat n)) = true) as ->; [|done].
  apply Qle_bool_iff. change 1%Q with (inject_Z 1). rewrite <- Zle_Qle. lia.
Qed.

(** What C7 says holds of part_000, which filters first and draws from
    what is left: with [c=N] and at least [N] matching entities, an [@r]
    selector returns [N] of them, none twice, whatever [Math.random()]
    gives in the unit interval. *)
Lemma revised_random_sample (random : RandomSource) (s : Selector.t) (n : nat) :
  unitInterval random ->
  Selector.targetSelectorSymbol s = "@r" ->
  Query.closest (Selector.queryOptions s) = Some (JsNumber.ofZ (Z.of_nat n)) ->
  (0 < n <= List.length (matching s))%nat ->
  NoDup (matching s) ->
  let entities := (getEntities random s).1 in
  List.length entities = n
  /\ (forall e, e ∈ entities -> e ∈ matching s)
  /\ NoDup entities.
Proof.
  intros Hr Hs Hc Hn Hd. unfold getEntities. rewrite Hs. simpl String.eqb. cbv iota.
  fold (matching s).
  destruct (Nat.ltb_spec 0 (List.length (matching s))) as [Hm|Hm]; [|lia].
  cbn [andb fst]. rewrite (sampleCount_closest _ n) by (done || lia).
  destruct (sampleLoop_moves random n Hr (List.length (matching s)) 0 (matching s) [])
    as [[rest Hp] Hl]; [done|].
  simpl in Hp, Hl. split_and!.
  - rewrite Hl. lia.
  - intros e He. rewrite <- Hp. apply elem_of_app. by left.
  - rewrite <- Hp in Hd. by apply NoDup_app in Hd as [? _].
Qed.

End WithHost.
End Sampling.

Section SamplingClaim.
Import Example.

(** C7 on EntitySelectorParser.ts.  For [@r] it hands [c=1] to the host
    as [closest: 1] with the score conditions taken out, and tests the
    scores on what comes back.  In a world of two players, [near] with
    [level] 0 and [far] with [level] 7, the selector
    [@r[x=0,y=0,z=0,c=1,scores={level=5..}]] has one matching entity,
    [far]; the host returns [near], the score test removes it, and the
    result is empty for every outcome of the random draws.  part_000 does
    not pass [closest] on and returns [far]. *)
Theorem legacy_random_sample_misses_matching_entity :
  let legacy := (Legacy.EntitySelector nearestFirst "overworld" None None).1 in
  let revised := (Revised.EntitySelector nearestFirst "overworld" None None).1 in
  Selector.targetSelectorSymbol legacy = "@r"
  /\ Query.closest (Selector.queryOptions legacy) = Some (JsNumber.ofZ 1)
  /\ List.filter (fun e => LegacyEval._matchesManualFilters e (Selector.queryOptions legacy))
       [near; far] = [far]
  /\ (forall random : RandomSource, LegacyEval.getEntities random legacy = ([], []))
  /\ SamplingSpec.matching revised = [far]
  /\ RevisedEval.getEntities zeros revised = ([far], []).
Proof.
  cbv zeta. split_and!; reflexivity.
Qed.

(** The general lemma at work on the same selector. *)
Example revised_random_sample_at_work :
  let s := (Revised.EntitySelector nearestFirst "overworld" None None).1 in
  List.length (RevisedEval.getEntities zeros s).1 = 1%nat
  /\ (forall e, e ∈ (RevisedEval.getEntities zeros s).1 -> e ∈ SamplingSpec.matching s)
  /\ NoDup (RevisedEval.getEntities zeros s).1.
Proof.
  cbv zeta. apply (revised_random_sample zeros _ 1 zeros_unit); try reflexivity.
  - vm_compute. lia.
  - vm_compute. apply NoDup_singleton.
Qed.

End SamplingClaim.

(** ** The object store *)

Section StoreLemmas.
Import Store Filters StoreLogic.

Lemma wp_ret {A} (a : A) Q h : Q a h → wp (mret a) Q h.
Proof. intros HQ. by exists a, h. Qed.

Lemma wp_bind {A B} (m : M A) (k : A → M B) Q h :
  wp m (fun a h' => wp (k a) Q h') h → wp (m ≫= k) Q h.
Proof.
  intros (a & h' & Em & b & h'' & Ek & HQ). exists b, h''. split; [|done].
  unfold mbind, M_bind, bind. by rewrite Em.
Qed.

Lemma wp_alloc c Q h :
  (∀ l, h !! l = None → Q l (<[l := c]> h)) → wp (alloc c) Q h.
Proof.
  intros HQ. eexists _, _. split; [reflexivity|]. apply HQ.
  apply not_elem_of_dom, is_fresh.
Qed.

Lemma wp_read {A} (load : store → loc → option A) l a Q h :
  load h l = Some a → Q a h → wp (read load l) Q h.
Proof. intros E HQ. exists a, h. split; [|done]. unfold read. by rewrite E. Qed.

Lemma wp_peek {A} (f : store → option A) a Q h :
  f h = Some a → Q a h → wp (peek f) Q h.
Proof. intros E HQ. exists a, h. split; [|done]. unfold peek. by rewrite E. Qed.

Lemma wp_write l c Q h :
  is_Some (h !! l) → Q tt (<[l := c]> h) → wp (write l c) Q h.
Proof.
  intros [c0 E] HQ. exists tt, (<[l := c]> h). split; [|done]. unfold write. by rewrite E.
Qed.

Lemma wp_update l f q Q h :
  h !! l = Some (QueryObj q) → Q tt (<[l := QueryObj (f q)]> h) → wp (update l f) Q h.
Proof.
  intros E HQ. unfold update. apply wp_bind.
  eapply wp_read; [unfold loadQueryObj; by rewrite E|].
  apply wp_write; [by rewrite E | done].
Qed.

Lemma wp_mono {A} (m : M A) (Q Q' : A → store → Prop) h :
  (∀ a h', Q a h' → Q' a h') → wp m Q h → wp m Q' h.
Proof. intros HQ (a & h' & E & H). exists a, h'. eauto. Qed.

(** *** Reading through a larger store *)

Lemma loadStrings_mono h h' l a : h ⊆ h' → loadStrings h l = Some a → loadStrings h' l = Some a.
Proof.
  unfold loadStrings. intros Hs. destruct (h !! l) as [c|] eqn:E; [|done].
  by rewrite (lookup_weaken _ _ _ _ E Hs).
Qed.
Lemma loadVector_mono h h' l a : h ⊆ h' → loadVector h l = Some a → loadVector h' l = Some a.
Proof.
  unfold loadVector. intros Hs. destruct (h !! l) as [c|] eqn:E; [|done].
  by rewrite (lookup_weaken _ _ _ _ E Hs).
Qed.
Lemma loadScores_mono h h' l a : h ⊆ h' → loadScores h l = Some a → loadScores h' l = Some a.
Proof.
  unfold loadScores. intros Hs. destruct (h !! l) as [c|] eqn:E; [|done].
  by rewrite (lookup_weaken _ _ _ _ E Hs).
Qed.
Lemma loadItemFilters_mono h h' l a :
  h ⊆ h' → loadItemFilters h l = Some a → loadItemFilters h' l = Some a.
Proof.
  unfold loadItemFilters. intros Hs. destruct (h !! l) as [c|] eqn:E; [|done].
  by rewrite (lookup_weaken _ _ _ _ E Hs).
Qed.
Lemma loadQueryObj_mono h h' l a :
  h ⊆ h' → loadQueryObj h l = Some a → loadQueryObj h' l = Some a.
Proof.
  unfold loadQueryObj. intros Hs. destruct (h !! l) as [c|] eqn:E; [|done].
  by rewrite (lookup_weaken _ _ _ _ E Hs).
Qed.
Lemma loadThis_mono h h' l a : h ⊆ h' → loadThis h l = Some a → loadThis h' l = Some a.
Proof.
  unfold loadThis. intros Hs. destruct (h !! l) as [c|] eqn:E; [|done].
  by rewrite (lookup_weaken _ _ _ _ E Hs).
Qed.

Lemma follow_mono {A} (load : store → loc → option A) h h' r a :
  (∀ l x, load h l = Some x → load h' l = Some x) →
  follow (load h) r = Some a → follow (load h') r = Some a.
Proof.
  intros Hm. destruct r as [l|]; simpl; [|done].
  destruct (load h l) as [x|] eqn:E; [|done]. by rewrite (Hm _ _ E).
Qed.

Lemma resolve_Resolves h q o : resolve h q = Some o ↔ Resolves h q o.
Proof.
  unfold resolve. split.
  - intros E.
    destruct (follow (loadStrings h) (Query.excludeTypes q)) eqn:E1; [|done].
    destruct (follow (loadStrings h) (Query.tags q)) eqn:E2; [|done].
    destruct (follow (loadStrings h) (Query.excludeTags q)) eqn:E3; [|done].
    destruct (follow (loadStrings h) (Query.families q)) eqn:E4; [|done].
    destruct (follow (loadStrings h) (Query.excludeFamilies q)) eqn:E5; [|done].
    destruct (follow (loadVector h) (Query.location q)) eqn:E6; [|done].
    destruct (follow (loadVector h) (Query.volume q)) eqn:E7; [|done].
    destruct (follow (loadScores h) (Query.scoreOptions q)) eqn:E8; [|done].
    simpl in E. injection E as <-. by constructor.
  - intros []. destruct o. simpl in *.
    rewrite r_excludeTypes0, r_tags0, r_excludeTags0, r_families0, r_excludeFamilies0,
      r_location0, r_volume0, r_scoreOptions0. simpl. by subst.
Qed.

Lemma Resolves_mono h h' q o : h ⊆ h' → Resolves h q o → Resolves h' q o.
Proof.
  intros Hs []. constructor; try done;
    (eapply follow_mono; [|done]; intros ??;
     first [apply loadStrings_mono | apply loadVector_mono | apply loadScores_mono]; done).
Qed.

Lemma follow_defined {A} (load : loc → option A) r a :
  follow load r = Some a → defined a = defined r.
Proof. destruct r as [l|]; simpl; [|by intros [= <-]]. destruct (load l); by intros [= <-]. Qed.



Lemma Resolves_set_type h q o v :
  Resolves h q o → Resolves h (Query.set_type v q) (Query.set_type v o).
Proof. intros R. resolves R. Qed.

Lemma Resolves_set_closest h q o v :
  Resolves h q o → Resolves h (Query.set_closest v q) (Query.set_closest v o).
Proof. intros R. resolves R. Qed.

Lemma Resolves_set_farthest h q o v :
  Resolves h q o → Resolves h (Query.set_farthest v q) (Query.set_farthest v o).
Proof. intros R. resolves R. Qed.

Lemma Resolves_delete_scoreOptions h q o :
  Resolves h q o → Resolves h (Query.set_scoreOptions None q) (Query.set_scoreOptions None o).
Proof. intros R. resolves R. Qed.

Lemma Resolves_set_location h q o l :
  Resolves h q o →
  ∀ v, follow (loadVector h) l = Some v →
       Resolves h (Query.set_location l q) (Query.set_location v o).
Proof. intros R v Hv. resolves R. Qed.

Lemma Resolves_queryForS h q o :
  Resolves h q o → Resolves h (RevisedEval.queryForS q) (RevisedEval.queryForS o).
Proof. intros R. resolves R. Qed.

Lemma Resolves_defined_location h q o :
  Resolves h q o → defined (Query.location q) = defined (Query.location o).
Proof. intros []. symmetry. by eapply follow_defined. Qed.

Lemma Resolves_needsLocation h q o :
  Resolves h q o → RevisedEval.needsLocation q = RevisedEval.needsLocation o.
Proof.
  intros []. unfold RevisedEval.needsLocation.
  rewrite (follow_defined _ _ _ r_volume0).
  by rewrite r_minDistance0, r_maxDistance0, r_closest0, r_farthest0,
    r_minHorizontalRotation0, r_maxHorizontalRotation0, r_minVerticalRotation0,
    r_maxVerticalRotation0.
Qed.

Lemma Resolves_bySymbol h q o symbol closest :
  Resolves h q o →
  Resolves h (RevisedEval.bySymbol symbol closest q) (RevisedEval.bySymbol symbol closest o).
Proof.
  intros R. unfold RevisedEval.bySymbol.
  destruct (String.eqb symbol "@p");
    [by apply Resolves_set_closest, Resolves_set_type|].
  destruct (String.eqb symbol "@a"); [by apply Resolves_set_type|].
  destruct (String.eqb symbol "@r"); [|done].
  apply Resolves_set_farthest, Resolves_set_closest.
  assert (Query.type q = Query.type o) as -> by (by destruct R).
  assert (Query.name q = Query.name o) as -> by (by destruct R).
  assert (defined (Query.families q) = defined (Query.families o)) as ->.
  { destruct R. symmetry. by eapply follow_defined. }
  assert (defined (Query.tags q) = defined (Query.tags o)) as ->.
  { destruct R. symmetry. by eapply follow_defined. }
  case_match; [by apply Resolves_set_type | done].
Qed.

Lemma Resolves_sampleCount h q o :
  Resolves h q o → RevisedEval.sampleCount q = RevisedEval.sampleCount o.
Proof. intros []. unfold RevisedEval.sampleCount. by rewrite r_closest0, r_farthest0. Qed.

Lemma Resolves_nearestPlayerQuery h q o l closest :
  Resolves h q o →
  ∀ v, follow (loadVector h) l = Some v →
       Resolves h (LegacyEval.nearestPlayerQuery l closest q)
         (LegacyEval.nearestPlayerQuery v closest o).
Proof.
  intros R v Hv. unfold LegacyEval.nearestPlayerQuery.
  apply Resolves_set_closest.
  destruct l as [l|]; simpl in Hv.
  - destruct (loadVector h l) as [x|] eqn:E; [|done]. injection Hv as <-.
    apply Resolves_set_location; [by apply Resolves_set_type|]. simpl. by rewrite E.
  - injection Hv as <-. by apply Resolves_set_type.
Qed.

Lemma Resolves_randomQuery h q o :
  Resolves h q o → Resolves h (LegacyEval.randomQuery q) (LegacyEval.randomQuery o).
Proof.
  intros R. unfold LegacyEval.randomQuery.
  assert (Query.type q = Query.type o) as -> by (by destruct R).
  case_match; [done | by apply Resolves_set_type].
Qed.

(** What [loadSelector] found. *)
Lemma loadSelector_inv h this s :
  loadSelector h this = Some s →
  ∃ me q,
    loadThis h this = Some me
    ∧ loadQueryObj h (SelectorObject.queryOptions me) = Some q
    ∧ Resolves h q (Selector.queryOptions s)
    ∧ loadItemFilters h (SelectorObject.hasItemFilters me) = Some (Selector.hasItemFilters s)
    ∧ follow (loadVector h) (SelectorObject.executionLocation me)
      = Some (Selector.executionLocation s)
    ∧ SelectorObject.targetSelectorSymbol me = Selector.targetSelectorSymbol s
    ∧ SelectorObject.executionDimension me = Selector.executionDimension s
    ∧ SelectorObject.executor me = Selector.executor s
    ∧ SelectorObject.selectorString me = Selector.selectorString s.
Proof.
  unfold loadSelector. intros E.
  destruct (loadThis h this) as [me|] eqn:E1; [|done]. simpl in E.
  destruct (follow (loadVector h) (SelectorObject.executionLocation me)) eqn:E2; [|done].
  simpl in E.
  destruct (loadQueryObj h (SelectorObject.queryOptions me)) as [q|] eqn:E3; [|done].
  simpl in E.
  destruct (resolve h q) as [opts|] eqn:E4; [|done]. simpl in E.
  destruct (loadItemFilters h (SelectorObject.hasItemFilters me)) eqn:E5; [|done].
  simpl in E. injection E as <-. exists me, q. simpl.
  split_and!; try done. by apply resolve_Resolves.
Qed.

Lemma loadSelector_mono h h' this s :
  h ⊆ h' → loadSelector h this = Some s → loadSelector h' this = Some s.
Proof.
  intros Hs E.
  destruct (loadSelector_inv _ _ _ E) as (me & q & E1 & E3 & R & E5 & E2 & F1 & F2 & F3 & F4).
  unfold loadSelector.
  rewrite (loadThis_mono _ _ _ _ Hs E1). simpl.
  rewrite (follow_mono loadVector h h' _ _ (fun l x => loadVector_mono h h' l x Hs) E2).
  simpl. rewrite (loadQueryObj_mono _ _ _ _ Hs E3). simpl.
  rewrite (proj2 (resolve_Resolves _ _ _) (Resolves_mono _ _ _ _ Hs R)). simpl.
  rewrite (loadItemFilters_mono _ _ _ _ Hs E5). simpl.
  destruct s. simpl in *. by subst.
Qed.


(** *** Steps that keep what the store held at the start *)

Lemma wp_new c Q h :
  (∀ l h', h !! l = None → h ⊆ h' → h' !! l = Some c → Q l h') → wp (alloc c) Q h.
Proof.
  intros HQ. apply wp_alloc. intros l Hl. apply HQ; [done| |].
  - by apply insert_subseteq.
  - by rewrite lookup_insert_eq.
Qed.

Lemma wp_update_new h0 l f q Q h :
  h0 ⊆ h → h0 !! l = None → h !! l = Some (QueryObj q) →
  (∀ h', h0 ⊆ h' → h' !! l = Some (QueryObj (f q)) →
         (∀ x c, x ≠ l → h !! x = Some c → h' !! x = Some c) → Q tt h') →
  wp (update l f) Q h.
Proof.
  intros Hs H0 Hl HQ. eapply wp_update; [done|]. apply HQ.
  - by apply insert_subseteq_r.
  - by rewrite lookup_insert_eq.
  - intros x c Hx E. by rewrite lookup_insert_ne.
Qed.

Lemma wp_filtered keep l entities Q h :
  h !! l = Some (Entities entities) →
  (∀ l' h', h ⊆ h' → h' !! l' = Some (Entities (List.filter keep entities)) → Q l' h') →
  wp (filtered keep l) Q h.
Proof.
  intros E HQ. unfold filtered. apply wp_bind.
  eapply wp_read; [unfold loadEntities; by rewrite E|].
  apply wp_new. intros l' h' _ Hs Hl. by apply HQ.
Qed.

Lemma loadEntities_Some h l x : h !! l = Some (Entities x) → loadEntities h l = Some x.
Proof. unfold loadEntities. by intros ->. Qed.

Lemma loadQueryObj_Some h l x : h !! l = Some (QueryObj x) → loadQueryObj h l = Some x.
Proof. unfold loadQueryObj. by intros ->. Qed.

Lemma sampleLoop_store (h0 : store) random count from to :
  from ≠ to → h0 !! from = None → h0 !! to = None →
  ∀ fuel i copy result h,
    h0 ⊆ h → h !! from = Some (Entities copy) → h !! to = Some (Entities result) →
    wp (sampleLoop fuel random i count from to)
      (fun _ h' =>
         h0 ⊆ h'
         ∧ h' !! to
           = Some (Entities (RevisedEval.sampleLoop fuel random i count copy result)))
      h.
Proof.
  intros Hne Hf Ht. induction fuel as [|fuel IH]; intros i copy result h Hs Hfrom Hto.
  - cbn [sampleLoop RevisedEval.sampleLoop]. by apply wp_ret.
  - cbn [sampleLoop RevisedEval.sampleLoop].
    apply wp_bind. eapply wp_read; [by apply loadEntities_Some|].
    destruct (JsNumber.lt (JsNumber.ofZ (Z.of_nat i)) count && (0 <? List.length copy)%nat);
      [|by apply wp_ret].
    destruct (copy !! RevisedEval.randomIndex (random i) (List.length copy)) as [e|];
      [|by apply wp_ret].
    apply wp_bind. apply wp_write; [by rewrite Hfrom|].
    apply wp_bind. eapply wp_read.
    { apply loadEntities_Some. rewrite lookup_insert_ne by done. exact Hto. }
    apply wp_bind. apply wp_write.
    { rewrite lookup_insert_ne by done. by rewrite Hto. }
    apply IH.
    + apply insert_subseteq_r; [done|]. by apply insert_subseteq_r.
    + rewrite lookup_insert_ne by done. by rewrite lookup_insert_eq.
    + by rewrite lookup_insert_eq.
Qed.

Section WithHost.
Context `{Host}.

Lemma wp_filterByItems check this me filters l entities Q h :
  loadThis h this = Some me →
  loadItemFilters h (SelectorObject.hasItemFilters me) = Some filters →
  h !! l = Some (Entities entities) →
  (∀ l' h', h ⊆ h' →
            h' !! l' = Some (Entities
              (if (0 <? List.length filters)%nat
               then List.filter (fun e => forallb (check e) filters) entities
               else entities)) → Q l' h') →
  wp (filterByItems check this l) Q h.
Proof.
  intros E1 E2 El HQ. unfold filterByItems, self.
  apply wp_bind. eapply wp_read; [done|].
  apply wp_bind. eapply wp_read; [done|].
  destruct (0 <? List.length filters)%nat.
  - eapply wp_filtered; [done|]. done.
  - apply wp_ret. by apply HQ.
Qed.

End WithHost.

End StoreLemmas.

(** *** [getEntities] on the store *)

Section StoreEvaluation.
Import Store Filters StoreLogic.

Section WithHost.
Context `{Host}.

Lemma follow_Some {A} (load : loc → option A) l o :
  follow load (Some l) = Some o → ∃ v, o = Some v ∧ load l = Some v.
Proof. simpl. destruct (load l) as [v|]; [|done]. intros [= <-]. eauto. Qed.

Lemma follow_None {A} (load : loc → option A) o :
  follow load None = Some o → o = None.
Proof. simpl. by intros [= <-]. Qed.

(** [getEntities] of part_000 on the store gives what it gives on the
    selector the store holds, and leaves every object of the store as it
    was. *)
Lemma getEntities_store random this h s :
  loadSelector h this = Some s →
  wp (getEntities random this)
    (fun r h' => r = RevisedEval.getEntities random s ∧ h ⊆ h') h.
Proof.
  intros E.
  destruct (loadSelector_inv _ _ _ E) as (me & q & E1 & E3 & R & E5 & E2 & F1 & F2 & F3 & F4).
  unfold getEntities, RevisedEval.getEntities, self.
  apply wp_bind. eapply wp_read; [done|].
  apply wp_bind. eapply wp_read; [done|].
  apply wp_bind. apply wp_new. intros cq h1 Hcq S1 L1.
  rewrite F1, F3.
  destruct (String.eqb (Selector.targetSelectorSymbol s) "@s") eqn:Hsym.
  - (* @s *)
    destruct (Selector.executor s) as [executor|]; [|by apply wp_ret].
    apply wp_bind. eapply wp_read; [by apply loadQueryObj_Some|].
    apply wp_bind. apply wp_new. intros qs h2 Hqs S2 L2.
    apply wp_bind. eapply wp_peek.
    { rewrite (loadQueryObj_Some _ _ _ L2). simpl.
      apply resolve_Resolves, Resolves_queryForS.
      eapply Resolves_mono; [|exact R]. by trans h1. }
    destruct (RevisedEval._checkExecutorMatchesBaseQuery executor
                (RevisedEval.queryForS (Selector.queryOptions s)));
      [|apply wp_ret; split; [done | by trans h1]].
    apply wp_bind. apply wp_new. intros ea h3 Hea S3 L3.
    assert (h ⊆ h3) as S03 by (trans h1; [done|]; by trans h2).
    apply wp_bind. eapply wp_filterByItems.
    { by eapply loadThis_mono. }
    { by eapply loadItemFilters_mono. }
    { done. }
    intros ea' h4 S4 L4. fold (RevisedEval.filterByItems (Selector.hasItemFilters s) [executor]) in L4.
    assert (h ⊆ h4) as S04 by (by trans h3).
    apply wp_bind. eapply wp_read.
    { apply loadQueryObj_Some. eapply lookup_weaken; [exact L1|].
      trans h2; [done|]. by trans h3. }
    pose proof (r_volume _ _ _ R) as Rv. pose proof (r_location _ _ _ R) as Rl.
    destruct (Query.volume q) as [lv|].
    2:{ apply follow_None in Rv. rewrite Rv.
        apply wp_bind. apply wp_ret.
        apply wp_bind. eapply wp_read; [by apply loadEntities_Some|].
        by apply wp_ret. }
    apply follow_Some in Rv as (v & -> & Ev).
    destruct (Query.location q) as [ll|].
    2:{ apply follow_None in Rl. rewrite Rl.
        apply wp_bind. apply wp_ret.
        apply wp_bind. eapply wp_read; [by apply loadEntities_Some|].
        by apply wp_ret. }
    apply follow_Some in Rl as (l & -> & El).
    apply wp_bind. apply wp_bind.
    eapply wp_read; [by eapply loadVector_mono|].
    apply wp_bind. eapply wp_read; [by eapply loadVector_mono|].
    destruct (_isWithinVolume (Entity.location executor) l v); simpl.
    + apply wp_ret. apply wp_bind. eapply wp_read; [by apply loadEntities_Some|].
      by apply wp_ret.
    + apply wp_new. intros e0 h5 _ S5 L5.
      apply wp_bind. eapply wp_read; [by apply loadEntities_Some|].
      apply wp_ret. split; [done | by trans h4].
  - (* the other symbols *)
    unfold RevisedEval.effectiveQuery.
    set (o := Selector.queryOptions s) in *.
    set (o2 := if negb (defined (Query.location o)) && RevisedEval.needsLocation o
               then match Selector.executionLocation s with
                    | Some l => Query.set_location (Some l) o
                    | None => o
                    end
               else o).
    apply wp_bind. eapply wp_read; [by apply loadQueryObj_Some|].
    apply wp_bind.
    apply (wp_mono _ (fun _ h2 => ∃ q2, h ⊆ h2 ∧ h2 !! cq = Some (QueryObj q2)
                                        ∧ Resolves h q2 o2)).
    2:{ rewrite (Resolves_defined_location _ _ _ R), (Resolves_needsLocation _ _ _ R).
        fold o. subst o2.
        destruct (negb (defined (Query.location o)) && RevisedEval.needsLocation o).
        2:{ apply wp_ret. by exists q. }
        destruct (SelectorObject.executionLocation me) as [l|].
        - apply follow_Some in E2 as (v & -> & Ev).
          eapply (wp_update_new h); [done..|]. intros h2 S2 L2 _.
          eexists. split_and!; [done..|].
          apply Resolves_set_location; [done|]. simpl. by rewrite Ev.
        - apply follow_None in E2 as ->. apply wp_ret. by exists q. }
    intros [] h2 (q2 & S2 & L2 & R2).
    apply wp_bind. eapply wp_read; [by eapply loadThis_mono|].
    apply wp_bind. eapply wp_read; [by eapply loadQueryObj_mono|].
    apply wp_bind. eapply (wp_update_new h); [done..|]. intros h3 S3 L3 _.
    rewrite ?F1, ?F2. rewrite F1, <- (r_closest _ _ _ R) in L3.
    pose proof (Resolves_bySymbol h q2 o2 (Selector.targetSelectorSymbol s)
                  (Query.closest o) R2) as R3.
    apply wp_bind. unfold hostQuery, options.
    apply wp_bind. eapply wp_peek.
    { rewrite (loadQueryObj_Some _ _ _ L3). simpl.
      apply resolve_Resolves. by eapply Resolves_mono. }
    apply wp_new. intros ents h4 _ S4 L4.
    assert (h ⊆ h4) as S04 by (by trans h3).
    apply wp_bind. eapply wp_filterByItems.
    { by eapply loadThis_mono. }
    { by eapply loadItemFilters_mono. }
    { done. }
    intros ents' h5 S5 L5.
    match type of L5 with
    | _ = Some (Entities ?x) => set (found := x) in *
    end.
    assert (h ⊆ h5) as S05 by (by trans h4).
    apply wp_bind. eapply wp_read; [by apply loadEntities_Some|].
    apply wp_bind. eapply wp_read; [by eapply loadThis_mono|].
    rewrite ?F1.
    change (RevisedEval.filterByItems (Selector.hasItemFilters s)
              (dimensionGetEntities (Selector.executionDimension s)
                 (RevisedEval.bySymbol (Selector.targetSelectorSymbol s)
                    (Query.closest o) o2))) with found.
    destruct (String.eqb (Selector.targetSelectorSymbol s) "@r"
              && (0 <? List.length found)%nat); [|by apply wp_ret].
    apply wp_bind. eapply wp_read; [by eapply loadQueryObj_mono|].
    apply wp_bind. apply wp_new. intros result h6 Hres S6 L6.
    apply wp_bind. apply wp_new. intros copy h7 Hcopy S7 L7.
    assert (h ⊆ h7) as S07 by (trans h5; [done|]; by trans h6).
    assert (copy ≠ result) as Hne.
    { intros ->. rewrite L6 in Hcopy. done. }
    apply wp_bind.
    eapply wp_mono; [|eapply (sampleLoop_store h random _ copy result Hne)].
    + intros [] h8 [S8 L8]. apply wp_bind.
      eapply wp_read; [by apply loadEntities_Some|].
      apply wp_ret. split; [|done].
      by rewrite (Resolves_sampleCount _ _ _ R).
    + eapply lookup_weaken_None; [exact Hcopy|]. by trans h5.
    + eapply lookup_weaken_None; [exact Hres|]. done.
    + done.
    + done.
    + by eapply lookup_weaken.
Qed.


(** The same for [getEntities] of EntitySelectorParser.ts. *)
Lemma getEntitiesLegacy_store random this h s :
  loadSelector h this = Some s →
  wp (getEntitiesLegacy random this)
    (fun r h' => r = LegacyEval.getEntities random s ∧ h ⊆ h') h.
Proof.
  intros E.
  destruct (loadSelector_inv _ _ _ E) as (me & q & E1 & E3 & R & E5 & E2 & F1 & F2 & F3 & F4).
  unfold getEntitiesLegacy, LegacyEval.getEntities, self.
  set (o := Selector.queryOptions s) in *.
  apply wp_bind. apply wp_new. intros e0 h1 He0 S1 L1.
  apply wp_bind. eapply wp_read; [by eapply loadThis_mono|].
  apply wp_bind. eapply wp_read; [by eapply loadQueryObj_mono|].
  apply wp_bind. apply wp_new. intros bq h2 Hbq S2 L2.
  assert (h ⊆ h2) as S02 by (by trans h1).
  assert (h !! bq = None) as Hbq0.
  { eapply lookup_weaken_None; [exact Hbq|done]. }
  assert (e0 ≠ bq) as Hne0.
  { intros ->. rewrite L1 in Hbq. done. }
  apply wp_bind. eapply (wp_update_new h); [done..|]. intros h3 S3 L3 K3.
  pose proof (Resolves_delete_scoreOptions _ _ _ R) as R3.
  assert (h3 !! e0 = Some (Entities [])) as L30.
  { apply K3; [done|]. by eapply lookup_weaken. }
  apply wp_bind. eapply wp_read; [by eapply loadThis_mono|].
  rewrite F1, F2, F3.
  match goal with
  | |- wp _ (fun r h' => r = (let '(entities, log) := ?m in _) ∧ _) _ => set (mid := m)
  end.
  apply wp_bind.
  apply (wp_mono _ (fun r h' => h ⊆ h' ∧ h' !! r.1 = Some (Entities mid.1) ∧ r.2 = mid.2)).
  - intros [ents log] h4 (S4 & L4 & Hlog). simpl in L4, Hlog.
    destruct mid as [midEntities midLog]. simpl in L4, Hlog. subst log.
    apply wp_bind. eapply wp_read; [by eapply loadThis_mono|].
    apply wp_bind. eapply wp_read; [by eapply loadQueryObj_mono|].
    unfold LegacyEval.postFilters. fold o.
    pose proof (r_volume _ _ _ R) as Rv. pose proof (r_location _ _ _ R) as Rl.
    apply wp_bind.
    apply (wp_mono _ (fun r h' =>
             h ⊆ h'
             ∧ h' !! r = Some (Entities
                 match Query.volume o, Query.location o with
                 | Some volume, Some location =>
                     _filterByVolume midEntities location volume
                 | _, _ => midEntities
                 end))).
    + intros ents2 h5 (S5 & L5).
      apply wp_bind. eapply wp_filterByItems.
      { by eapply loadThis_mono. }
      { by eapply loadItemFilters_mono. }
      { done. }
      intros ents3 h6 S6 L6.
      apply wp_bind. eapply wp_read; [by apply loadEntities_Some|].
      apply wp_ret. split; [done | by trans h5].
    + destruct (Query.volume q) as [lv|].
      2:{ apply follow_None in Rv. rewrite Rv. by apply wp_ret. }
      apply follow_Some in Rv as (v & -> & Ev).
      destruct (Query.location q) as [ll|].
      2:{ apply follow_None in Rl. rewrite Rl. by apply wp_ret. }
      apply follow_Some in Rl as (l & -> & El).
      apply wp_bind. eapply wp_read; [by eapply loadVector_mono|].
      apply wp_bind. eapply wp_read; [by eapply loadVector_mono|].
      eapply wp_filtered; [done|]. intros ents2 h5 S5 L5. split; [by trans h4 | done].
  - subst mid.
    destruct (String.eqb (Selector.targetSelectorSymbol s) "@s").
    { destruct (Selector.executor s) as [executor|].
      - apply wp_bind. apply wp_new. intros arr h4 _ S4 L4.
        assert (h ⊆ h4) as S04 by (by trans h3).
        apply wp_bind. unfold options. eapply wp_peek.
        { rewrite (loadQueryObj_mono _ _ _ _ S04 E3). simpl.
          apply resolve_Resolves. by eapply Resolves_mono. }
        apply wp_bind. eapply wp_filtered; [done|]. intros l h5 S5 L5.
        apply wp_ret. simpl. split_and!; [by trans h4 | done | done].
      - apply wp_ret. simpl. done. }
    destruct (String.eqb (Selector.targetSelectorSymbol s) "@p").
    { apply wp_bind. eapply wp_read; [by eapply loadQueryObj_mono|].
      apply wp_bind. eapply (wp_update_new h); [done..|]. intros h4 S4 L4 K4.
      rewrite <- (r_closest _ _ _ R) in L4.
      apply wp_bind. unfold hostQuery, options.
      apply wp_bind. eapply wp_peek.
      { rewrite (loadQueryObj_Some _ _ _ L4). simpl.
        apply resolve_Resolves. eapply Resolves_mono; [done|].
        by apply Resolves_nearestPlayerQuery. }
      apply wp_new. intros l h5 _ S5 L5.
      apply wp_ret. simpl. split_and!; [by trans h4 | done | done]. }
    destruct (String.eqb (Selector.targetSelectorSymbol s) "@a").
    { apply wp_bind. eapply (wp_update_new h); [done..|]. intros h4 S4 L4 K4.
      apply wp_bind. unfold hostQuery, options.
      apply wp_bind. eapply wp_peek.
      { rewrite (loadQueryObj_Some _ _ _ L4). simpl.
        apply resolve_Resolves. eapply Resolves_mono; [done|].
        by apply Resolves_set_type. }
      apply wp_new. intros l h5 _ S5 L5.
      apply wp_ret. simpl. split_and!; [by trans h4 | done | done]. }
    destruct (String.eqb (Selector.targetSelectorSymbol s) "@r").
    { apply wp_bind. eapply (wp_update_new h); [done..|]. intros h4 S4 L4 K4.
      assert (h4 !! e0 = Some (Entities [])) as L40 by (by apply K4).
      apply wp_bind. unfold hostQuery, options.
      apply wp_bind. eapply wp_peek.
      { rewrite (loadQueryObj_Some _ _ _ L4). simpl.
        apply resolve_Resolves. eapply Resolves_mono; [done|].
        by apply Resolves_randomQuery. }
      apply wp_new. intros all h5 Hall S5 L5.
      assert (h ⊆ h5) as S05 by (by trans h4).
      apply wp_bind. eapply wp_peek.
      { rewrite (loadQueryObj_mono _ _ _ _ S05 E3). simpl.
        apply resolve_Resolves. by eapply Resolves_mono. }
      fold o. unfold LegacyEval.filterByScores.
      set (hostFound := dimensionGetEntities (Selector.executionDimension s)
                          (LegacyEval.randomQuery (Query.set_scoreOptions None o))) in *.
      apply wp_bind.
      apply (wp_mono _ (fun r h' =>
               h ⊆ h' ∧ h' !! e0 = Some (Entities []) ∧ h !! r = None ∧ r ≠ e0
               ∧ h' !! r = Some (Entities
                   match Query.scoreOptions o with
                   | Some (f :: fs) =>
                       List.filter (fun e => LegacyEval._matchesScoreFilters e (f :: fs))
                         hostFound
                   | _ => hostFound
                   end))).
      2:{ assert (h5 !! e0 = Some (Entities [])) as L50 by (by eapply lookup_weaken).
          assert (h !! all = None) as Hall0.
          { eapply lookup_weaken_None; [exact Hall|done]. }
          assert (all ≠ e0) as Hne5.
          { intros ->. rewrite L40 in Hall. done. }
          destruct (Query.scoreOptions o) as [[|f fs]|];
            [by apply wp_ret | | by apply wp_ret].
          unfold filtered. apply wp_bind.
          eapply wp_read; [by apply loadEntities_Some|].
          apply wp_new. intros l h6 Hl S6 L6.
          split_and!; [by trans h5 | by eapply lookup_weaken | | | done].
          - eapply lookup_weaken_None; [exact Hl|done].
          - intros ->. rewrite L50 in Hl. done. }
      intros all2 h6 (S6 & L60 & Hall2 & Hne6 & L6).
      match type of L6 with
      | _ = Some (Entities ?x) => set (found := x) in *
      end.
      apply wp_bind. eapply wp_read; [by apply loadEntities_Some|].
      apply wp_bind.
      destruct (0 <? List.length found)%nat.
      - apply wp_bind. eapply wp_read; [by eapply loadQueryObj_mono|].
        eapply wp_mono;
          [|eapply (sampleLoop_store h random _ all2 e0 Hne6 Hall2 He0 _ _ _ _ _ S6 L6 L60)].
        intros [] h7 [S7 L7]. apply wp_ret. simpl.
        rewrite (r_closest _ _ _ R). done.
      - apply wp_ret. apply wp_ret. simpl. done. }
    apply wp_bind. unfold hostQuery, options.
    apply wp_bind. eapply wp_peek.
    { rewrite (loadQueryObj_Some _ _ _ L3). simpl.
      apply resolve_Resolves. by eapply Resolves_mono. }
    apply wp_new. intros l h4 _ S4 L4.
    assert (h ⊆ h4) as S04 by (by trans h3).
    apply wp_bind. eapply wp_peek.
    { rewrite (loadQueryObj_mono _ _ _ _ S04 E3). simpl.
      apply resolve_Resolves. by eapply Resolves_mono. }
    fold o. unfold LegacyEval.filterByScores.
    destruct (Query.scoreOptions o) as [[|f fs]|].
    + apply wp_bind. apply wp_ret. apply wp_ret. simpl. done.
    + apply wp_bind. eapply wp_filtered; [done|]. intros l2 h5 S5 L5.
      apply wp_ret. simpl. split_and!; [by trans h4 | done | done].
    + apply wp_bind. apply wp_ret. apply wp_ret. simpl. done.
Qed.

End WithHost.

End StoreEvaluation.

(** *** Building a selector in the store *)

Section StoreConstruction.
Import Store Filters StoreLogic.

Lemma wp_allocOption {A} (inj : A → cell) (load : store → loc → option A) o Q h :
  (∀ h l a, h !! l = Some (inj a) → load h l = Some a) →
  (∀ r h', h ⊆ h' → follow (load h') r = Some o → Q r h') →
  wp (allocOption inj o) Q h.
Proof.
  intros Hload HQ. destruct o as [a|]; simpl.
  - apply wp_bind. apply wp_new. intros l h' _ Hs Hl. apply wp_ret.
    apply HQ; [done|]. simpl. by rewrite (Hload _ _ _ Hl).
  - apply wp_ret. by apply HQ.
Qed.

Lemma loadStrings_Some h l x : h !! l = Some (Strings x) → loadStrings h l = Some x.
Proof. unfold loadStrings. by intros ->. Qed.
Lemma loadVector_Some h l x : h !! l = Some (Vector x) → loadVector h l = Some x.
Proof. unfold loadVector. by intros ->. Qed.
Lemma loadScores_Some h l x : h !! l = Some (Scores x) → loadScores h l = Some x.
Proof. unfold loadScores. by intros ->. Qed.

Ltac follows Hs :=
  eapply follow_mono; [|eassumption]; intros ??;
  first [apply loadStrings_mono | apply loadVector_mono | apply loadScores_mono]; exact Hs.

(** Every selector has a store that holds it. *)
Lemma allocSelector_holds (s : Selector.t) (h : store) :
  wp (allocSelector s) (fun this h' => loadSelector h' this = Some s ∧ h ⊆ h') h.
Proof.
  unfold allocSelector.
  apply wp_bind, (wp_allocOption _ loadVector); [apply loadVector_Some|]. intros r0 h0 S0 L0.
  apply wp_bind, (wp_allocOption _ loadStrings); [apply loadStrings_Some|]. intros r1 h1 S1 L1.
  apply wp_bind, (wp_allocOption _ loadStrings); [apply loadStrings_Some|]. intros r2 h2 S2 L2.
  apply wp_bind, (wp_allocOption _ loadStrings); [apply loadStrings_Some|]. intros r3 h3 S3 L3.
  apply wp_bind, (wp_allocOption _ loadStrings); [apply loadStrings_Some|]. intros r4 h4 S4 L4.
  apply wp_bind, (wp_allocOption _ loadStrings); [apply loadStrings_Some|]. intros r5 h5 S5 L5.
  apply wp_bind, (wp_allocOption _ loadVector); [apply loadVector_Some|]. intros r6 h6 S6 L6.
  apply wp_bind, (wp_allocOption _ loadVector); [apply loadVector_Some|]. intros r7 h7 S7 L7.
  apply wp_bind, (wp_allocOption _ loadScores); [apply loadScores_Some|]. intros r8 h8 S8 L8.
  apply wp_bind, wp_new. intros lq h9 _ S9 L9.
  apply wp_bind, wp_new. intros lf h10 _ S10 L10.
  apply wp_new. intros this h11 _ S11 L11.
  assert (h8 ⊆ h11) as T8 by (trans h9; [done|]; by trans h10).
  assert (h7 ⊆ h11) as T7 by (by trans h8).
  assert (h6 ⊆ h11) as T6 by (by trans h7).
  assert (h5 ⊆ h11) as T5 by (by trans h6).
  assert (h4 ⊆ h11) as T4 by (by trans h5).
  assert (h3 ⊆ h11) as T3 by (by trans h4).
  assert (h2 ⊆ h11) as T2 by (by trans h3).
  assert (h1 ⊆ h11) as T1 by (by trans h2).
  assert (h0 ⊆ h11) as T0 by (by trans h1).
  split; [|by trans h0].
  unfold loadSelector, loadThis. rewrite L11. simpl.
  assert (follow (loadVector h11) r0 = Some (Selector.executionLocation s)) as -> by follows T0.
  simpl. unfold loadQueryObj. rewrite (lookup_weaken _ _ _ _ L9 (transitivity S10 S11)). simpl.
  assert (loadItemFilters h11 lf = Some (Selector.hasItemFilters s)) as ->.
  { unfold loadItemFilters. by rewrite (lookup_weaken _ _ _ _ L10 S11). }
  unfold resolve. simpl.
  assert (follow (loadStrings h11) r1 = Some (Query.excludeTypes (Selector.queryOptions s)))
    as -> by follows T1.
  assert (follow (loadStrings h11) r2 = Some (Query.tags (Selector.queryOptions s)))
    as -> by follows T2.
  assert (follow (loadStrings h11) r3 = Some (Query.excludeTags (Selector.queryOptions s)))
    as -> by follows T3.
  assert (follow (loadStrings h11) r4 = Some (Query.families (Selector.queryOptions s)))
    as -> by follows T4.
  assert (follow (loadStrings h11) r5 = Some (Query.excludeFamilies (Selector.queryOptions s)))
    as -> by follows T5.
  assert (follow (loadVector h11) r6 = Some (Query.location (Selector.queryOptions s)))
    as -> by follows T6.
  assert (follow (loadVector h11) r7 = Some (Query.volume (Selector.queryOptions s)))
    as -> by follows T7.
  assert (follow (loadScores h11) r8 = Some (Query.scoreOptions (Selector.queryOptions s)))
    as -> by follows T8.
  simpl. destruct s as [? ? ? ? ? [] ?]. reflexivity.
Qed.


End StoreConstruction.

(** *** Evaluation leaves the selector as it was *)

Section StoreClaim.
Import Store StoreLogic.
Context `{Host}.

(** C9.  Let the store hold, at [this], an [EntitySelector] object that
    stands for the selector [s]: its symbol, its query options with the
    arrays and vectors they refer to, and its item conditions.  Then
    [getEntities], of either file, returns what the evaluation of [s]
    gives; every object of the store is afterwards as it was before (the
    store has only grown by the copies and arrays made during the call),
    so [this] still stands for [s]; and a second call evaluates [s]
    again. *)
Theorem getEntities_leaves_selector
    (random random' : RandomSource) (this : loc) (h : store) (s : Selector.t) :
  loadSelector h this = Some s ->
  (exists h',
     getEntities random this h = Some (RevisedEval.getEntities random s, h')
     /\ h ⊆ h'
     /\ loadSelector h' this = Some s
     /\ exists h'',
          getEntities random' this h' = Some (RevisedEval.getEntities random' s, h'')
          /\ loadSelector h'' this = Some s)
  /\ (exists h',
        getEntitiesLegacy random this h = Some (LegacyEval.getEntities random s, h')
        /\ h ⊆ h'
        /\ loadSelector h' this = Some s
        /\ exists h'',
             getEntitiesLegacy random' this h'
             = Some (LegacyEval.getEntities random' s, h'')
             /\ loadSelector h'' this = Some s).
Proof.
  intros E. split.
  - destruct (getEntities_store random this h s E) as (r & h' & E1 & -> & S1).
    pose proof (loadSelector_mono _ _ _ _ S1 E) as E'.
    destruct (getEntities_store random' this h' s E') as (r' & h'' & E2 & -> & S2).
    exists h'. split_and!; [done..|].
    exists h''. split; [done|]. by apply (loadSelector_mono h').
  - destruct (getEntitiesLegacy_store random this h s E) as (r & h' & E1 & -> & S1).
    pose proof (loadSelector_mono _ _ _ _ S1 E) as E'.
    destruct (getEntitiesLegacy_store random' this h' s E') as (r' & h'' & E2 & -> & S2).
    exists h'. split_and!; [done..|].
    exists h''. split; [done|]. by apply (loadSelector_mono h').
Qed.

(** Every selector has its objects in some store: the hypothesis of C9
    holds after construction. *)
Lemma allocSelector_stands_for (s : Selector.t) (h : store) :
  exists this h', allocSelector s h = Some (this, h')
                  /\ loadSelector h' this = Some s /\ h ⊆ h'.
Proof. apply allocSelector_holds. Qed.

End StoreClaim.

Section StoreExamples.
Import Store StoreLogic Example.

(** The selector [nearestPlayer], built in the empty store and evaluated
    twice by each file. *)
Lemma getEntities_leaves_selector_witness :
  exists this h,
    nearestPlayerStore = Some (this, h)
    /\ loadSelector h this = Some nearestPlayer
    /\ (exists h',
          getEntities zeros this h = Some (RevisedEval.getEntities zeros nearestPlayer, h')
          /\ h ⊆ h'
          /\ loadSelector h' this = Some nearestPlayer
          /\ exists h'',
               getEntities zeros this h'
               = Some (RevisedEval.getEntities zeros nearestPlayer, h'')
               /\ loadSelector h'' this = Some nearestPlayer)
    /\ (exists h',
          getEntitiesLegacy zeros this h
          = Some (LegacyEval.getEntities zeros nearestPlayer, h')
          /\ h ⊆ h'
          /\ loadSelector h' this = Some nearestPlayer
          /\ exists h'',
               getEntitiesLegacy zeros this h'
               = Some (LegacyEval.getEntities zeros nearestPlayer, h'')
               /\ loadSelector h'' this = Some nearestPlayer).
Proof.
  eexists _, _. split; [vm_compute; reflexivity|].
  split; [vm_compute; reflexivity|].
  apply (getEntities_leaves_selector zeros zeros). vm_compute. reflexivity.
Defined.

(** The override of [@p] is made on the copy: the call asks the host for
    players, and the stored options still have no type. *)
Example nearest_player_override_on_copy :
  Query.type (Selector.queryOptions nearestPlayer) = None
  /\ Query.excludeTypes (Selector.queryOptions nearestPlayer) = Some ["minecraft:pig"]
  /\ (RevisedEval.getEntities zeros nearestPlayer).1 = [far]
  /\ match nearestPlayerStore with
     | Some (this, h) =>
         match getEntities zeros this h with
         | Some (r, h') =>
             r.1 = [far]
             /\ (Selector.queryOptions <$> loadSelector h' this)
                = Some (Selector.queryOptions nearestPlayer)
         | None => False
         end
     | None => False
     end.
Proof. vm_compute. split_and!; reflexivity. Qed.

End StoreExamples.

(** ** The whole argument list, key by key *)

Section KeyByKey.
Import Interpreter ArgumentSpec ParseSpec.

(** A property that only the case of [k] writes is, after a list of
    tokens, what the values of the [k] arguments make of it in turn. *)
Lemma valuesOf_after {A} (P : Selector.t -> A) (k : string) (step : string -> A -> A)
    (dispatch : string -> string -> Selector.t -> Selector.t * list Warning) :
  (forall v s, P (dispatch k v s).1 = step v (P s)) ->
  (forall k' v s, k' <> k -> P (dispatch k' v s).1 = P s) ->
  forall args s,
    P (interpretAllWith dispatch args s).1
    = fold_left (fun a v => step v a) (valuesOf k args) (P s).
Proof.
  intros Hk Hf args. induction args as [|arg args IH]; intros s; [done|].
  simpl interpretAllWith.
  destruct (interpretWith dispatch arg s) as [s1 w1] eqn:E1.
  specialize (IH s1). destruct (interpretAllWith dispatch args s1) as [s2 w2].
  simpl in *. rewrite IH. unfold valuesOf, arguments. simpl omap.
  destruct (argumentOf arg) as [[k' v]|] eqn:Ea; simpl.
  - rewrite (interpretWith_argument _ _ _ _ _ Ea) in E1.
    destruct (String.eqb_spec k' k) as [->|Hne]; simpl.
    + by rewrite <- Hk, E1.
    + by rewrite <- (Hf k' v s Hne), E1.
  - pose proof (interpretWith_skipped dispatch arg s Ea) as F. rewrite E1 in F.
    simpl in F. by subst s1.
Qed.

Lemma fold_push (before : option (list string)) (keep : string -> bool)
    (f : string -> string) (values : list string) :
  fold_left (fun a v => if keep v then push a (f v) else a) values before
  = pushed before (f <$> List.filter keep values).
Proof.
  revert before. induction values as [|v values IH]; intros before; [done|].
  simpl. rewrite IH. destruct (keep v); [|done].
  rewrite fmap_cons. apply pushed_cons.
Qed.


End KeyByKey.

(** A case of either [switch] leaves the properties of the query that it
    does not write. *)
Ltac revised_frame k v s :=
  unfold Revised.dispatch; switch k; try done; try (by frame);
  by destruct (Revised_caseHasitem_query v s) as [-> _].

Ltac legacy_frame k v s :=
  unfold Legacy.dispatch; switch k; try done; try (by frame);
  by destruct (Legacy_caseHasitem_query v s) as [-> _].

(** A member of a list that is written out. *)
Ltac in_list :=
  repeat first [apply list_elem_of_here | apply list_elem_of_further].

Section Arguments.
Import Interpreter ArgumentSpec ParseSpec.
Context `{Runtime}.

Lemma Revised_dispatch_tag_frame k v s :
  k <> "tag" ->
  Query.tags (Selector.queryOptions (Revised.dispatch k v s).1)
  = Query.tags (Selector.queryOptions s)
  /\ Query.excludeTags (Selector.queryOptions (Revised.dispatch k v s).1)
     = Query.excludeTags (Selector.queryOptions s).
Proof. intros Hk. revised_frame k v s. Qed.

Lemma Legacy_dispatch_tag_frame k v s :
  k <> "tag" ->
  Query.tags (Selector.queryOptions (Legacy.dispatch k v s).1)
  = Query.tags (Selector.queryOptions s)
  /\ Query.excludeTags (Selector.queryOptions (Legacy.dispatch k v s).1)
     = Query.excludeTags (Selector.queryOptions s).
Proof. intros Hk. legacy_frame k v s. Qed.

Lemma Revised_dispatch_family_frame k v s :
  k <> "family" ->
  Query.families (Selector.queryOptions (Revised.dispatch k v s).1)
  = Query.families (Selector.queryOptions s)
  /\ Query.excludeFamilies (Selector.queryOptions (Revised.dispatch k v s).1)
     = Query.excludeFamilies (Selector.queryOptions s).
Proof. intros Hk. revised_frame k v s. Qed.

Lemma Legacy_dispatch_family_frame k v s :
  k <> "family" ->
  Query.families (Selector.queryOptions (Legacy.dispatch k v s).1)
  = Query.families (Selector.queryOptions s)
  /\ Query.excludeFamilies (Selector.queryOptions (Legacy.dispatch k v s).1)
     = Query.excludeFamilies (Selector.queryOptions s).
Proof. intros Hk. legacy_frame k v s. Qed.


Lemma caseTag_steps v q :
  Query.tags (caseTag v q)
  = (if negb (startsWith "!" v) then push (Query.tags q) (id v) else Query.tags q)
  /\ Query.excludeTags (caseTag v q)
     = (if startsWith "!" v then push (Query.excludeTags q) (substringFrom 1 v)
        else Query.excludeTags q).
Proof. unfold caseTag. by destruct (startsWith "!" v). Qed.

Lemma caseFamily_steps v q :
  Query.families (caseFamily v q)
  = (if negb (startsWith "!" v) then push (Query.families q) (id v) else Query.families q)
  /\ Query.excludeFamilies (caseFamily v q)
     = (if startsWith "!" v then push (Query.excludeFamilies q) (substringFrom 1 v)
        else Query.excludeFamilies q).
Proof. unfold caseFamily. by destruct (startsWith "!" v). Qed.

(** X1.  Unlike [type], every [tag] and every [family] argument counts: after
    a list of arguments the four lists are the ones before with the values
    of the [tag=X], [tag=!X], [family=X] and [family=!X] arguments appended
    in their order.  In both files. *)
Theorem tags_and_families_accumulate (argsString : string) (s : Selector.t) :
  let args := splitArguments argsString in
  let q := Selector.queryOptions s in
  let both (P : EntityQueryOptions -> Prop) :=
    P (Selector.queryOptions (Revised._parseArguments argsString s).1)
    /\ P (Selector.queryOptions (Legacy._parseArguments argsString s).1) in
  both (fun q' =>
    Query.tags q' = pushed (Query.tags q) (plain (valuesOf "tag" args))
    /\ Query.excludeTags q' = pushed (Query.excludeTags q) (negated (valuesOf "tag" args))
    /\ Query.families q' = pushed (Query.families q) (plain (valuesOf "family" args))
    /\ Query.excludeFamilies q'
       = pushed (Query.excludeFamilies q) (negated (valuesOf "family" args))).
Proof.
  cbv zeta. unfold plain, negated.
  unfold Revised._parseArguments, Legacy._parseArguments, Revised.interpretAll,
    Legacy.interpretAll.
  split; split_and!.
  - rewrite (valuesOf_after (fun s => Query.tags (Selector.queryOptions s)) "tag"
               (fun v a => if negb (startsWith "!" v) then push a (id v) else a)).
    + by rewrite fold_push, list_fmap_id.
    + intros v s'. apply caseTag_steps.
    + intros k v s' Hk. by apply Revised_dispatch_tag_frame.
  - rewrite (valuesOf_after (fun s => Query.excludeTags (Selector.queryOptions s)) "tag"
               (fun v a => if startsWith "!" v then push a (substringFrom 1 v) else a)).
    + by rewrite fold_push.
    + intros v s'. apply caseTag_steps.
    + intros k v s' Hk. by apply Revised_dispatch_tag_frame.
  - rewrite (valuesOf_after (fun s => Query.families (Selector.queryOptions s)) "family"
               (fun v a => if negb (startsWith "!" v) then push a (id v) else a)).
    + by rewrite fold_push, list_fmap_id.
    + intros v s'. apply caseFamily_steps.
    + intros k v s' Hk. by apply Revised_dispatch_family_frame.
  - rewrite (valuesOf_after (fun s => Query.excludeFamilies (Selector.queryOptions s))
               "family"
               (fun v a => if startsWith "!" v then push a (substringFrom 1 v) else a)).
    + by rewrite fold_push.
    + intros v s'. apply caseFamily_steps.
    + intros k v s' Hk. by apply Revised_dispatch_family_frame.
  - rewrite (valuesOf_after (fun s => Query.tags (Selector.queryOptions s)) "tag"
               (fun v a => if negb (startsWith "!" v) then push a (id v) else a)).
    + by rewrite fold_push, list_fmap_id.
    + intros v s'. apply caseTag_steps.
    + intros k v s' Hk. by apply Legacy_dispatch_tag_frame.
  - rewrite (valuesOf_after (fun s => Query.excludeTags (Selector.queryOptions s)) "tag"
               (fun v a => if startsWith "!" v then push a (substringFrom 1 v) else a)).
    + by rewrite fold_push.
    + intros v s'. apply caseTag_steps.
    + intros k v s' Hk. by apply Legacy_dispatch_tag_frame.
  - rewrite (valuesOf_after (fun s => Query.families (Selector.queryOptions s)) "family"
               (fun v a => if negb (startsWith "!" v) then push a (id v) else a)).
    + by rewrite fold_push, list_fmap_id.
    + intros v s'. apply caseFamily_steps.
    + intros k v s' Hk. by apply Legacy_dispatch_family_frame.
  - rewrite (valuesOf_after (fun s => Query.excludeFamilies (Selector.queryOptions s))
               "family"
               (fun v a => if startsWith "!" v then push a (substringFrom 1 v) else a)).
    + by rewrite fold_push.
    + intros v s'. apply caseFamily_steps.
    + intros k v s' Hk. by apply Legacy_dispatch_family_frame.
Qed.

Example tags_accumulate_at_construction :
  let q := Selector.queryOptions
             (Legacy.EntitySelector "@e[tag=a,type=x,tag=!b,tag=c,family=!mob]"
                "overworld" None None).1 in
  Query.tags q = Some ["a"; "c"] /\ Query.excludeTags q = Some ["b"]
  /\ Query.families q = None /\ Query.excludeFamilies q = Some ["mob"].
Proof. cbv zeta. split_and!; reflexivity. Qed.





Lemma lt_not_gt (a b : number) : JsNumber.lt a b = true -> JsNumber.gt a b = false.
Proof.
  unfold JsNumber.gt, JsNumber.lt. destruct a as [| | |x], b as [| | |y]; try done.
  rewrite negb_true_iff. intros Hyx.
  apply negb_false_iff, Qle_bool_iff.
  apply not_true_iff_false in Hyx. rewrite Qle_bool_iff in Hyx. lra.
Qed.

Lemma fold_count (g : number -> number) (keep : number -> bool) before values :
  fold_left
    (fun a v =>
       if negb (JsNumber.isNaN (JsNumber.parseInt v)) && keep (JsNumber.parseInt v)
       then Some (g (JsNumber.parseInt v)) else a) values before
  = lastNumber g before
      (List.filter keep
         (List.filter (fun n => negb (JsNumber.isNaN n)) (JsNumber.parseInt <$> values))).
Proof.
  unfold lastNumber. revert before.
  induction values as [|v values IH]; intros before; [done|].
  simpl fold_left. rewrite IH. rewrite fmap_cons. simpl List.filter.
  destruct (negb (JsNumber.isNaN (JsNumber.parseInt v))); simpl; [|done].
  destruct (keep (JsNumber.parseInt v)); [|done].
  match goal with |- context [last (?x :: ?l)] => destruct l as [|y ys] eqn:E end; [done|].
  change (last (JsNumber.parseInt v :: y :: ys)) with (last (y :: ys)).
  destruct (last (y :: ys)) eqn:El; [done|]. by apply last_None in El.
Qed.

(** X3.  The count: after a list of arguments [closest] is the last [c] whose
    integer is above zero and [farthest] the absolute value of the last
    one below zero; a [c] of zero or without an integer changes nothing,
    and neither of the two properties is ever taken back, so [c=3,c=-2]
    leaves both set.  In both files. *)
Theorem count_arguments_set_closest_or_farthest (argsString : string) (s : Selector.t) :
  let args := splitArguments argsString in
  let q := Selector.queryOptions s in
  let both (P : EntityQueryOptions -> Prop) :=
    P (Selector.queryOptions (Revised._parseArguments argsString s).1)
    /\ P (Selector.queryOptions (Legacy._parseArguments argsString s).1) in
  both (fun q' =>
    Query.closest q'
    = lastNumber id (Query.closest q)
        (List.filter (fun n => JsNumber.gt n (Fin 0)) (counts args))
    /\ Query.farthest q'
       = lastNumber JsNumber.abs (Query.farthest q)
           (List.filter (fun n => JsNumber.lt n (Fin 0)) (counts args))).
Proof.
  cbv zeta.
  unfold Revised._parseArguments, Legacy._parseArguments, Revised.interpretAll,
    Legacy.interpretAll, counts.
  assert (forall v q0,
            Query.closest (caseCount v q0)
            = (if negb (JsNumber.isNaN (JsNumber.parseInt v))
                  && JsNumber.gt (JsNumber.parseInt v) (Fin 0)
               then Some (id (JsNumber.parseInt v)) else Query.closest q0)
            /\ Query.farthest (caseCount v q0)
               = (if negb (JsNumber.isNaN (JsNumber.parseInt v))
                     && JsNumber.lt (JsNumber.parseInt v) (Fin 0)
                  then Some (JsNumber.abs (JsNumber.parseInt v)) else Query.farthest q0))
    as Hcase.
  { intros v q0. unfold caseCount.
    destruct (JsNumber.isNaN (JsNumber.parseInt v)); [done|].
    destruct (JsNumber.gt (JsNumber.parseInt v) (Fin 0)) eqn:Hgt;
      destruct (JsNumber.lt (JsNumber.parseInt v) (Fin 0)) eqn:Hlt; try done.
    apply lt_not_gt in Hlt. congruence. }
  split; split.
  all: match goal with
       | |- ?F (Selector.queryOptions (interpretAllWith ?d ?args ?s).1)
            = lastNumber ?g _ (List.filter ?keep _) =>
           rewrite (valuesOf_after (fun s => F (Selector.queryOptions s)) "c"
                      (fun v a =>
                         if negb (JsNumber.isNaN (JsNumber.parseInt v))
                            && keep (JsNumber.parseInt v)
                         then Some (g (JsNumber.parseInt v)) else a) d);
           [apply (fold_count g keep) | intros v s'; apply Hcase | intros k' v s' Hk]
       end.
  all: first [revised_frame k' v s' | legacy_frame k' v s'].
Qed.

Example count_keeps_both :
  let q := Selector.queryOptions
             (Revised.EntitySelector "@e[c=3,c=0,c=-2,c=x]" "overworld" None None).1 in
  Query.closest q = Some (Fin 3) /\ Query.farthest q = Some (Fin 2).
Proof. cbv zeta. split; reflexivity. Qed.





End Arguments.

Section Construction.
Import Interpreter ArgumentSpec ParseSpec.
Context `{Runtime}.

Lemma Revised_dispatch_sameContext k v s :
  sameContext s (Revised.dispatch k v s).1
  /\ Selector.targetSelectorSymbol (Revised.dispatch k v s).1
     = Selector.targetSelectorSymbol s.
Proof.
  unfold sameContext, Revised.dispatch. switch k; try done.
  unfold Revised.caseHasitem.
  destruct (Revised.decodeItems v) as [[]| |]; try done.
  by destruct (pushFilters _ _ _).
Qed.

Lemma Legacy_dispatch_sameContext k v s :
  sameContext s (Legacy.dispatch k v s).1
  /\ Selector.targetSelectorSymbol (Legacy.dispatch k v s).1
     = Selector.targetSelectorSymbol s.
Proof.
  unfold sameContext, Legacy.dispatch. switch k; try done.
  unfold Legacy.caseHasitem. repeat case_match; done.
Qed.

Lemma interpretAllWith_sameContext dispatch :
  (forall k v s, sameContext s (dispatch k v s).1
                 /\ Selector.targetSelectorSymbol (dispatch k v s).1
                    = Selector.targetSelectorSymbol s) ->
  forall args s,
    sameContext s (interpretAllWith dispatch args s).1
    /\ Selector.targetSelectorSymbol (interpretAllWith dispatch args s).1
       = Selector.targetSelectorSymbol s.
Proof.
  intros Hd args. induction args as [|arg args IH]; intros s; [done|].
  simpl. destruct (interpretWith dispatch arg s) as [s1 w1] eqn:E1.
  specialize (IH s1). destruct (interpretAllWith dispatch args s1) as [s2 w2].
  simpl in *.
  assert (sameContext s s1
          /\ Selector.targetSelectorSymbol s1 = Selector.targetSelectorSymbol s) as Hs.
  { destruct (argumentOf arg) as [[k v]|] eqn:Ea.
    - rewrite (interpretWith_argument _ _ _ _ _ Ea) in E1.
      specialize (Hd k v s). by rewrite E1 in Hd.
    - pose proof (interpretWith_skipped dispatch arg s Ea) as F. rewrite E1 in F.
      simpl in F. by subst s1. }
  unfold sameContext in *. destruct Hs as [(?&?&?&?) ?], IH as [(?&?&?&?) ?].
  split_and!; congruence.
Qed.

Lemma selectorMatch_symbol s symbol body :
  selectorMatch s = Some (symbol, body) ->
  symbol ∈ symbols /\ startsWith symbol s = true.
Proof.
  unfold selectorMatch. destruct s as [|c0 [|c rest]]; try done.
  - by_character c0.
  - destruct (Ascii.eqb_spec c0 "@") as [->|N]; [|by_character c0].
    unfold isSymbolLetter.
    destruct (Ascii.eqb_spec c "p") as [->|?]; [|destruct (Ascii.eqb_spec c "a") as [->|?];
      [|destruct (Ascii.eqb_spec c "r") as [->|?];
        [|destruct (Ascii.eqb_spec c "s") as [->|?];
          [|destruct (Ascii.eqb_spec c "e") as [->|?]; [|done]]]]];
      simpl; (destruct (isEmpty rest); [intros [= <- <-]|
              destruct (bracketed rest); [intros [= <- <-]|done]]);
      (split; [in_list|by destruct rest]).
Qed.

Lemma construct_context parse selectorString dimension location executor :
  (forall a s, sameContext s (parse a s).1
               /\ Selector.targetSelectorSymbol (parse a s).1
                  = Selector.targetSelectorSymbol s) ->
  let s := (construct parse selectorString dimension location executor).1 in
  Selector.selectorString s = selectorString
  /\ Selector.executionDimension s = dimension
  /\ Selector.executor s = executor
  /\ Selector.executionLocation s
     = match location with
       | Some l => Some l
       | None => Entity.location <$> executor
       end
  /\ Selector.targetSelectorSymbol s ∈ symbols
  /\ Selector.targetSelectorSymbol s
     = match selectorMatch selectorString with
       | Some (symbol, _) => symbol
       | None => "@e"
       end.
Proof.
  intros Hp. cbv zeta. unfold construct, _parseSelectorString. cbn [Selector.selectorString].
  set (init := {| Selector.selectorString := selectorString |}).
  assert (forall symbol a,
            let r := (if negb (isEmpty a)
                      then parse a (Selector.set_targetSelectorSymbol symbol init)
                      else (Selector.set_targetSelectorSymbol symbol init, [])).1 in
            sameContext init r /\ Selector.targetSelectorSymbol r = symbol) as Hrun.
  { intros symbol a. cbv zeta. destruct (negb (isEmpty a)); [|done].
    destruct (Hp a (Selector.set_targetSelectorSymbol symbol init)) as [(?&?&?&?) ?].
    unfold sameContext. split_and!; done. }
  destruct (selectorMatch selectorString) as [[symbol body]|] eqn:Em.
  - destruct (selectorMatch_symbol _ _ _ Em) as [Hin _].
    destruct body as [a|].
    + destruct (Hrun symbol a) as [(?&?&?&?) E]. cbv zeta in *.
      split_and!; try done. by rewrite E.
    + simpl. done.
  - cbn [fst].
    destruct (negb (includes "[" selectorString)); [split_and!; try done; in_list|].
    destruct (bracketed selectorString) as [a|]; [|split_and!; try done; in_list].
    destruct (Hrun "@e" a) as [(?&?&?&?) E]. cbv zeta in *.
    split_and!; try done. rewrite E. in_list.
Qed.

(** X5.  The constructor stores its arguments as they are, takes the
    executor's place where no location is given, and ends with one of the
    five symbols: that of the selector string where it has the selector
    pattern, [@e] where it has not.  No argument changes any of them.  In
    both files. *)
Theorem constructor_keeps_context_and_symbol
    (selectorString dimension : string) (location : option Vector3.t)
    (executor : option Entity.t) :
  let both (P : Selector.t -> Prop) :=
    P (Revised.EntitySelector selectorString dimension location executor).1
    /\ P (Legacy.EntitySelector selectorString dimension location executor).1 in
  both (fun s =>
    Selector.selectorString s = selectorString
    /\ Selector.executionDimension s = dimension
    /\ Selector.executor s = executor
    /\ Selector.executionLocation s
       = match location with
         | Some l => Some l
         | None => Entity.location <$> executor
         end
    /\ Selector.targetSelectorSymbol s ∈ symbols
    /\ Selector.targetSelectorSymbol s
       = match selectorMatch selectorString with
         | Some (symbol, _) => symbol
         | None => "@e"
         end).
Proof.
  cbv zeta. split.
  - unfold Revised.EntitySelector.
    apply (construct_context Revised._parseArguments selectorString dimension location
             executor). intros a s.
    unfold Revised._parseArguments, Revised.interpretAll.
    apply interpretAllWith_sameContext. apply Revised_dispatch_sameContext.
  - unfold Legacy.EntitySelector.
    apply (construct_context Legacy._parseArguments selectorString dimension location
             executor). intros a s.
    unfold Legacy._parseArguments, Legacy.interpretAll.
    apply interpretAllWith_sameContext. apply Legacy_dispatch_sameContext.
Qed.

End Construction.

Section UnknownKeys.
Import Interpreter ArgumentSpec ParseSpec.
Context {runtime : Runtime}.

(** A token whose case returns the selector as it was, with one warning,
    counts for nothing but the warning. *)
Lemma interpretAllWith_ignored dispatch pre arg post s k v w :
  argumentOf arg = Some (k, v) ->
  (forall s, dispatch k v s = (s, [w])) ->
  (interpretAllWith dispatch (pre ++ arg :: post) s).1
  = (interpretAllWith dispatch (pre ++ post) s).1
  /\ exists w1 w2,
      (interpretAllWith dispatch (pre ++ post) s).2 = w1 ++ w2
      /\ (interpretAllWith dispatch (pre ++ arg :: post) s).2 = w1 ++ [w] ++ w2.
Proof.
  intros Ha Hd. rewrite !interpretAllWith_app.
  destruct (interpretAllWith dispatch pre s) as [s1 w1]. simpl interpretAllWith.
  rewrite (interpretWith_argument _ _ _ _ _ Ha), Hd.
  destruct (interpretAllWith dispatch post s1) as [s2 w2]. simpl.
  split; [done|]. by exists w1, w2.
Qed.

Lemma Revised_dispatch_unknown k v s :
  k ∉ revisedKeys -> Revised.dispatch k v s = (s, [WarnUnsupportedArgument k]).
Proof.
  intros Hk. unfold revisedKeys, legacyKeys in Hk. simpl in Hk.
  repeat (apply not_elem_of_cons in Hk as [? Hk]).
  unfold Revised.dispatch. switch k; done.
Qed.

Lemma Legacy_dispatch_unknown k v s :
  k ∉ legacyKeys -> Legacy.dispatch k v s = (s, [WarnUnsupportedArgument k]).
Proof.
  intros Hk. unfold legacyKeys in Hk.
  repeat (apply not_elem_of_cons in Hk as [? Hk]).
  unfold Legacy.dispatch. switch k; done.
Qed.

(** X6.  An argument whose key the [switch] has no case for (the keys are
    compared as written, after trimming) is ignored with one warning: the
    selector is the one the other tokens alone give, and the warnings are
    theirs with [WarnUnsupportedArgument] in between. *)
Theorem unknown_key_is_ignored
    (argsString : string) (pre post : list string) (arg k v : string) (s : Selector.t) :
  splitArguments argsString = pre ++ arg :: post ->
  argumentOf arg = Some (k, v) ->
  (k ∉ revisedKeys ->
     (Revised._parseArguments argsString s).1 = (Revised.interpretAll (pre ++ post) s).1
     /\ exists w1 w2,
          (Revised.interpretAll (pre ++ post) s).2 = w1 ++ w2
          /\ (Revised._parseArguments argsString s).2
             = w1 ++ [WarnUnsupportedArgument k] ++ w2)
  /\ (k ∉ legacyKeys ->
        (Legacy._parseArguments argsString s).1 = (Legacy.interpretAll (pre ++ post) s).1
        /\ exists w1 w2,
             (Legacy.interpretAll (pre ++ post) s).2 = w1 ++ w2
             /\ (Legacy._parseArguments argsString s).2
                = w1 ++ [WarnUnsupportedArgument k] ++ w2).
Proof.
  intros Hs Ha.
  unfold Revised._parseArguments, Legacy._parseArguments, Revised.interpretAll,
    Legacy.interpretAll.
  rewrite Hs. split; intros Hk.
  - apply (interpretAllWith_ignored Revised.dispatch pre arg post s k v _ Ha).
    intros s'. by apply Revised_dispatch_unknown.
  - apply (interpretAllWith_ignored Legacy.dispatch pre arg post s k v _ Ha).
    intros s'. by apply Legacy_dispatch_unknown.
Qed.

End UnknownKeys.

Section UnknownKeysExamples.
Import Interpreter ArgumentSpec ParseSpec Example.

(** [Tag] is not [tag]: both files read [type=minecraft:pig,Tag=a,c=2] as
    [type=minecraft:pig,c=2]. *)
Lemma unknown_key_is_ignored_witness :
  (Revised._parseArguments "type=minecraft:pig,Tag=a,c=2" blank).1
  = (Revised.interpretAll ["type=minecraft:pig"; "c=2"] blank).1
  /\ (Legacy._parseArguments "type=minecraft:pig,Tag=a,c=2" blank).1
     = (Legacy.interpretAll ["type=minecraft:pig"; "c=2"] blank).1.
Proof.
  destruct (@unknown_key_is_ignored runtime "type=minecraft:pig,Tag=a,c=2"
              ["type=minecraft:pig"] ["c=2"] "Tag=a" "Tag" "a" blank eq_refl eq_refl)
    as [R L].
  split.
  - apply R. unfold revisedKeys, legacyKeys. simpl.
    rewrite !not_elem_of_cons. split_and!; try discriminate. apply not_elem_of_nil.
  - apply L. unfold legacyKeys.
    rewrite !not_elem_of_cons. split_and!; try discriminate. apply not_elem_of_nil.
Defined.

End UnknownKeysExamples.

Section Invariants.
Import Interpreter ArgumentSpec ParseSpec.





Section WithRuntime.
Context `{Runtime}.








End WithRuntime.
End Invariants.

(** ** Where results come from *)

Section Sources.
Import Filters EvalSpec.
Context `{Host}.

(** Whatever [Math.random()] gives, the loop only moves entities from
    [copy] to the result. *)
Lemma sampleLoop_takes (random : RandomSource) count fuel i copy result :
  exists rest, RevisedEval.sampleLoop fuel random i count copy result ++ rest
               ≡ₚ result ++ copy.
Proof.
  revert i copy result. induction fuel as [|fuel IH]; intros i copy result.
  - by exists copy.
  - cbn [RevisedEval.sampleLoop].
    destruct (JsNumber.lt (JsNumber.ofZ (Z.of_nat i)) count
              && (0 <? List.length copy)%nat); [|by exists copy].
    cbv zeta.
    destruct (copy !! RevisedEval.randomIndex (random i) (List.length copy))
      as [e|] eqn:He; [|by exists copy].
    destruct (IH (S i) (delete (RevisedEval.randomIndex (random i) (List.length copy)) copy)
                (result ++ [e])) as [rest Hp].
    exists rest. rewrite Hp, <- app_assoc. simpl.
    apply Permutation_app_head. symmetry. by apply delete_Permutation.
Qed.

Lemma sampleLoop_submseteq (random : RandomSource) count fuel copy :
  RevisedEval.sampleLoop fuel random 0 count copy [] ⊆+ copy.
Proof.
  destruct (sampleLoop_takes random count fuel 0 copy []) as [rest Hp].
  simpl in Hp.
  trans (RevisedEval.sampleLoop fuel random 0 count copy [] ++ rest);
    [by apply submseteq_inserts_r | by apply Permutation_submseteq].
Qed.

Lemma NoDup_of_submseteq {A} (l k : list A) : l ⊆+ k -> NoDup k -> NoDup l.
Proof.
  intros [k' Hp]%submseteq_Permutation Hk. rewrite Hp in Hk.
  by apply NoDup_app in Hk as [? _].
Qed.

Lemma filter_sublist {A} (keep : A -> bool) (l : list A) :
  List.filter keep l `sublist_of` l.
Proof.
  induction l as [|x l IH]; [done|]. simpl.
  destruct (keep x); [by apply sublist_skip | by apply sublist_cons].
Qed.

Lemma Revised_filterByItems_sublist filters l :
  RevisedEval.filterByItems filters l `sublist_of` l.
Proof.
  unfold RevisedEval.filterByItems. case_match; [apply filter_sublist|done].
Qed.

Lemma Legacy_filterByItems_sublist filters l :
  LegacyEval.filterByItems filters l `sublist_of` l.
Proof.
  unfold LegacyEval.filterByItems. case_match; [apply filter_sublist|done].
Qed.

Lemma filterByScores_sublist scores l : LegacyEval.filterByScores scores l `sublist_of` l.
Proof.
  unfold LegacyEval.filterByScores. repeat case_match; try done. apply filter_sublist.
Qed.

Lemma postFilters_sublist s l : LegacyEval.postFilters s l `sublist_of` l.
Proof.
  unfold LegacyEval.postFilters. etrans; [apply Legacy_filterByItems_sublist|].
  repeat case_match; try done. apply filter_sublist.
Qed.

Lemma Revised_getEntities_source random s :
  (RevisedEval.getEntities random s).1 ⊆+ source RevisedEval.effectiveQuery s
  /\ (Selector.targetSelectorSymbol s <> "@r" ->
      (RevisedEval.getEntities random s).1
        `sublist_of` source RevisedEval.effectiveQuery s).
Proof.
  unfold RevisedEval.getEntities, source.
  destruct (String.eqb (Selector.targetSelectorSymbol s) "@s").
  - assert ((match Selector.executor s with
             | Some executor =>
                 if RevisedEval._checkExecutorMatchesBaseQuery executor
                      (RevisedEval.queryForS (Selector.queryOptions s))
                 then
                   match Query.volume (Selector.queryOptions s),
                         Query.location (Selector.queryOptions s) with
                   | Some volumeForS, Some locationForS =>
                       if negb (_isWithinVolume (Entity.location executor) locationForS
                                  volumeForS)
                       then ([], [])
                       else (RevisedEval.filterByItems (Selector.hasItemFilters s)
                               [executor], [])
                   | _, _ =>
                       (RevisedEval.filterByItems (Selector.hasItemFilters s) [executor],
                        [])
                   end
                 else ([], [])
             | None => ([], [WarnNoExecutor])
             end).1 `sublist_of` option_list (Selector.executor s)) as Hs.
    { destruct (Selector.executor s) as [executor|]; [|done]. simpl.
      repeat case_match; simpl;
        first [apply sublist_nil_l | apply Revised_filterByItems_sublist]. }
    split; [by apply sublist_submseteq|done].
  - destruct (String.eqb_spec (Selector.targetSelectorSymbol s) "@r") as [Er|Nr].
    + split; [|done]. cbn [andb]. case_match; simpl.
      * etrans; [apply sampleLoop_submseteq|].
        apply sublist_submseteq, Revised_filterByItems_sublist.
      * apply sublist_submseteq, Revised_filterByItems_sublist.
    + cbn [andb fst].
      split; [apply sublist_submseteq|intros _]; apply Revised_filterByItems_sublist.
Qed.

Lemma Legacy_getEntities_source random s :
  (LegacyEval.getEntities random s).1 ⊆+ source legacyQuery s
  /\ (Selector.targetSelectorSymbol s <> "@r" ->
      (LegacyEval.getEntities random s).1 `sublist_of` source legacyQuery s).
Proof.
  unfold LegacyEval.getEntities, source, legacyQuery. cbv zeta.
  destruct (String.eqb (Selector.targetSelectorSymbol s) "@s").
  - assert (forall l, l `sublist_of` option_list (Selector.executor s) ->
                      LegacyEval.postFilters s l
                        `sublist_of` option_list (Selector.executor s)) as Hs.
    { intros l Hl. etrans; [apply postFilters_sublist|done]. }
    destruct (Selector.executor s) as [executor|]; cbn [fst].
    + split; [apply sublist_submseteq|intros _]; apply Hs, filter_sublist.
    + split; [apply sublist_submseteq|intros _]; by apply Hs.
  - destruct (String.eqb (Selector.targetSelectorSymbol s) "@p");
      [split; [apply sublist_submseteq|intros _]; apply postFilters_sublist|].
    destruct (String.eqb (Selector.targetSelectorSymbol s) "@a");
      [split; [apply sublist_submseteq|intros _]; apply postFilters_sublist|].
    destruct (String.eqb_spec (Selector.targetSelectorSymbol s) "@r") as [Er|Nr]; cbn [fst].
    + split; [|done].
      etrans; [apply sublist_submseteq, postFilters_sublist|].
      case_match; [|apply submseteq_nil_l].
      etrans; [apply sampleLoop_submseteq|].
      apply sublist_submseteq, filterByScores_sublist.
    + split; [apply sublist_submseteq|intros _];
        (etrans; [apply postFilters_sublist|apply filterByScores_sublist]).
Qed.

(** X8.  [getEntities] makes no entity up and returns none more often than it
    was given: the result of [@s] is the executor or nothing, and the
    result of every other symbol is taken, with multiplicity, from the
    host's answer to the one query of the call; but for [@r] it is in the
    host's order.  In both files, for every outcome of the random
    draws. *)
Theorem results_come_from_the_host (random : RandomSource) (s : Selector.t) :
  let revised := (RevisedEval.getEntities random s).1 in
  let legacy := (LegacyEval.getEntities random s).1 in
  revised ⊆+ source RevisedEval.effectiveQuery s
  /\ legacy ⊆+ source legacyQuery s
  /\ (Selector.targetSelectorSymbol s <> "@r" ->
      revised `sublist_of` source RevisedEval.effectiveQuery s
      /\ legacy `sublist_of` source legacyQuery s)
  /\ (NoDup (source RevisedEval.effectiveQuery s) -> NoDup revised)
  /\ (NoDup (source legacyQuery s) -> NoDup legacy).
Proof.
  cbv zeta.
  destruct (Revised_getEntities_source random s) as [HR HR'].
  destruct (Legacy_getEntities_source random s) as [HL HL'].
  split_and!; [done|done|by intros Hr; split; [apply HR'|apply HL']| |];
    intros Hd; eapply NoDup_of_submseteq; eauto.
Qed.

End Sources.

(** ** How many entities [@r] returns *)

Section Counting.
Import Filters EvalSpec.
Context `{Host}.

(** X9.  For [@r], with [Math.random()] in the unit interval and a count of
    [n]: part_000 returns [n] of the matching entities, or all of them
    when there are fewer; EntitySelectorParser.ts draws as many from its
    pool and may lose some of them to the filters it applies afterwards. *)
Theorem random_selection_takes_count
    (random : RandomSource) (s : Selector.t) (n : nat) :
  unitInterval random ->
  Selector.targetSelectorSymbol s = "@r" ->
  (RevisedEval.sampleCount (Selector.queryOptions s) = JsNumber.ofZ (Z.of_nat n) ->
   List.length (RevisedEval.getEntities random s).1
   = Nat.min n (List.length (SamplingSpec.matching s)))
  /\ (RevisedEval.orOne (Query.closest (Selector.queryOptions s)) = JsNumber.ofZ (Z.of_nat n) ->
      (List.length (LegacyEval.getEntities random s).1
       <= Nat.min n (List.length (legacyPool s)))%nat).
Proof.
  intros Hr Hs. split; intros Hn.
  - unfold RevisedEval.getEntities. rewrite Hs. simpl String.eqb. cbv iota.
    fold (SamplingSpec.matching s). rewrite Hn.
    destruct (Nat.ltb_spec 0 (List.length (SamplingSpec.matching s))) as [Hm|Hm];
      cbn [andb fst].
    + destruct (sampleLoop_moves random n Hr (List.length (SamplingSpec.matching s)) 0
                  (SamplingSpec.matching s) []) as [_ Hl]; [done|].
      simpl in Hl. rewrite Hl. lia.
    + lia.
  - unfold LegacyEval.getEntities. rewrite Hs. simpl String.eqb. cbv iota zeta.
    cbn [fst].
    assert (legacyPool s
            = LegacyEval.filterByScores (Query.scoreOptions (Selector.queryOptions s))
                (dimensionGetEntities (Selector.executionDimension s)
                   (LegacyEval.randomQuery
                      (Query.set_scoreOptions None (Selector.queryOptions s))))) as <-.
    { unfold legacyPool, legacyQuery. by rewrite Hs. }
    etrans; [apply sublist_length, postFilters_sublist|]. rewrite Hn.
    destruct (Nat.ltb_spec 0 (List.length (legacyPool s))) as [Hm|Hm].
    + unfold LegacyEval.sampleLoop.
      destruct (sampleLoop_moves random n Hr (List.length (legacyPool s)) 0
                  (legacyPool s) []) as [_ Hl]; [done|].
      simpl in Hl. rewrite Hl. lia.
    + simpl. lia.
Qed.

End Counting.

Section CountingExamples.
Import Filters EvalSpec Example.

Lemma random_selection_takes_count_witness :
  List.length
    (RevisedEval.getEntities zeros
       (Revised.EntitySelector "@r[c=3]" "overworld" None None).1).1
  = Nat.min 3 (List.length
                 (SamplingSpec.matching
                    (Revised.EntitySelector "@r[c=3]" "overworld" None None).1))
  /\ (List.length
        (LegacyEval.getEntities zeros
           (Legacy.EntitySelector "@r[c=3]" "overworld" None None).1).1
      <= Nat.min 3 (List.length
                      (legacyPool (Legacy.EntitySelector "@r[c=3]" "overworld" None None).1)))%nat.
Proof.
  split.
  - apply (random_selection_takes_count zeros _ 3 zeros_unit); reflexivity.
  - apply (random_selection_takes_count zeros _ 3 zeros_unit); reflexivity.
Defined.

(** Two players match [@r[c=3]]: part_000 returns both. *)
Example random_selection_returns_all_when_few :
  (RevisedEval.getEntities zeros
     (Revised.EntitySelector "@r[c=3]" "overworld" None None).1).1 = [near; far].
Proof. reflexivity. Qed.

End CountingExamples.

(** ** The distance test *)

Section Distance.
Import Filters EvalSpec VolumeSpec.





(** Without an origin the radii are not applied, as for every [@s] of
    part_000, whose copy of the query leaves the origin out. *)
Lemma distance_test_needs_an_origin (entity : Entity.t) (options : EntityQueryOptions) :
  (Query.location options = None -> matchesDistance entity options = true)
  /\ matchesDistance entity (RevisedEval.queryForS options) = true.
Proof. split; [intros Hl; unfold matchesDistance; by rewrite Hl|done]. Qed.

End Distance.

Section DistanceExamples.
Import Filters EvalSpec VolumeSpec.


End DistanceExamples.

(** ** Item conditions *)

Section Items.
Import Filters EvalSpec.
Context `{Host}.

Lemma amount_above (a : number) (m : Q) :
  JsNumber.le (Fin 1) a = true -> (m < 1)%Q ->
  JsNumber.le a (Fin m) = false /\ JsNumber.lt (Fin m) a = true.
Proof.
  destruct a as [| | |x]; simpl; try done. intros Hx Hm.
  apply Qle_bool_iff in Hx. split.
  - apply not_true_iff_false. rewrite Qle_bool_iff. lra.
  - apply negb_true_iff, not_true_iff_false. rewrite Qle_bool_iff. lra.
Qed.

(** X11.  An item condition is met by a stack the entity holds, never by the
    lack of one: a quantity whose upper bound is below 1 (as [quantity=0]
    is) matches no entity whose stacks hold at least one item each.  In
    both files. *)
Theorem hasitem_quantity_below_one_never_matches
    (entity : Entity.t) (filter : HasItemFilter.t) (quantity : Range.t) (m : Q) :
  stocked entity ->
  HasItemFilter.quantity filter = Some quantity ->
  Range.max quantity = Some (Fin m) ->
  (m < 1)%Q ->
  RevisedEval._checkSingleEntityHasItem entity filter = false
  /\ LegacyEval._checkSingleEntityHasItem entity filter = false.
Proof.
  intros Hstock Hq Hmax Hm.
  unfold RevisedEval._checkSingleEntityHasItem, LegacyEval._checkSingleEntityHasItem.
  split; apply not_true_iff_false; rewrite existsb_exists;
    intros (slot & Hin%list_elem_of_In & Hmatch).
  - unfold RevisedEval.slotMatches in Hmatch.
    destruct (Slot.itemStack slot) as [stack|] eqn:Es; [|done].
    destruct (amount_above _ m (Hstock slot stack Hin Es) Hm) as [Hle _].
    rewrite Hq in Hmatch. unfold inRange in Hmatch. rewrite Hmax in Hmatch.
    simpl in Hmatch. rewrite Hle in Hmatch.
    rewrite !andb_false_r, ?andb_false_l in Hmatch. simpl in Hmatch.
    by rewrite ?andb_false_r in Hmatch.
  - unfold LegacyEval.slotMatches in Hmatch.
    destruct (Slot.itemStack slot) as [stack|] eqn:Es; [|done].
    destruct (amount_above _ m (Hstock slot stack Hin Es) Hm) as [_ Hlt].
    rewrite Hq in Hmatch. rewrite Hmax in Hmatch. unfold unlessBound at 2 in Hmatch.
    unfold JsNumber.gt in Hmatch. rewrite Hlt in Hmatch.
    simpl in Hmatch. rewrite !andb_false_r, ?andb_false_l in Hmatch. simpl in Hmatch.
    by rewrite ?andb_false_r in Hmatch.
Qed.

End Items.

Section ItemsExamples.
Import Filters EvalSpec Example.

(** The pig holds three torches: [quantity=0] does not match it, and
    neither does it match a player who holds none. *)
Lemma hasitem_quantity_below_one_never_matches_witness :
  RevisedEval._checkSingleEntityHasItem Holder.pig (Holder.torchFilter (Range.exact (Fin 0)))
  = false
  /\ LegacyEval._checkSingleEntityHasItem Holder.pig
       (Holder.torchFilter (Range.exact (Fin 0))) = false.
Proof.
  apply (hasitem_quantity_below_one_never_matches Holder.pig _ (Range.exact (Fin 0)) 0);
    [|reflexivity|reflexivity|reflexivity].
  intros slot stack Hin Es. vm_compute in Hin.
  apply elem_of_cons in Hin as [->|Hin]; [by injection Es as <-|].
  apply elem_of_cons in Hin as [->|Hin]; [done|]. by apply elem_of_nil in Hin.
Defined.

Example hasitem_counts_one_stack :
  RevisedEval._checkSingleEntityHasItem Holder.pig
    (Holder.torchFilter {| Range.min := Some (Fin 2); Range.max := None |}) = true
  /\ LegacyEval._checkSingleEntityHasItem Holder.pig
       (Holder.torchFilter {| Range.min := Some (Fin 4); Range.max := None |}) = false
  /\ RevisedEval._checkSingleEntityHasItem near
       (Holder.torchFilter (Range.exact (Fin 0))) = false.
Proof. split_and!; reflexivity. Qed.

End ItemsExamples.

(** ** The two files side by side *)

Section Agreement.
Import Filters EvalSpec.
Context `{Host}.

(** X12.  On [@a] and [@e] selectors that have no score filter, no volume and no
    item condition, and that give the host no reason to want an origin it
    has not got, the two files ask the host the same query and return its
    answer as it is. *)
Theorem revisions_agree_on_plain_selectors (random : RandomSource) (s : Selector.t) :
  Selector.targetSelectorSymbol s = "@a" \/ Selector.targetSelectorSymbol s = "@e" ->
  Query.scoreOptions (Selector.queryOptions s) = None ->
  Query.volume (Selector.queryOptions s) = None ->
  Selector.hasItemFilters s = [] ->
  defined (Query.location (Selector.queryOptions s)) = true
  \/ RevisedEval.needsLocation (Selector.queryOptions s) = false
  \/ Selector.executionLocation s = None ->
  LegacyEval.getEntities random s = RevisedEval.getEntities random s
  /\ RevisedEval.getEntities random s
     = (dimensionGetEntities (Selector.executionDimension s)
          (if String.eqb (Selector.targetSelectorSymbol s) "@a"
           then Query.set_type (Some "minecraft:player") (Selector.queryOptions s)
           else Selector.queryOptions s), []).
Proof.
  intros Hsym Hscores Hvolume Hitems Hloc.
  assert (Query.set_scoreOptions None (Selector.queryOptions s) = Selector.queryOptions s)
    as Hbase.
  { destruct (Selector.queryOptions s). simpl in *. by subst. }
  assert (RevisedEval.effectiveQuery s
          = RevisedEval.bySymbol (Selector.targetSelectorSymbol s)
              (Query.closest (Selector.queryOptions s)) (Selector.queryOptions s)) as Heff.
  { unfold RevisedEval.effectiveQuery.
    destruct Hloc as [-> | [-> | ->]]; simpl; rewrite ?andb_false_r; try done.
    by case_match. }
  unfold LegacyEval.getEntities, RevisedEval.getEntities, LegacyEval.postFilters,
    LegacyEval.filterByItems, RevisedEval.filterByItems, LegacyEval.filterByScores.
  rewrite Heff, Hbase, Hscores, Hvolume, Hitems.
  destruct Hsym as [-> | ->]; done.
Qed.

End Agreement.

Section AgreementExamples.
Import Filters EvalSpec Example.

Lemma revisions_agree_on_plain_selectors_witness :
  LegacyEval.getEntities zeros
    (Legacy.EntitySelector "@a[tag=!red,m=survival]" "overworld" None None).1
  = RevisedEval.getEntities zeros
      (Legacy.EntitySelector "@a[tag=!red,m=survival]" "overworld" None None).1.
Proof.
  apply (revisions_agree_on_plain_selectors zeros); try reflexivity.
  - by left.
  - by right; left.
Defined.

End AgreementExamples.

(** ** RawMessageParser *)

Section MessageLemmas.
Import Interpreter Filters RawMessageParser.

Lemma depth_element (items : list json) (i : json) :
  i ∈ items -> (depth i < depth (JArr items))%nat.
Proof.
  simpl. induction items as [|x items IH]; intros Hi; [by apply elem_of_nil in Hi|].
  apply elem_of_cons in Hi as [->|Hi]; simpl; [lia|]. specialize (IH Hi). lia.
Qed.

Lemma depth_member (members : list (string * json)) (k : string) (v : json) :
  member k members = Some v -> (depth v < depth (JObj members))%nat.
Proof.
  simpl. induction members as [|[k' v'] members IH]; [done|]. simpl.
  destruct (String.eqb k k'); [intros [= ->]; lia|]. intros Hm. specialize (IH Hm). lia.
Qed.

Lemma depth_property (message : json) (k : string) (v : json) :
  property message k = Some (Some v) -> (depth v < depth message)%nat.
Proof.
  destruct message; simpl; try done. intros [= Hm]. by apply depth_member in Hm.
Qed.

Lemma forEach_ext {A B} (f g : A -> M B) (items : list A) :
  (forall i, i ∈ items -> forall st, f i st = g i st) ->
  forall st, forEach f items st = forEach g items st.
Proof.
  induction items as [|x items IH]; intros Hfg st; [done|].
  simpl. unfold bind. rewrite (Hfg x) by apply list_elem_of_here.
  destruct (g x st) as [b st'| |]; [|done..].
  rewrite IH; [done|]. intros i Hi. apply Hfg. by apply list_elem_of_further.
Qed.

(** [forEach] runs out of fuel only where one of its calls does. *)
Lemma forEach_fuel {A B} (f : A -> M B) (items : list A) :
  (forall i, i ∈ items -> forall st, f i st <> OutOfFuel) ->
  forall st, forEach f items st <> OutOfFuel.
Proof.
  induction items as [|x items IH]; intros Hf st; [done|].
  simpl. unfold bind. pose proof (Hf x (list_elem_of_here _ _) st) as Hx.
  destruct (f x st) as [b st'| |]; [|done..].
  assert (forEach f items st' <> OutOfFuel) as Hrest.
  { apply IH. intros i Hi. apply Hf. by apply list_elem_of_further. }
  by destruct (forEach f items st').
Qed.

Lemma join_empty_app (a b : list string) : join "" (a ++ b) = join "" a +:+ join "" b.
Proof.
  induction a as [|x a IH]; [done|].
  destruct a as [|y a].
  - simpl. destruct b as [|z b]; [by rewrite append_empty_r|]. done.
  - change (join "" ((x :: y :: a) ++ b)) with (x +:+ "" +:+ join "" ((y :: a) ++ b)).
    rewrite IH. change (join "" (x :: y :: a)) with (x +:+ "" +:+ join "" (y :: a)).
    simpl. by rewrite append_assoc.
Qed.

End MessageLemmas.

Section Fuel.
Import Interpreter Filters RawMessageParser.
Context `{Runtime} `{Host} `{World} (random : RandomSource).

Lemma bind_ext {A B} (m m' : M A) (k k' : A -> M B) st :
  m st = m' st -> (forall a st', k a st' = k' a st') -> bind m k st = bind m' k' st.
Proof. unfold bind. intros -> Hk. by destruct (m' st). Qed.

Lemma bind_fuel {A B} (m : M A) (k : A -> M B) st :
  m st <> OutOfFuel -> (forall a st', k a st' <> OutOfFuel) -> bind m k st <> OutOfFuel.
Proof. unfold bind. intros Hm Hk. destruct (m st); [apply Hk|done..]. Qed.

Lemma handleScore_fuel scoreInfo context st :
  handleScore random scoreInfo context st <> OutOfFuel.
Proof.
  unfold handleScore, bind, warn, ret, throw, evaluate.
  repeat case_match; done.
Qed.

Lemma handleSelector_fuel selectorStr context st :
  handleSelector random selectorStr context st <> OutOfFuel.
Proof.
  unfold handleSelector, bind, warn, ret, evaluate. repeat case_match; done.
Qed.

Lemma handleTranslate_ext (f g : json -> M string) translate withProperty :
  (forall v w, withProperty = Some w -> (depth v < S (depth w))%nat ->
               forall st, f v st = g v st) ->
  forall st, handleTranslate f translate withProperty st
             = handleTranslate g translate withProperty st.
Proof.
  intros Hfg st. unfold handleTranslate.
  destruct (truthyProperty withProperty); [|done].
  apply bind_ext; [|done].
  destruct withProperty as [[| | | |items|members]|]; try done.
  - apply forEach_ext. intros i Hi st'. destruct i; try done;
      apply (Hfg _ (JArr items) eq_refl); apply depth_element in Hi; lia.
  - apply bind_ext; [|done]. apply (Hfg _ (JObj members) eq_refl). lia.
Qed.

Lemma handleTranslate_fuel (f : json -> M string) translate withProperty :
  (forall v w, withProperty = Some w -> (depth v < S (depth w))%nat ->
               forall st, f v st <> OutOfFuel) ->
  forall st, handleTranslate f translate withProperty st <> OutOfFuel.
Proof.
  intros Hf st. unfold handleTranslate.
  destruct (truthyProperty withProperty); [|done].
  apply bind_fuel; [|by intros a st'; case_match].
  destruct withProperty as [[| | | |items|members]|]; try done.
  - apply forEach_fuel. intros i Hi st'. destruct i; try done;
      apply (Hf _ (JArr items) eq_refl); apply depth_element in Hi; lia.
  - apply bind_fuel; [|done]. apply (Hf _ (JObj members) eq_refl). lia.
Qed.

Lemma parseSingleMessageWith_ext (f g : json -> M string) context message :
  (forall v, (depth v < depth message)%nat -> forall st, f v st = g v st) ->
  forall st, parseSingleMessageWith random f context message st
             = parseSingleMessageWith random g context message st.
Proof.
  intros Hfg st. unfold parseSingleMessageWith.
  destruct (property message "text") as [text|] eqn:Et; [|done].
  apply bind_ext.
  - repeat (case_match; try done).
    apply handleTranslate_ext. intros v w Hw Hv. apply Hfg.
    destruct (property message "with") as [[w'|]|] eqn:Ew; simpl in Hw; try done.
    injection Hw as ->. apply depth_property in Ew. lia.
  - intros result st'.
    destruct (property message "rawtext") as [[rawtext|]|] eqn:Er; simpl; try done.
    destruct rawtext as [| | | |items|]; try done.
    apply bind_ext; [|done]. apply forEach_ext. intros i Hi st''. apply Hfg.
    apply depth_property in Er. apply depth_element in Hi. lia.
Qed.

Lemma parseSingleMessageWith_fuel (f : json -> M string) context message :
  (forall v, (depth v < depth message)%nat -> forall st, f v st <> OutOfFuel) ->
  forall st, parseSingleMessageWith random f context message st <> OutOfFuel.
Proof.
  intros Hf st. unfold parseSingleMessageWith.
  destruct (property message "text") as [text|] eqn:Et; [|done].
  apply bind_fuel.
  - repeat (case_match; try done);
      first [apply handleScore_fuel | apply handleSelector_fuel | idtac].
    apply handleTranslate_fuel. intros v w Hw Hv. apply Hf.
    destruct (property message "with") as [[w'|]|] eqn:Ew; simpl in Hw; try done.
    injection Hw as ->. apply depth_property in Ew. lia.
  - intros result st'.
    destruct (property message "rawtext") as [[rawtext|]|] eqn:Er; simpl; try done.
    destruct rawtext as [| | | |items|]; try done.
    apply bind_fuel; [|done]. apply forEach_fuel. intros i Hi st''. apply Hf.
    apply depth_property in Er. apply depth_element in Hi. lia.
Qed.

(** More fuel than the message is deep is enough, and how much more does
    not matter. *)
Lemma parseSingleMessage_fuel context (fuel1 : nat) :
  forall fuel2 message,
    (depth message < fuel1)%nat -> (depth message < fuel2)%nat ->
    forall st,
      parseSingleMessage random fuel1 context message st
      = parseSingleMessage random fuel2 context message st
      /\ parseSingleMessage random fuel1 context message st <> OutOfFuel.
Proof.
  induction fuel1 as [|fuel1 IH]; intros fuel2 message Hd1 Hd2 st; [lia|].
  destruct fuel2 as [|fuel2]; [lia|]. simpl. split.
  - apply parseSingleMessageWith_ext. intros v Hv st'. apply IH; lia.
  - apply parseSingleMessageWith_fuel. intros v Hv st'.
    apply (IH fuel1 v); lia.
Qed.

End Fuel.

Section Parse.
Import Interpreter Filters RawMessageParser MessageSpec.
Context `{Runtime} `{Host} `{World} (random : RandomSource).

Lemma forEach_app {A B} (f : A -> M B) (xs ys : list A) :
  forall st,
    forEach f (xs ++ ys) st
    = bind (forEach f xs) (fun a => bind (forEach f ys) (fun b => ret (a ++ b))) st.
Proof.
  induction xs as [|x xs IH]; intros st; simpl.
  - unfold bind, ret. destruct (forEach f ys st); done.
  - unfold bind, ret. destruct (f x st) as [b st'| |]; [|done..].
    rewrite IH. unfold bind, ret.
    destruct (forEach f xs st') as [a st''| |]; [|done..].
    by destruct (forEach f ys st'').
Qed.

(** [parse] on an array, with any fuel above the depth of its members. *)
Lemma parse_array (items : list json) executionSource (fuel : nat) st :
  (forall i, i ∈ items -> (depth i < fuel)%nat) ->
  parse random (Some (JArr items)) executionSource st
  = bind (forEach (parseSingleMessage random fuel (createExecutionContext executionSource)) items)
      (fun texts => ret (join "" texts)) st.
Proof.
  intros Hfuel. unfold parse. simpl negb. cbv iota.
  apply bind_ext; [|done]. apply forEach_ext. intros i Hi st'.
  apply parseSingleMessage_fuel; [|by apply Hfuel].
  apply depth_element in Hi. simpl in *. lia.
Qed.

(** X13.  [parse] ends on every input, with a text or with an exception:
    the calls of [parseSingleMessage] within itself are on values less deep
    each time, and a call with more fuel than its message is deep gives
    what it gives with any other such fuel. *)
Theorem parse_terminates rawInput executionSource st :
  parse random rawInput executionSource st <> OutOfFuel
  /\ forall (fuel : nat) context message,
       (depth message < fuel)%nat ->
       parseSingleMessage random fuel context message st
       = parseSingleMessage random (S (depth message)) context message st.
Proof.
  split.
  - unfold parse.
    assert (forall parsedObject items,
               (forall i, i ∈ items -> (depth i < depth parsedObject)%nat) ->
               bind (forEach (parseSingleMessage random (S (depth parsedObject))
                                (createExecutionContext executionSource)) items)
                 (fun texts => ret (join "" texts)) st <> OutOfFuel) as Hitems.
    { intros parsedObject items Hi. apply bind_fuel; [|done].
      apply forEach_fuel. intros i Hin st'.
      apply (parseSingleMessage_fuel random _ _ (S (depth i))); [|lia].
      specialize (Hi i Hin). lia. }
    destruct (negb (truthyProperty rawInput)); [done|].
    destruct (negb (truthy _)); [done|].
    destruct (parseInputToObject _) as [| | | |items|members] eqn:E; try done.
    + apply (Hitems (JArr items)). intros i Hi. by apply depth_element.
    + destruct (member "rawtext" members) as [rawtext|] eqn:Er.
      * apply depth_member in Er.
        destruct (truthy rawtext);
          [|apply (Hitems (JObj members)); intros i Hi; by apply elem_of_nil in Hi].
        destruct rawtext as [| | | |items|]; try done.
        apply (Hitems (JObj members)). intros i Hi. apply depth_element in Hi. lia.
      * apply (parseSingleMessage_fuel random _ _ (S (depth (JObj members)))); lia.
  - intros fuel context message Hfuel. apply parseSingleMessage_fuel; lia.
Qed.

(** X14.  [parse] on an array made of two is [parse] on the first and then,
    from where that ends, [parse] on the second, with the two texts put
    together; an exception in the first is the exception of the whole. *)
Theorem parse_of_appended_arrays (xs ys : list json) executionSource st :
  parse random (Some (JArr (xs ++ ys))) executionSource st
  = bind (parse random (Some (JArr xs)) executionSource)
      (fun a => bind (parse random (Some (JArr ys)) executionSource)
                  (fun b => ret (a +:+ b))) st.
Proof.
  set (fuel := S (depth (JArr (xs ++ ys)))).
  assert (forall i, i ∈ xs ++ ys -> (depth i < fuel)%nat) as Hfuel.
  { intros i Hi. apply depth_element in Hi. lia. }
  assert (forall i, i ∈ xs -> (depth i < fuel)%nat) as Hxs.
  { intros i Hi. apply Hfuel, elem_of_app. by left. }
  assert (forall i, i ∈ ys -> (depth i < fuel)%nat) as Hys.
  { intros i Hi. apply Hfuel, elem_of_app. by right. }
  set (each := forEach (parseSingleMessage random fuel (createExecutionContext executionSource))).
  set (joined := fun texts : list string => ret (join "" texts)).
  transitivity (bind (bind (each xs) joined)
                  (fun a => bind (bind (each ys) joined) (fun b => ret (a +:+ b))) st).
  - rewrite (parse_array _ _ fuel) by done. fold each. unfold bind at 1.
    unfold each at 1. rewrite forEach_app. fold each. unfold bind, joined, ret.
    destruct (each xs st) as [a st'| |]; [|done..].
    destruct (each ys st') as [b st''| |]; [|done..].
    by rewrite join_empty_app.
  - symmetry. apply bind_ext; [by apply parse_array|]. intros a st'.
    apply bind_ext; [by apply parse_array|done].
Qed.

End Parse.

Section TopLevel.
Import Interpreter Filters RawMessageParser MessageSpec.
Context `{Runtime} `{Host} `{World} (random : RandomSource).

(** X15.  An object with a [rawtext] key, given to [parse] itself, stands
    for its [rawtext] alone: its own [text], [translate], [score] and
    [selector] are not read.  Where [rawtext] is an array, the result is
    that of the array; where it is falsy, the empty text; where it is
    anything else, an exception. *)
Theorem top_level_rawtext_stands_for_the_message
    (members : list (string * json)) executionSource st :
  (forall items, member "rawtext" members = Some (JArr items) ->
     parse random (Some (JObj members)) executionSource st
     = parse random (Some (JArr items)) executionSource st)
  /\ (forall v, member "rawtext" members = Some v -> truthy v = false ->
        parse random (Some (JObj members)) executionSource st = Done "" st)
  /\ (forall v, member "rawtext" members = Some v -> truthy v = true ->
        (forall items, v <> JArr items) ->
        parse random (Some (JObj members)) executionSource st = Thrown st).
Proof.
  split_and!.
  - intros items Hm. rewrite (parse_array random items _ (S (depth (JObj members)))).
    + unfold parse, parseInputToObject; cbn [negb truthyProperty truthy from_option id]. by rewrite Hm.
    + intros i Hi. apply depth_element in Hi. apply depth_member in Hm. lia.
  - intros v Hm Hv. unfold parse, parseInputToObject; cbn [negb truthyProperty truthy from_option id]. by rewrite Hm, Hv.
  - intros v Hm Hv Harr. unfold parse, parseInputToObject; cbn [negb truthyProperty truthy from_option id]. rewrite Hm, Hv.
    destruct v; try done. by destruct (Harr items).
Qed.

(** X16.  A string that [JSON.parse] accepts is parsed as the value it
    denotes, but for a value that is a string itself: that string is the
    result, and is not read as JSON once more. *)
Theorem json_text_is_parsed_as_its_value (text : string) (parsed : json)
    executionSource st :
  JSON_parse text = Some parsed ->
  text <> "" ->
  parse random (Some (JStr text)) executionSource st
  = match parsed with
    | JStr s => Done s st
    | _ => parse random (Some parsed) executionSource st
    end.
Proof.
  intros Hp Ht. unfold parse, parseInputToObject. simpl.
  destruct text as [|c text]; [done|]. simpl. rewrite Hp.
  destruct parsed as [|b|n|s|items|members]; simpl; try done.
  - by destruct b.
  - by destruct (JsNumber.truthy n).
  - by destruct s.
Qed.



End TopLevel.

Section MessageExamples.
Import Interpreter Filters RawMessageParser MessageSpec Example.

(** The same object on its own and as the one member of an array: on its
    own its [text] is left out. *)
Example top_level_rawtext_drops_its_text :
  let message := JObj [("text", JStr "a"); ("rawtext", JArr [JObj [("text", JStr "b")]])] in
  parse zeros (Some message) None start = Done "b" start
  /\ parse zeros (Some (JArr [message])) None start = Done "ab" start.
Proof. split; reflexivity. Qed.

(** A witness of [json_text_is_parsed_as_its_value]: the text of an object
    is parsed as the object. *)
Lemma json_text_is_parsed_as_its_value_witness :
  let text := "{" +:+ Revised.quoted "item" +:+ ":" +:+ Revised.quoted "minecraft:torch" +:+ "}" in
  parse zeros (Some (JStr text)) None start
  = parse zeros (Some (JObj [("item", JStr "minecraft:torch")])) None start.
Proof.
  intros text.
  apply (json_text_is_parsed_as_its_value zeros text
           (JObj [("item", JStr "minecraft:torch")]) None start);
    [reflexivity|discriminate].
Defined.


End MessageExamples.

Section Returns.
Import Interpreter Filters RawMessageParser MessageSpec.
Context `{Runtime} `{Host} `{World} (random : RandomSource).












End Returns.

Section ReturnsExamples.
Import Interpreter Filters RawMessageParser MessageSpec Example.


(** A [null] among the messages is an exception. *)
Example parse_throws_on_a_null_message :
  parse zeros (Some (JArr [JObj [("text", JStr "a")]; JNull])) None start = Thrown start.
Proof. reflexivity. Qed.

End ReturnsExamples.

Section Quiet.
Import Interpreter Filters RawMessageParser MessageSpec.
Context `{Runtime} `{Host} `{World}.

Lemma same_ret {A} (a : A) : same (ret a) (ret a).
Proof. done. Qed.

Lemma same_throw {A} : same (@throw A) throw.
Proof. done. Qed.

Lemma same_bind {A B} (m m' : M A) (k k' : A -> M B) :
  same m m' -> (forall a, same (k a) (k' a)) -> same (bind m k) (bind m' k').
Proof.
  unfold same, bind. intros Hm Hk st st'. rewrite (Hm st st').
  destruct (m' st') as [a st1| |]; simpl; [apply Hk|done..].
Qed.

Lemma same_forEach {A B} (f f' : A -> M B) (items : list A) :
  (forall i, i ∈ items -> same (f i) (f' i)) -> same (forEach f items) (forEach f' items).
Proof.
  induction items as [|x items IH]; intros Hf; [done|]. simpl.
  apply same_bind; [apply Hf, list_elem_of_here|]. intros b.
  apply same_bind; [|done]. apply IH. intros i Hi. apply Hf. by apply list_elem_of_further.
Qed.

Lemma quiet_element (items : list json) (i : json) :
  quiet (JArr items) = true -> i ∈ items -> quiet i = true.
Proof.
  simpl. rewrite forallb_forall. intros Hall Hi. apply Hall. by apply list_elem_of_In.
Qed.

Lemma quiet_member (members : list (string * json)) (k : string) (v : json) :
  quiet (JObj members) = true -> member k members = Some v -> quiet v = true.
Proof.
  induction members as [|[k' v'] members IH]; [done|]. simpl.
  intros [[_ Hv]%andb_true_iff Hrest]%andb_true_iff.
  destruct (String.eqb k k'); [by intros [= <-]|by apply IH].
Qed.

Lemma quiet_property (message : json) (k : string) (v : json) :
  quiet message = true -> property message k = Some (Some v) -> quiet v = true.
Proof.
  destruct message; try done. intros Hn [= Hm]. by apply (quiet_member members k).
Qed.

Lemma quiet_keys (members : list (string * json)) :
  quiet (JObj members) = true ->
  member "score" members = None /\ member "selector" members = None.
Proof.
  induction members as [|[k' v'] members IH]; [done|].
  change (quiet (JObj ((k', v') :: members)))
    with (negb (String.eqb "score" k') && negb (String.eqb "selector" k') && quiet v'
          && quiet (JObj members)).
  intros [[[Hs Hl]%andb_true_iff _]%andb_true_iff Hrest]%andb_true_iff.
  apply negb_true_iff in Hs, Hl. unfold member; fold member. rewrite Hs, Hl. by apply IH.
Qed.

Lemma quiet_components (message : json) :
  quiet message = true ->
  default None (property message "score") = None
  /\ default None (property message "selector") = None.
Proof.
  destruct message; try done. intros [Hs Hl]%quiet_keys. simpl. by rewrite Hs, Hl.
Qed.

Lemma handleTranslate_same (f f' : json -> M string) translate withProperty :
  (forall w, withProperty = Some w -> quiet w = true) ->
  (forall v w, withProperty = Some w -> (depth v < S (depth w))%nat ->
               quiet v = true -> same (f v) (f' v)) ->
  same (handleTranslate f translate withProperty) (handleTranslate f' translate withProperty).
Proof.
  intros Hw Hf. unfold handleTranslate.
  destruct (truthyProperty withProperty); [|done].
  apply same_bind; [|intros a; by case_match].
  destruct withProperty as [[| | | |items|members]|]; try done.
  - apply same_forEach. intros i Hi.
    pose proof (depth_element _ _ Hi) as Hd.
    pose proof (quiet_element _ _ (Hw _ eq_refl) Hi) as Hq.
    destruct i; try done; apply (Hf _ (JArr items) eq_refl); try done; lia.
  - apply same_bind; [|done].
    apply (Hf _ (JObj members) eq_refl); [lia|by apply Hw].
Qed.

Lemma parseSingleMessageWith_same random random' (f f' : json -> M string)
    context context' message :
  quiet message = true ->
  (forall v, (depth v < depth message)%nat -> quiet v = true -> same (f v) (f' v)) ->
  same (parseSingleMessageWith random f context message)
       (parseSingleMessageWith random' f' context' message).
Proof.
  intros Hq Hf. unfold parseSingleMessageWith.
  destruct (quiet_components message Hq) as [Hs Hl].
  destruct (property message "text") as [text|] eqn:Et; [|done].
  rewrite Hs, Hl. cbn [from_option id truthyProperty andb].
  apply same_bind.
  - destruct (truthyProperty text); [done|].
    destruct (truthyProperty _); [|done].
    apply handleTranslate_same.
    + intros w Hw. destruct (property message "with") as [[w'|]|] eqn:Ew; try done.
      injection Hw as ->. by apply (quiet_property message "with").
    + intros v w Hw Hv Hqv. apply Hf; [|done].
      destruct (property message "with") as [[w'|]|] eqn:Ew; try done.
      injection Hw as ->. apply depth_property in Ew. lia.
  - intros result.
    destruct (property message "rawtext") as [[rawtext|]|] eqn:Er; simpl; try done.
    destruct rawtext as [| | | |items|]; try done.
    apply same_bind; [|done]. apply same_forEach. intros i Hi.
    pose proof (quiet_property _ _ _ Hq Er) as Hitems.
    apply Hf; [|by apply (quiet_element items)].
    apply depth_property in Er. apply depth_element in Hi. lia.
Qed.

Lemma parseSingleMessage_same random random' context context' (fuel : nat) :
  forall message,
    quiet message = true ->
    same (parseSingleMessage random fuel context message)
         (parseSingleMessage random' fuel context' message).
Proof.
  induction fuel as [|fuel IH]; intros message Hq; [done|]. simpl.
  apply parseSingleMessageWith_same; [done|]. intros v _ Hv. by apply IH.
Qed.

(** X19.  A message with no [score] and no [selector] key in it is parsed
    without a look at the game: what [parse] gives is the same for any
    random numbers, any execution source and any state, and the state is
    left as it was (nothing is written, no random number is drawn). *)
Theorem quiet_message_is_parsed_alone (random random' : RandomSource) (input : json)
    executionSource executionSource' st st' :
  quiet (parseInputToObject input) = true ->
  parse random (Some input) executionSource st
  = ending st (parse random' (Some input) executionSource' st').
Proof.
  intros Hq. unfold parse. cbn [from_option id].
  destruct (negb (truthyProperty (Some input))); [done|].
  destruct (negb (truthy (parseInputToObject input))); [done|].
  assert (forall items,
             (forall i, i ∈ items -> quiet i = true) ->
             same
               (bind (forEach (parseSingleMessage random (S (depth (parseInputToObject input)))
                                 (createExecutionContext executionSource)) items)
                  (fun texts => ret (join "" texts)))
               (bind (forEach (parseSingleMessage random' (S (depth (parseInputToObject input)))
                                 (createExecutionContext executionSource')) items)
                  (fun texts => ret (join "" texts)))) as Hitems.
  { intros items Hi. apply same_bind; [|done]. apply same_forEach. intros i Hin.
    apply parseSingleMessage_same. by apply Hi. }
  destruct (parseInputToObject input) as [| | | |items|members] eqn:E; try done.
  - apply Hitems. intros i Hi. by apply (quiet_element items).
  - destruct (member "rawtext" members) as [rawtext|] eqn:Er.
    + destruct (truthy rawtext);
        [|apply Hitems; intros i Hi; by apply elem_of_nil in Hi].
      destruct rawtext as [| | | |items|]; try done.
      apply Hitems. intros i Hi.
      apply (quiet_element items); [|done]. by apply (quiet_member members "rawtext").
    + by apply parseSingleMessage_same.
Qed.

End Quiet.

Section QuietExamples.
Import Interpreter Filters RawMessageParser MessageSpec Example.

(** A witness of [quiet_message_is_parsed_alone]: a text and a
    translation, parsed at [near] with random numbers of 0 and, after some
    other work, at no source with random numbers of a half. *)
Lemma quiet_message_is_parsed_alone_witness :
  let input :=
    JArr [JObj [("text", JStr "Hello ")];
          JObj [("translate", JStr "item.apple.name"); ("with", JArr [JStr "3"])]] in
  let later := {| drawn := 4; log := [ObjectiveNotFound "level"] |} in
  parse zeros (Some input) (Some (SourceEntity near)) start
  = ending start (parse (fun _ => 1 # 2)%Q (Some input) None later).
Proof.
  intros input later.
  apply (quiet_message_is_parsed_alone zeros (fun _ => 1 # 2)%Q input
           (Some (SourceEntity near)) None start later).
  reflexivity.
Defined.

(** What that message is parsed to. *)
Example quiet_message_text :
  parse zeros
    (Some (JArr [JObj [("text", JStr "Hello ")];
                 JObj [("translate", JStr "item.apple.name"); ("with", JArr [JStr "3"])]]))
    None start
  = Done "Hello item.apple.name [3]" start.
Proof. reflexivity. Qed.

End QuietExamples.

(** ** Colour codes *)

Section Codes.
Import ColorCodes.

Lemma code_is_no_sign (d : ascii) :
  isColorCode d = true -> Ascii.eqb d sectionSign = false.
Proof.
  intros Hd. destruct (Ascii.eqb d sectionSign) eqn:E; [|done].
  apply Ascii.eqb_eq in E. by subst d.
Qed.

(** A code at the head of a text is no start of a pair. *)
Lemma codes_after_code (d : ascii) (rest : string) :
  isColorCode d = true -> codes (String d rest) = codes rest.
Proof.
  intros Hd. simpl. rewrite (code_is_no_sign d Hd). by destruct rest.
Qed.

Lemma strip_after_code (d : ascii) (rest : string) :
  isColorCode d = true ->
  stripColorCodes (String d rest) = String d (stripColorCodes rest).
Proof.
  intros Hd. simpl. rewrite (code_is_no_sign d Hd). by destruct rest.
Qed.

Lemma strip_step (c d : ascii) (rest : string) :
  stripColorCodes (String c (String d rest))
  = if Ascii.eqb c sectionSign && isColorCode d
    then stripColorCodes rest
    else String c (stripColorCodes (String d rest)).
Proof. done. Qed.

Lemma codes_step (c d : ascii) (rest : string) :
  codes (String c (String d rest))
  = ((if Ascii.eqb c sectionSign && isColorCode d then 1 else 0)
     + codes (String d rest))%nat.
Proof. done. Qed.

Lemma strip_length_pair (s : string) :
  (String.length (stripColorCodes s) + 2 * codes s = String.length s)%nat
  /\ forall c,
       (String.length (stripColorCodes (String c s)) + 2 * codes (String c s)
        = String.length (String c s))%nat.
Proof.
  induction s as [|d rest [IH1 IH2]]; [by split|]. split; [apply IH2|]. intros c.
  rewrite strip_step, codes_step.
  destruct (Ascii.eqb c sectionSign && isColorCode d) eqn:E.
  - apply andb_true_iff in E as [_ Hd]. rewrite (codes_after_code d rest Hd).
    simpl String.length. lia.
  - specialize (IH2 d). simpl String.length in *. lia.
Qed.

Lemma strip_unchanged_pair (s : string) :
  (codes s = O -> stripColorCodes s = s)
  /\ forall c, codes (String c s) = O -> stripColorCodes (String c s) = String c s.
Proof.
  induction s as [|d rest [IH1 IH2]]; [by split|]. split; [apply IH2|]. intros c.
  rewrite strip_step, codes_step.
  destruct (Ascii.eqb c sectionSign && isColorCode d); [done|].
  intros Hc. by rewrite IH2.
Qed.

(** X20.  Taking the colour codes out of a text takes out two characters
    for each place where a section sign has a code after it, and nothing
    else; so the text is left as it is exactly where there is no such
    place. *)
Theorem stripColorCodes_removes_the_codes (s : string) :
  (String.length (stripColorCodes s) + 2 * codes s = String.length s)%nat
  /\ (stripColorCodes s = s <-> codes s = O).
Proof.
  destruct (strip_length_pair s) as [Hl _]. split; [done|]. split.
  - intros Hs. rewrite Hs in Hl. lia.
  - apply strip_unchanged_pair.
Qed.

(** X21.  The result can hold a colour code still, and taking the codes
    out a second time gives another text: a section sign in front of a
    code stays, and makes with the character after the code a code of its
    own. *)
Theorem stripColorCodes_is_not_idempotent (c d : ascii) (rest : string) :
  isColorCode c = true ->
  isColorCode d = true ->
  let s := String sectionSign (String sectionSign (String c (String d rest))) in
  stripColorCodes s = String sectionSign (String d (stripColorCodes rest))
  /\ stripColorCodes (stripColorCodes s) <> stripColorCodes s.
Proof.
  intros Hc Hd s.
  assert (stripColorCodes s = String sectionSign (String d (stripColorCodes rest))) as Hs.
  { unfold s. rewrite strip_step. change (isColorCode sectionSign) with false.
    rewrite andb_false_r. rewrite strip_step, Hc. change (Ascii.eqb sectionSign sectionSign) with true.
    cbn [andb]. by rewrite (strip_after_code d rest Hd). }
  split; [done|]. rewrite Hs, strip_step, Hd.
  change (Ascii.eqb sectionSign sectionSign) with true. cbn [andb].
  intros Heq. apply (f_equal String.length) in Heq.
  destruct (strip_length_pair (stripColorCodes rest)) as [Hl _].
  simpl String.length in Heq. lia.
Qed.

End Codes.

Section CodesExamples.
Import ColorCodes.

(** A witness of [stripColorCodes_is_not_idempotent]: from the two signs
    and [ab], the sign and [b] are left. *)
Lemma stripColorCodes_is_not_idempotent_witness :
  let s := String sectionSign (String sectionSign "ab") in
  stripColorCodes s = String sectionSign "b"
  /\ stripColorCodes (stripColorCodes s) <> stripColorCodes s.
Proof.
  apply (stripColorCodes_is_not_idempotent "a" "b" ""); reflexivity.
Defined.

End CodesExamples.

(** ** The three message parsers side by side *)

Section Parsers.
Import Interpreter Filters RawMessageParser MessageSpec ColorCodes.
Context `{Runtime} `{Host} `{World} (random : RandomSource).

(** X22.  A string that [JSON.parse] refuses: [RawMessageParser] gives it
    as it is; [RawTextParser] gives it with its colour codes taken out; the
    revision of part_001 takes them out twice, in [parseInputToObject] and
    again in [parse].  Nothing is written or drawn. *)
Theorem text_that_is_not_json_is_given_back (text : string) executionSource st :
  JSON_parse text = None ->
  RawMessageParser.parse random (Some (JStr text)) executionSource st = Done text st
  /\ RawTextParser.parse random (Some (JStr text)) executionSource st
     = Done (stripColorCodes text) st
  /\ RawTextParserRevised.parse random (Some (JStr text)) executionSource st
     = Done (stripColorCodes (stripColorCodes text)) st.
Proof.
  intros Hp. split_and!.
  - unfold RawMessageParser.parse, parseInputToObject. simpl. rewrite Hp. simpl.
    by destruct text.
  - unfold RawTextParser.parse. simpl. rewrite Hp. by destruct text.
  - unfold RawTextParserRevised.parse, RawTextParserRevised.parseInputToObject.
    simpl. rewrite Hp. simpl. destruct text as [|c text]; [done|]. simpl negb.
    cbv iota. by destruct (stripColorCodes (String c text)).
Qed.

Lemma forEach_textMessage (f : json -> M string) (g : string -> string)
    (ss : list string) :
  (forall s st, f (textMessage s) st = Done (g s) st) ->
  forall st, forEach f (textMessage <$> ss) st = Done (g <$> ss) st.
Proof.
  intros Hf. induction ss as [|s ss IH]; intros st; [done|].
  change (forEach f (textMessage <$> s :: ss) st)
    with (bind (f (textMessage s))
            (fun b => bind (forEach f (textMessage <$> ss)) (fun bs => ret (b :: bs))) st).
  unfold bind. by rewrite Hf, IH.
Qed.

(** X23.  An array of messages that have a [text] and nothing else is
    parsed to their texts put together, in [RawTextParser] each without
    its colour codes, and the state is left as it was. *)
Theorem text_messages_are_put_together (ss : list string) executionSource st :
  RawMessageParser.parse random (Some (JArr (textMessage <$> ss))) executionSource st
  = Done (join "" ss) st
  /\ RawTextParser.parse random (Some (JArr (textMessage <$> ss))) executionSource st
     = Done (join "" (stripColorCodes <$> ss)) st
  /\ RawTextParserRevised.parse random (Some (JArr (textMessage <$> ss))) executionSource st
     = Done (join "" (stripColorCodes <$> ss)) st.
Proof.
  split_and!.
  - unfold RawMessageParser.parse. cbn [negb truthyProperty truthy from_option id parseInputToObject].
    unfold bind. rewrite (forEach_textMessage _ (fun s => s)).
    + by rewrite list_fmap_id.
    + intros s st'. by destruct s.
  - unfold RawTextParser.parse, RawTextParser.parseObject.
    cbn [negb truthyProperty truthy].
    unfold bind. rewrite (forEach_textMessage _ stripColorCodes); [done|].
    intros s st'. by destruct s.
  - unfold RawTextParserRevised.parse.
    cbn [negb truthyProperty truthy from_option id RawTextParserRevised.parseInputToObject].
    unfold bind. rewrite (forEach_textMessage _ stripColorCodes); [done|].
    intros s st'. by destruct s.
Qed.


(** X25.  An object given to [parse] itself whose [rawtext] is no array:
    [RawTextParser] reads it as a message, so that its [text] counts; the
    revision of part_001 does not read the [text], and gives the empty
    text or throws. *)
Theorem top_level_rawtext_that_is_no_array (members : list (string * json))
    (v : json) (t : string) executionSource st :
  member "rawtext" members = Some v ->
  (forall items, v <> JArr items) ->
  member "text" members = Some (JStr t) ->
  t <> "" ->
  RawTextParser.parse random (Some (JObj members)) executionSource st
  = Done (stripColorCodes t) st
  /\ RawTextParserRevised.parse random (Some (JObj members)) executionSource st
     = if truthy v then Thrown st else Done "" st.
Proof.
  intros Hr Hv Ht Hne. split.
  - unfold RawTextParser.parse, RawTextParser.parseObject.
    cbn [negb truthyProperty truthy]. rewrite Hr.
    assert (RawTextParser.parseSingleMessage random (S (depth (JObj members)))
              (createExecutionContext executionSource) (JObj members) st
            = Done (stripColorCodes t) st) as Hm.
    { cbn [RawTextParser.parseSingleMessage].
      unfold RawTextParser.parseSingleMessageWith, property.
      rewrite Ht, Hr. cbn [from_option id truthyProperty truthy].
      destruct t as [|c t]; [done|]. simpl negb. cbv iota.
      unfold bind, RawTextParser.plainText, ret. destruct v; try done.
      by destruct (Hv items). }
    destruct v; try done. by destruct (Hv items).
  - unfold RawTextParserRevised.parse.
    cbn [negb truthyProperty truthy from_option id RawTextParserRevised.parseInputToObject].
    rewrite Hr. destruct (truthy v); [|done]. destruct v; try done. by destruct (Hv items).
Qed.

End Parsers.

Section ParsersExamples.
Import Interpreter Filters RawMessageParser MessageSpec ColorCodes Example.

(** A witness of [text_that_is_not_json_is_given_back]: the two signs and
    [ab]. *)
Lemma text_that_is_not_json_is_given_back_witness :
  let text := String sectionSign (String sectionSign "ab") in
  RawMessageParser.parse zeros (Some (JStr text)) None start = Done text start
  /\ RawTextParser.parse zeros (Some (JStr text)) None start
     = Done (stripColorCodes text) start
  /\ RawTextParserRevised.parse zeros (Some (JStr text)) None start
     = Done (stripColorCodes (stripColorCodes text)) start.
Proof.
  apply (text_that_is_not_json_is_given_back zeros
           (String sectionSign (String sectionSign "ab")) None start).
  reflexivity.
Defined.

(** What the two give there. *)
Example revisions_differ_on_a_doubled_sign :
  let text := String sectionSign (String sectionSign "ab") in
  RawTextParser.parse zeros (Some (JStr text)) None start
  = Done (String sectionSign "b") start
  /\ RawTextParserRevised.parse zeros (Some (JStr text)) None start = Done "" start.
Proof. split; reflexivity. Qed.


(** A witness of [top_level_rawtext_that_is_no_array]: a [rawtext] of
    [null]. *)
Lemma top_level_rawtext_that_is_no_array_witness :
  let members := [("text", JStr "a"); ("rawtext", JNull)] in
  RawTextParser.parse zeros (Some (JObj members)) None start = Done "a" start
  /\ RawTextParserRevised.parse zeros (Some (JObj members)) None start = Done "" start.
Proof.
  intros members.
  apply (top_level_rawtext_that_is_no_array zeros members JNull "a" None start);
    [reflexivity|discriminate|reflexivity|discriminate].
Defined.

End ParsersExamples.

Section TextFuel.
Import Interpreter Filters RawMessageParser MessageSpec ColorCodes.
Context `{Runtime} `{Host} `{World} (random : RandomSource).

Lemma tryCatch_fuel {A} (m handler : M A) st :
  m st <> OutOfFuel -> (forall st', handler st' <> OutOfFuel) ->
  tryCatch m handler st <> OutOfFuel.
Proof. unfold tryCatch. intros Hm Hh. destruct (m st); [done|apply Hh|done]. Qed.

(** The branch of [with], in both classes. *)
Lemma withValues_fuel (f : json -> M string) (withProperty : option json) st :
  (forall v w, withProperty = Some w -> (depth v < S (depth w))%nat ->
               forall st, f v st <> OutOfFuel) ->
  match withProperty with
  | Some (JArr items) =>
      bind (forEach (fun val => match val with
                                | JStr text => ret text
                                | _ => f val
                                end) items)
        (fun values => ret (join ", " values))
  | Some other => f other
  | None => ret ""
  end st <> OutOfFuel.
Proof.
  intros Hf. destruct withProperty as [w|]; [|done].
  assert (f w st <> OutOfFuel) as Hw by (apply (Hf w w eq_refl); lia).
  destruct w as [| | | |items|members]; try done.
  apply bind_fuel; [|done]. apply forEach_fuel. intros i Hi st'.
  apply depth_element in Hi.
  destruct i; try done; apply (Hf _ (JArr items) eq_refl); lia.
Qed.

Lemma translateText_fuel (f : json -> M string) translate withProperty :
  (forall v w, withProperty = Some w -> (depth v < S (depth w))%nat ->
               forall st, f v st <> OutOfFuel) ->
  forall st, RawTextParser.translateText f translate withProperty st <> OutOfFuel.
Proof.
  intros Hf st. unfold RawTextParser.translateText.
  destruct (truthyProperty withProperty); [|done].
  apply bind_fuel; [|done]. by apply withValues_fuel.
Qed.

Lemma handleTranslate_revised_fuel (f : json -> M string) translate withProperty :
  (forall v w, withProperty = Some w -> (depth v < S (depth w))%nat ->
               forall st, f v st <> OutOfFuel) ->
  forall st, RawTextParserRevised.handleTranslate f translate withProperty st <> OutOfFuel.
Proof.
  intros Hf st. unfold RawTextParserRevised.handleTranslate.
  destruct (truthyProperty withProperty); [|done].
  apply bind_fuel; [|done]. by apply withValues_fuel.
Qed.

Lemma plainText_fuel (text : option json) st : RawTextParser.plainText text st <> OutOfFuel.
Proof. unfold RawTextParser.plainText. by repeat case_match. Qed.

Lemma scoreValueText_fuel scoreInfo context st :
  RawTextParser.scoreValueText random scoreInfo context st <> OutOfFuel.
Proof.
  unfold RawTextParser.scoreValueText, bind, warn, ret, throw, evaluate.
  repeat case_match; done.
Qed.

Lemma selectorText_fuel selectorStr context st :
  RawTextParser.selectorText random selectorStr context st <> OutOfFuel.
Proof.
  unfold RawTextParser.selectorText, bind, warn, ret, evaluate. repeat case_match; done.
Qed.

Lemma handleScore_revised_fuel scoreInfo context st :
  RawTextParserRevised.handleScore random scoreInfo context st <> OutOfFuel.
Proof.
  unfold RawTextParserRevised.handleScore, tryCatch,
    RawTextParserRevised.getScoreForExecutor, RawTextParserRevised.getScoreForSelector,
    RawTextParserRevised.getScoreForName, bind, warn, ret, throw, evaluate.
  repeat case_match; simplify_eq; done.
Qed.

Lemma handleSelector_revised_fuel selectorStr context st :
  RawTextParserRevised.handleSelector random selectorStr context st <> OutOfFuel.
Proof.
  unfold RawTextParserRevised.handleSelector, bind, warn, ret, evaluate.
  repeat case_match; done.
Qed.

(** What comes after the first part of a message, in the three classes. *)
Lemma rawtext_fuel (f : json -> M string) (message : json) (result : string) st :
  (forall v, (depth v < depth message)%nat -> forall st, f v st <> OutOfFuel) ->
  match default None (property message "rawtext") with
  | Some (JArr items) =>
      bind (forEach f items) (fun texts => ret (result +:+ join "" texts))
  | _ => ret result
  end st <> OutOfFuel.
Proof.
  intros Hf.
  destruct (property message "rawtext") as [[rawtext|]|] eqn:Er; simpl; try done.
  destruct rawtext as [| | | |items|]; try done.
  apply bind_fuel; [|done]. apply forEach_fuel. intros i Hi st''. apply Hf.
  apply depth_property in Er. apply depth_element in Hi. lia.
Qed.

Lemma with_depth (message v w : json) :
  default None (property message "with") = Some w ->
  (depth v < S (depth w))%nat -> (depth v < depth message)%nat.
Proof.
  intros Hw Hv. destruct (property message "with") as [[w'|]|] eqn:Ew; simpl in Hw; try done.
  injection Hw as ->. apply depth_property in Ew. lia.
Qed.

Lemma text_parseSingleMessageWith_fuel (f : json -> M string) context message :
  (forall v, (depth v < depth message)%nat -> forall st, f v st <> OutOfFuel) ->
  forall st, RawTextParser.parseSingleMessageWith random f context message st <> OutOfFuel.
Proof.
  intros Hf st. unfold RawTextParser.parseSingleMessageWith.
  destruct (property message "text") as [text|] eqn:Et; [|done].
  apply bind_fuel; [|intros result st'; by apply rawtext_fuel].
  repeat (case_match; try done);
    first [apply plainText_fuel | apply scoreValueText_fuel | apply selectorText_fuel | idtac].
  apply translateText_fuel. intros v w Hw Hv. apply Hf. by apply (with_depth message v w).
Qed.

Lemma revised_parseSingleMessageWith_fuel (f : json -> M string) context message :
  (forall v, (depth v < depth message)%nat -> forall st, f v st <> OutOfFuel) ->
  forall st,
    RawTextParserRevised.parseSingleMessageWith random f context message st <> OutOfFuel.
Proof.
  intros Hf st. unfold RawTextParserRevised.parseSingleMessageWith.
  destruct (property message "text") as [text|] eqn:Et; [|done].
  apply bind_fuel; [|intros result st'; by apply rawtext_fuel].
  repeat (case_match; try done);
    first [apply plainText_fuel | apply handleScore_revised_fuel
          | apply handleSelector_revised_fuel | idtac].
  apply handleTranslate_revised_fuel. intros v w Hw Hv. apply Hf.
  by apply (with_depth message v w).
Qed.

Lemma text_parseSingleMessage_fuel context (fuel : nat) :
  forall message, (depth message < fuel)%nat ->
    forall st, RawTextParser.parseSingleMessage random fuel context message st <> OutOfFuel.
Proof.
  induction fuel as [|fuel IH]; intros message Hd st; [lia|]. simpl.
  apply text_parseSingleMessageWith_fuel. intros v Hv st'. apply IH. lia.
Qed.

Lemma revised_parseSingleMessage_fuel context (fuel : nat) :
  forall message, (depth message < fuel)%nat ->
    forall st,
      RawTextParserRevised.parseSingleMessage random fuel context message st <> OutOfFuel.
Proof.
  induction fuel as [|fuel IH]; intros message Hd st; [lia|]. simpl.
  apply revised_parseSingleMessageWith_fuel. intros v Hv st'. apply IH. lia.
Qed.

(** X26.  The two [RawTextParser.parse] end on every input, with a text or
    with an exception. *)
Theorem text_parse_terminates rawInput executionSource st :
  RawTextParser.parse random rawInput executionSource st <> OutOfFuel
  /\ RawTextParserRevised.parse random rawInput executionSource st <> OutOfFuel.
Proof.
  split.
  - assert (forall parsedObject,
               RawTextParser.parseObject random parsedObject executionSource st
               <> OutOfFuel) as Hobject.
    { intros parsedObject. unfold RawTextParser.parseObject.
      assert (forall items,
                 (forall i, i ∈ items -> (depth i < depth parsedObject)%nat) ->
                 bind (forEach (RawTextParser.parseSingleMessage random
                                  (S (depth parsedObject))
                                  (createExecutionContext executionSource)) items)
                   (fun texts => ret (join "" texts)) st <> OutOfFuel) as Hitems.
      { intros items Hi. apply bind_fuel; [|done]. apply forEach_fuel. intros i Hin st'.
        apply text_parseSingleMessage_fuel. specialize (Hi i Hin). lia. }
      destruct (negb (truthy parsedObject)); [done|].
      destruct parsedObject as [| | | |items|members]; try done.
      - apply Hitems. intros i Hi. by apply depth_element.
      - assert (RawTextParser.parseSingleMessage random (S (depth (JObj members)))
                  (createExecutionContext executionSource) (JObj members) st
                <> OutOfFuel) as Hm by (apply text_parseSingleMessage_fuel; lia).
        destruct (member "rawtext" members) as [rawtext|] eqn:Er; [|done].
        destruct rawtext as [| | | |items|]; try done.
        apply Hitems. intros i Hi. apply depth_element in Hi. apply depth_member in Er. lia. }
    unfold RawTextParser.parse.
    destruct (negb (truthyProperty rawInput)); [done|].
    destruct rawInput as [[| | |text| |]|]; try done; try apply Hobject.
    destruct (JSON_parse text); [apply Hobject|done].
  - unfold RawTextParserRevised.parse.
    assert (forall parsedObject items,
               (forall i, i ∈ items -> (depth i < depth parsedObject)%nat) ->
               bind (forEach (RawTextParserRevised.parseSingleMessage random
                                (S (depth parsedObject))
                                (createExecutionContext executionSource)) items)
                 (fun texts => ret (join "" texts)) st <> OutOfFuel) as Hitems.
    { intros parsedObject items Hi. apply bind_fuel; [|done].
      apply forEach_fuel. intros i Hin st'.
      apply revised_parseSingleMessage_fuel. specialize (Hi i Hin). lia. }
    destruct (negb (truthyProperty rawInput)); [done|].
    destruct (negb (truthy _)); [done|].
    destruct (RawTextParserRevised.parseInputToObject _) as [| | | |items|members] eqn:E;
      try done.
    + apply (Hitems (JArr items)). intros i Hi. by apply depth_element.
    + destruct (member "rawtext" members) as [rawtext|] eqn:Er.
      * apply depth_member in Er.
        destruct (truthy rawtext);
          [|apply (Hitems (JObj members)); intros i Hi; by apply elem_of_nil in Hi].
        destruct rawtext as [| | | |items|]; try done.
        apply (Hitems (JObj members)). intros i Hi. apply depth_element in Hi. lia.
      * apply revised_parseSingleMessage_fuel. lia.
Qed.

End TextFuel.

(** ** What the results satisfy *)

Section Soundness.
Import Filters EvalSpec.
Context `{Host}.






(** X28.  In EntitySelectorParser.ts the score filters of an [@p] or [@a]
    selector have no effect: they are taken out of the query and no filter
    is run for them, so the result is the same with any others or with
    none. *)
Theorem legacy_scores_have_no_effect_on_players (random : RandomSource) (s : Selector.t)
    (scores : option (list ScoreFilter.t)) :
  Selector.targetSelectorSymbol s = "@p" \/ Selector.targetSelectorSymbol s = "@a" ->
  LegacyEval.getEntities random (Selector.updQuery (Query.set_scoreOptions scores) s)
  = LegacyEval.getEntities random s.
Proof.
  intros Hs. unfold LegacyEval.getEntities. destruct s as [? ? ? ? symbol q filters].
  cbn in Hs |- *. destruct q. cbn.
  destruct Hs as [-> | ->]; reflexivity.
Qed.

End Soundness.

Section SoundnessExamples.
Import Filters EvalSpec Example.

(** A witness of [legacy_scores_have_no_effect_on_players]: all players
    with a level of five or more. *)
Lemma legacy_scores_have_no_effect_on_players_witness :
  let s := (Legacy.EntitySelector "@a[scores={level=5..}]" "overworld" None None).1 in
  LegacyEval.getEntities zeros (Selector.updQuery (Query.set_scoreOptions None) s)
  = LegacyEval.getEntities zeros s.
Proof.
  intros s. apply (legacy_scores_have_no_effect_on_players zeros s None).
  right. reflexivity.
Defined.

(** There EntitySelectorParser.ts returns both players, and part_000,
    which hands the score filters to the host, the one whose level is
    seven. *)
Example legacy_all_players_whatever_the_score :
  (LegacyEval.getEntities zeros
     (Legacy.EntitySelector "@a[scores={level=5..}]" "overworld" None None).1).1
  = [near; far]
  /\ (RevisedEval.getEntities zeros
        (Revised.EntitySelector "@a[scores={level=5..}]" "overworld" None None).1).1
     = [far].
Proof. split; reflexivity. Qed.

End SoundnessExamples.
